(** * The bidirectional quality-comparison engine of [video_batch_compare.py]

    A shallow embedding of the comparison core of [VideoComparator]: the output
    parsers, the progress estimator, the winner decisions, the per-row pipeline
    and the submission loop of the scheduler, with the properties the
    specification states about them; and of the handlers of the interface
    that feed and show a run (the file lists, the progress bars, the score
    labels, the collection of the results), with properties the code shows.

    Conventions of the embedding.
    - A Python [float] is a binary64 number: Rocq's primitive [float], with the
      IEEE operations of the kernel.  [float(token)] and the true division of
      two integers are the correctly rounded quotient of two integers, computed
      with the specification level division of [SpecFloat].
    - A Python [str] is a [string]; its characters are the code points below
      256.  The character classes of [re] ([\s], [\d], [.]) are the Python 3
      classes restricted to that range.
    - Methods that log, report progress, read the stop flag or start a
      subprocess run in the monad [M]: a reader of the environment [env] (the
      stop flag as the successive reads see it, what each subprocess prints,
      the two file lists, the metric selector), a state [state] (queues, trace
      of started subprocesses, trace of flag reads) and Python exceptions.
      State changes made before an exception is raised are kept, as in Python.
    - The model follows one thread at a time (the scheduler thread in
      [run_comparisons], a worker in [compare_row]): the stop flag, which
      another thread sets, is what the environment gives to each read, and the
      queues hold what this thread puts.
    - An f-string is kept as the list of its fragments ([frag]); the rendering
      of numbers as text is not modelled. *)

From Stdlib Require Import Floats ZArith NArith String Ascii List Lia Bool Arith.
From Stdlib Require Import DecimalString DecimalNat Permutation.
Import ListNotations.

Set Warnings "-inexact-float".

(** ** Python values, exceptions and the monad of the methods *)

Inductive exn : Type :=
| ValueError
| IndexError
| OverflowError
| ZeroDivisionError
| OSError
| RuntimeError.

Inductive result (A : Type) : Type :=
| Ok (a : A)
| Raise (e : exn).

Arguments Ok {A} a.
Arguments Raise {A} e.

(** A fragment of an f-string: literal text, an interpolated integer, text,
    float (with the number of decimals of its format), exception or base name
    of a path. *)
Inductive frag : Type :=
| T (s : string)
| I (z : Z)
| F (decimals : nat) (x : float)
| E (e : exn)
| Basename (path : string).

Definition message := list frag.

(** What a subprocess does, as the reading loops see it: the successive results
    of [stderr.readline()] up to the read that finds the stream at its end with
    the process gone (the empty string is a read that found nothing yet), what
    [stderr.read()] still returns after the loop, the captured standard output
    and the exit code. *)
Record process : Type := {
  stderr_reads : list string;
  stderr_rest : string;
  stdout : string;
  returncode : Z
}.

Record env : Type := {
  stop_event : nat -> bool;
  spawn : nat -> list string -> result process;
  left_files : list string;
  right_files : list string;
  current_metric : result string
}.

Record state : Type := {
  flag_reads : list (string * bool);
  log_queue : list (string * message);
  progress_queue : list (string * string * Z);
  spawned : list (list string)
}.

Definition M (A : Type) : Type := env -> state -> result A * state.

Definition ret {A} (a : A) : M A := fun _ s => (Ok a, s).

Definition raise {A} (e : exn) : M A := fun _ s => (Raise e, s).

Definition bind {A B} (c : M A) (k : A -> M B) : M B :=
  fun w s =>
    match c w s with
    | (Ok a, s') => k a w s'
    | (Raise e, s') => (Raise e, s')
    end.

(** [try: body  except Exception as e: handler e] *)
Definition try_except {A} (body : M A) (handler : exn -> M A) : M A :=
  fun w s =>
    match body w s with
    | (Ok a, s') => (Ok a, s')
    | (Raise e, s') => handler e w s'
    end.

Definition lift {A} (r : result A) : M A := fun _ s => (r, s).

Declare Scope py_scope.
Delimit Scope py_scope with py.
Notation "x <- c ;; k" := (bind c (fun x => k))
  (at level 61, c at next level, right associativity) : py_scope.
Notation "c ;; k" := (bind c (fun _ => k))
  (at level 61, right associativity) : py_scope.
Local Open Scope py_scope.

(** [self.stop_event.is_set()], read in the method [site]: the environment
    gives the value this read finds, and the read is recorded. *)
Definition is_set (site : string) : M bool :=
  fun w s =>
    let b := stop_event w (length (flag_reads s)) in
    (Ok b,
     {| flag_reads := flag_reads s ++ [(site, b)]; log_queue := log_queue s;
        progress_queue := progress_queue s; spawned := spawned s |}).

(** [self.log_queue.put((level, text))] *)
Definition log_put (level : string) (text : message) : M unit :=
  fun _ s =>
    (Ok tt,
     {| flag_reads := flag_reads s; log_queue := log_queue s ++ [(level, text)];
        progress_queue := progress_queue s; spawned := spawned s |}).

(** [update_progress]: [self.progress_queue.put((row_id, progress_type, value))] *)
Definition update_progress (row_id progress_type : string) (value : Z) : M unit :=
  fun _ s =>
    (Ok tt,
     {| flag_reads := flag_reads s; log_queue := log_queue s;
        progress_queue := progress_queue s ++ [(row_id, progress_type, value)];
        spawned := spawned s |}).

(** [subprocess.Popen(cmd, ...)] and [subprocess.run(cmd, ...)]: the command is
    recorded, the environment says what the process does or that it could not
    be started. *)
Definition popen (cmd : list string) : M process :=
  fun w s =>
    (spawn w (length (spawned s)) cmd,
     {| flag_reads := flag_reads s; log_queue := log_queue s;
        progress_queue := progress_queue s; spawned := spawned s ++ [cmd] |}).

Definition get_left_files : M (list string) := fun w s => (Ok (left_files w), s).
Definition get_right_files : M (list string) := fun w s => (Ok (right_files w), s).
Definition get_current_metric : M string := fun w s => (current_metric w, s).

(** Values stored in the result dictionaries. *)
Inductive value : Type :=
| Str (s : string)
| Int (z : Z)
| Num (x : float).

(** A [dict] with string keys, in insertion order. *)
Definition dict := list (string * value).

Fixpoint dict_get (d : dict) (key : string) (default : value) : value :=
  match d with
  | [] => default
  | (k, v) :: d' => if String.eqb k key then v else dict_get d' key default
  end.


(** ** Python floats *)

Module PyFloat.

(** The binary64 number nearest to [n / d] (ties to even), infinite when the
    quotient is beyond the range. *)
Definition round_ratio (n d : positive) : spec_float :=
  SFdiv prec emax (S754_finite false n 0) (S754_finite false d 0).

(** [a / b] on two integers: [ZeroDivisionError] on a zero divisor,
    [OverflowError] when the quotient is too large for a float. *)
Definition true_div (a b : Z) : result float :=
  match a, b with
  | _, Z0 => Raise ZeroDivisionError
  | Z0, _ => Ok (if Z.ltb b 0 then PrimFloat.neg_zero else PrimFloat.zero)
  | Zpos n, Zpos d | Zneg n, Zneg d =>
      match round_ratio n d with
      | S754_infinity _ => Raise OverflowError
      | q => Ok (SF2Prim q)
      end
  | Zpos n, Zneg d | Zneg n, Zpos d =>
      match round_ratio n d with
      | S754_infinity _ => Raise OverflowError
      | q => Ok (SF2Prim (SFopp q))
      end
  end.

(** [int(x)] on a float: truncation toward zero. *)
Definition trunc (x : float) : result Z :=
  match Prim2SF x with
  | S754_zero _ => Ok 0%Z
  | S754_finite s m e =>
      let a := match e with
               | Zneg k => Z.shiftr (Zpos m) (Zpos k)
               | _ => Z.shiftl (Zpos m) e
               end in
      Ok (if s then Z.opp a else a)
  | S754_infinity _ => Raise OverflowError
  | S754_nan => Raise ValueError
  end.

(** [x > y], [abs(x - y) < t] as Python evaluates them. *)
Definition gt (x y : float) : bool := PrimFloat.ltb y x.
Definition lt (x y : float) : bool := PrimFloat.ltb x y.
Definition absdiff (x y : float) : float := PrimFloat.abs (PrimFloat.sub x y).

End PyFloat.

(** ** Strings and regular expressions *)

Module Str.

Definition code (c : ascii) : nat := nat_of_ascii c.

(** [c.isspace()], which is also the class [\s] of [re]. *)
Definition isspace (c : ascii) : bool :=
  let n := code c in
  ((9 <=? n) && (n <=? 13)) || ((28 <=? n) && (n <=? 32))
  || (n =? 133) || (n =? 160).

(** An ASCII digit: the class [\d] of [re] below code point 256. *)
Definition isdecimal (c : ascii) : bool :=
  let n := code c in (48 <=? n) && (n <=? 57).

(** [c.isdigit()]: the ASCII digits and the superscripts two, three, one. *)
Definition isdigit_char (c : ascii) : bool :=
  let n := code c in
  isdecimal c || (n =? 178) || (n =? 179) || (n =? 185).

Fixpoint all (p : ascii -> bool) (s : string) : bool :=
  match s with
  | EmptyString => true
  | String c s' => p c && all p s'
  end.

(** [s.isdigit()] *)
Definition isdigit (s : string) : bool :=
  match s with
  | EmptyString => false
  | _ => all isdigit_char s
  end.

Fixpoint lstrip (s : string) : string :=
  match s with
  | String c s' => if isspace c then lstrip s' else s
  | EmptyString => EmptyString
  end.

Fixpoint rstrip (s : string) : string :=
  match s with
  | String c s' =>
      match rstrip s' with
      | EmptyString => if isspace c then EmptyString else String c EmptyString
      | t => String c t
      end
  | EmptyString => EmptyString
  end.

(** [s.strip()] *)
Definition strip (s : string) : string := rstrip (lstrip s).

(** [s.split('\n')] *)
Fixpoint split_lines (s : string) : list string :=
  match s with
  | EmptyString => [EmptyString]
  | String c s' =>
      if Ascii.eqb c "010" then EmptyString :: split_lines s'
      else match split_lines s' with
           | l :: ls => String c l :: ls
           | [] => [String c EmptyString]
           end
  end.

(** [sub in s] *)
Fixpoint contains (sub s : string) : bool :=
  String.prefix sub s ||
  match s with
  | EmptyString => false
  | String _ s' => contains sub s'
  end.

(** [f"{n}"] for a natural number. *)
Definition of_nat (n : nat) : string := NilEmpty.string_of_uint (Nat.to_uint n).

(** The number a string of ASCII digits denotes. *)
Fixpoint digits_value (acc : N) (s : string) : N :=
  match s with
  | EmptyString => acc
  | String c s' => digits_value (10 * acc + N.of_nat (code c - 48)) s'
  end.

(** [int(s)] on text without sign, blanks or underscores: the decimal digits
    are required (the superscripts [isdigit] accepts are refused).  The bound
    CPython may put on the number of digits is not modelled. *)
Definition to_int (s : string) : result Z :=
  match s with
  | EmptyString => Raise ValueError
  | _ => if all isdecimal s then Ok (Z.of_N (digits_value 0 s)) else Raise ValueError
  end.

(** The longest prefix of [s] made of characters in [p], and what follows. *)
Fixpoint span (p : ascii -> bool) (s : string) : string * string :=
  match s with
  | String c s' =>
      if p c then let (a, b) := span p s' in (String c a, b) else (EmptyString, s)
  | EmptyString => (EmptyString, EmptyString)
  end.

Fixpoint pow10 (k : nat) : positive :=
  match k with
  | O => 1%positive
  | S k' => (10 * pow10 k')%positive
  end.

(** [float(s)] on the tokens the patterns of this program capture: an optional
    minus sign, decimal digits, at most one point and at least one digit.
    Other text with these characters raises [ValueError], as in Python; text
    with further characters is outside this model and raises too. *)
Definition to_float (s : string) : result float :=
  let (neg, body) :=
    match s with
    | String "-" s' => (true, s')
    | _ => (false, s)
    end in
  let (ip, rest) := span isdecimal body in
  let (fp, junk) :=
    match rest with
    | String "." r => span isdecimal r
    | _ => (EmptyString, rest)
    end in
  match junk, (ip ++ fp)%string with
  | EmptyString, String _ _ =>
      match digits_value 0 (ip ++ fp) with
      | N0 => Ok (if neg then PrimFloat.neg_zero else PrimFloat.zero)
      | Npos n =>
          let q := PyFloat.round_ratio n (pow10 (String.length fp)) in
          Ok (SF2Prim (if neg then SFopp q else q))
      end
  | _, _ => Raise ValueError
  end.

End Str.

Module Re.

(** The character classes the patterns use. *)
Inductive cls : Type :=
| Dot      (* .       : any character but a newline *)
| Space    (* \s *)
| Digit    (* \d *)
| NumDot.  (* [0-9.] *)

Definition mem (k : cls) (c : ascii) : bool :=
  match k with
  | Dot => negb (Ascii.eqb c "010")
  | Space => Str.isspace c
  | Digit => Str.isdecimal c
  | NumDot => Str.isdecimal c || Ascii.eqb c "."
  end.

(** A pattern is a sequence of atoms; [Open] and [Close] delimit the one
    capturing group. *)
Inductive atom : Type :=
| Chr (c : ascii)     (* the character c *)
| One (k : cls)       (* one character of the class *)
| Star (k : cls)      (* k*   greedy *)
| Lazy (k : cls)      (* k*?  non-greedy *)
| Opt (c : ascii)     (* c?   greedy *)
| Open
| Close.

Definition regex := list atom.

Fixpoint lit (s : string) : regex :=
  match s with
  | EmptyString => []
  | String c s' => Chr c :: lit s'
  end.

(** [k+] *)
Definition plus (k : cls) : regex := [One k; Star k].

(** [(r)] *)
Definition group (r : regex) : regex := Open :: r ++ [Close].

(** The text between the place where the group opened and the current one. *)
Definition captured (opened s : string) : string :=
  String.substring 0 (String.length opened - String.length s) opened.

(** Backtracking match of [r] at the start of [s], in the order of [re]:
    greedy atoms try the longest repetition first, lazy ones the shortest.
    The result is the text of the group and what follows the match. *)
Fixpoint run (r : regex) (opened cap s : string) {struct r} : option (string * string) :=
  match r with
  | [] => Some (cap, s)
  | Chr c :: r' =>
      match s with
      | String d s' => if Ascii.eqb c d then run r' opened cap s' else None
      | EmptyString => None
      end
  | One k :: r' =>
      match s with
      | String d s' => if mem k d then run r' opened cap s' else None
      | EmptyString => None
      end
  | Star k :: r' =>
      (fix star (s : string) : option (string * string) :=
         match s with
         | String d s' =>
             if mem k d then
               match star s' with
               | Some m => Some m
               | None => run r' opened cap s
               end
             else run r' opened cap s
         | EmptyString => run r' opened cap s
         end) s
  | Lazy k :: r' =>
      (fix lazy (s : string) : option (string * string) :=
         match run r' opened cap s with
         | Some m => Some m
         | None =>
             match s with
             | String d s' => if mem k d then lazy s' else None
             | EmptyString => None
             end
         end) s
  | Opt c :: r' =>
      match s with
      | String d s' =>
          if Ascii.eqb c d then
            match run r' opened cap s' with
            | Some m => Some m
            | None => run r' opened cap s
            end
          else run r' opened cap s
      | EmptyString => run r' opened cap s
      end
  | Open :: r' => run r' s cap s
  | Close :: r' => run r' opened (captured opened s) s
  end.

Definition match_at (r : regex) (s : string) : option (string * string) :=
  run r EmptyString EmptyString s.

(** [re.search(r, s)], as the text of group 1 of the leftmost match. *)
Fixpoint search (r : regex) (s : string) : option string :=
  match match_at r s with
  | Some (g, _) => Some g
  | None =>
      match s with
      | String _ s' => search r s'
      | EmptyString => None
      end
  end.

(** [re.findall(r, s)]: group 1 of the successive non-overlapping matches.
    [skip] characters are still covered by the previous match. *)
Fixpoint findall_from (r : regex) (skip : nat) (s : string) : list string :=
  match s with
  | EmptyString =>
      match skip, match_at r EmptyString with
      | O, Some (g, _) => [g]
      | _, _ => []
      end
  | String _ s' =>
      match skip with
      | S k => findall_from r k s'
      | O =>
          match match_at r s with
          | Some (g, rest) =>
              g :: findall_from r (String.length s - String.length rest - 1) s'
          | None => findall_from r 0 s'
          end
      end
  end.

Definition findall (r : regex) (s : string) : list string := findall_from r 0 s.

End Re.

Import Re.
Local Open Scope string_scope.
Local Open Scope list_scope.

(** ** Thresholds ([__init__]) *)

Definition vmaf_win_threshold : float := 2.0%float.
Definition ssim_win_threshold : float := 0.01%float.
Definition psnr_win_threshold : float := 2.0%float.

(** ** Winner decision *)

Definition tie_result : dict :=
  [("winner", Str "tie"); ("left_score", Int 0); ("right_score", Int 0)].

Definition winner_dict (winner : string) (left_quality right_quality : float) : dict :=
  [("winner", Str winner); ("left_score", Num left_quality);
   ("right_score", Num right_quality)].

Definition row_number (row_idx : nat) : frag := I (Z.of_nat row_idx + 1).

Definition determine_video_winner
    (left_as_ref_score right_as_ref_score : option float)
    (metric : string) (row_idx : nat) : M dict :=
  try_except
    (match left_as_ref_score, right_as_ref_score with
     | Some l, Some r =>
         if String.eqb metric "VMAF" then
           let left_quality := l in
           let right_quality := r in
           log_put "INFO"
             [T "Row "; row_number row_idx; T ": VMAF results - Left quality: ";
              F 2 left_quality; T ", Right quality: "; F 2 right_quality] ;;
           let winner :=
             if PyFloat.lt (PyFloat.absdiff left_quality right_quality) vmaf_win_threshold
             then "tie"
             else if PyFloat.gt left_quality right_quality then "left"
             else "right" in
           ret (winner_dict winner left_quality right_quality)
         else
           let left_quality := l in
           let right_quality := r in
           log_put "INFO"
             [T "Row "; row_number row_idx; T ": SSIM results - Left quality: ";
              F 4 left_quality; T ", Right quality: "; F 4 right_quality] ;;
           let winner :=
             if PyFloat.lt (PyFloat.absdiff left_quality right_quality) ssim_win_threshold
             then "tie"
             else if PyFloat.gt left_quality right_quality then "left"
             else "right" in
           ret (winner_dict winner left_quality right_quality)
     | _, _ => ret tie_result
     end)
    (fun e =>
       log_put "ERROR"
         [T "Row "; row_number row_idx; T ": Error determining video winner: "; E e] ;;
       ret tie_result).

(** ** Output parsers *)

(** [r'VMAF score:\s*([0-9.]+)'] *)
Definition vmaf_score_re : regex :=
  lit "VMAF score:" ++ [Star Space] ++ group (plus NumDot).

(** [r'VMAF.*?([0-9.]+)'] *)
Definition vmaf_any_re : regex :=
  lit "VMAF" ++ [Lazy Dot] ++ group (plus NumDot).

(** [r'All:([0-9.]+)'] *)
Definition ssim_all_re : regex := lit "All:" ++ group (plus NumDot).

(** [r'SSIM.*?All:([0-9.]+)'] *)
Definition ssim_line_re : regex :=
  lit "SSIM" ++ [Lazy Dot] ++ lit "All:" ++ group (plus NumDot).

(** [r'Y:([0-9.]+)'] *)
Definition ssim_y_re : regex := lit "Y:" ++ group (plus NumDot).

(** [r'PSNR\s+ch0:\s*([0-9.]+)'] *)
Definition psnr_ch0_re : regex :=
  lit "PSNR" ++ plus Space ++ lit "ch0:" ++ [Star Space] ++ group (plus NumDot).

(** [r'([0-9.]+)\s*dB'] *)
Definition psnr_db_re : regex := group (plus NumDot) ++ [Star Space] ++ lit "dB".

(** [r'frame=\s*(\d+)'] *)
Definition frame_re : regex := lit "frame=" ++ [Star Space] ++ group (plus Digit).

(** [r'Integrated loudness:\s*(G)\s*LUFS'] with the group [G = -?\d+\.?\d*] *)
Definition loudness_re : regex :=
  lit "Integrated loudness:" ++ [Star Space]
  ++ group ([Opt "-"] ++ plus Digit ++ [Opt "."; Star Digit])
  ++ [Star Space] ++ lit "LUFS".

Definition parse_single_vmaf_output
    (output comparison_type : string) (row_idx : nat) : M (option float) :=
  try_except
    (match search vmaf_score_re output with
     | Some tok =>
         score <- lift (Str.to_float tok) ;;
         log_put "INFO"
           [T "Row "; row_number row_idx; T ": VMAF score ("; T comparison_type;
            T "): "; F 2 score] ;;
         ret (Some score)
     | None =>
         let vmaf_matches := findall vmaf_any_re output in
         match vmaf_matches with
         | _ :: _ =>
             score <- lift (Str.to_float (last vmaf_matches "")) ;;
             log_put "INFO"
               [T "Row "; row_number row_idx; T ": VMAF score ("; T comparison_type;
                T "): "; F 2 score] ;;
             ret (Some score)
         | [] =>
             log_put "WARNING"
               [T "Row "; row_number row_idx;
                T ": Could not parse VMAF score from output ("; T comparison_type; T ")"] ;;
             ret None
         end
     end)
    (fun e =>
       log_put "ERROR"
         [T "Row "; row_number row_idx; T ": Error parsing VMAF output (";
          T comparison_type; T "): "; E e] ;;
       ret None).

(** The loop [for line in reversed(lines)] of the SSIM parser: [Some] when an
    iteration returns a score, [None] when the loop runs to its end. *)
Fixpoint ssim_scan_lines (lines : list string) (comparison_type : string)
    (row_idx : nat) : M (option float) :=
  match lines with
  | [] => ret None
  | line :: lines' =>
      if Str.contains "All:" line
         && (Str.contains "Y:" line || Str.contains "SSIM" line)
      then
        match search ssim_all_re line with
        | Some tok =>
            score <- lift (Str.to_float tok) ;;
            log_put "INFO"
              [T "Row "; row_number row_idx; T ": SSIM score ("; T comparison_type;
               T "): "; F 4 score] ;;
            ret (Some score)
        | None => ssim_scan_lines lines' comparison_type row_idx
        end
      else ssim_scan_lines lines' comparison_type row_idx
  end.

(** [output[-200:]] *)
Definition last_chars (n : nat) (s : string) : string :=
  String.substring (String.length s - n) n s.

Definition parse_single_ssim_output
    (output comparison_type : string) (row_idx : nat) : M (option float) :=
  try_except
    (match search ssim_all_re output with
     | Some tok =>
         score <- lift (Str.to_float tok) ;;
         log_put "INFO"
           [T "Row "; row_number row_idx; T ": SSIM score ("; T comparison_type;
            T "): "; F 4 score] ;;
         ret (Some score)
     | None =>
         match search ssim_line_re output with
         | Some tok =>
             score <- lift (Str.to_float tok) ;;
             log_put "INFO"
               [T "Row "; row_number row_idx; T ": SSIM score ("; T comparison_type;
                T "): "; F 4 score] ;;
             ret (Some score)
         | None =>
             let lines := Str.split_lines (Str.strip output) in
             found <- ssim_scan_lines (rev lines) comparison_type row_idx ;;
             match found with
             | Some score => ret (Some score)
             | None =>
                 match search ssim_y_re output with
                 | Some tok =>
                     score <- lift (Str.to_float tok) ;;
                     log_put "INFO"
                       [T "Row "; row_number row_idx; T ": SSIM Y-channel score (";
                        T comparison_type; T "): "; F 4 score] ;;
                     ret (Some score)
                 | None =>
                     log_put "WARNING"
                       [T "Row "; row_number row_idx;
                        T ": Could not parse SSIM score from output (";
                        T comparison_type; T ")"] ;;
                     log_put "DEBUG"
                       [T "Row "; row_number row_idx; T ": SSIM output sample: ";
                        T (last_chars 200 output)] ;;
                     ret None
                 end
             end
         end
     end)
    (fun e =>
       log_put "ERROR"
         [T "Row "; row_number row_idx; T ": Error parsing SSIM output (";
          T comparison_type; T "): "; E e] ;;
       ret None).

Definition parse_single_audio_output
    (output comparison_type : string) (row_idx : nat) : M (option float) :=
  try_except
    (match search psnr_ch0_re output with
     | Some tok =>
         score <- lift (Str.to_float tok) ;;
         log_put "INFO"
           [T "Row "; row_number row_idx; T ": Audio PSNR score (";
            T comparison_type; T "): "; F 2 score; T " dB"] ;;
         ret (Some score)
     | None =>
         let psnr_matches := findall psnr_db_re output in
         match psnr_matches with
         | _ :: _ =>
             score <- lift (Str.to_float (last psnr_matches "")) ;;
             log_put "INFO"
               [T "Row "; row_number row_idx; T ": Audio PSNR score (";
                T comparison_type; T "): "; F 2 score; T " dB"] ;;
             ret (Some score)
         | [] =>
             log_put "WARNING"
               [T "Row "; row_number row_idx;
                T ": Could not parse audio PSNR score from output (";
                T comparison_type; T ")"] ;;
             ret None
         end
     end)
    (fun e =>
       log_put "ERROR"
         [T "Row "; row_number row_idx; T ": Error parsing audio PSNR output (";
          T comparison_type; T "): "; E e] ;;
       ret None).

Definition parse_single_video_output
    (output metric comparison_type : string) (row_idx : nat) : M (option float) :=
  try_except
    (if String.eqb metric "VMAF"
     then parse_single_vmaf_output output comparison_type row_idx
     else parse_single_ssim_output output comparison_type row_idx)
    (fun e =>
       log_put "ERROR"
         [T "Row "; row_number row_idx; T ": Failed to parse "; T metric;
          T " output ("; T comparison_type; T "): "; E e] ;;
       ret None).

(** ** Progress estimator *)

(** [f"row_{row_idx}"] *)
Definition row_id (row_idx : nat) : string := ("row_" ++ Str.of_nat row_idx)%string.

(** [get_total_frames]: the frame count [ffprobe] prints, [None] when the
    output is not made of digits.  It has no handler of its own. *)
Definition get_total_frames (video_path : string) : M (option Z) :=
  res <- popen ["ffprobe"; "-v"; "error"; "-count_frames";
                "-select_streams"; "v:0";
                "-show_entries"; "stream=nb_read_frames";
                "-of"; "default=nokey=1:noprint_wrappers=1"; video_path] ;;
  if Str.isdigit (Str.strip (stdout res))
  then n <- lift (Str.to_int (Str.strip (stdout res))) ;; ret (Some n)
  else ret None.

(** [max(1, frames or 0)] *)
Definition clamp_total_frames (frames : option Z) : Z :=
  Z.max 1 (match frames with Some n => n | None => 0 end).

(** [int(min(1, ratio) * 45)]: [min] gives the float [ratio] when it is below
    the integer 1 and the integer 1 otherwise; the product is then a float,
    truncated by [int], or the integer 45. *)
Definition additional_of_ratio (ratio : float) : result Z :=
  if PyFloat.lt ratio 1%float
  then PyFloat.trunc (PrimFloat.mul ratio 45%float)
  else Ok (1 * 45)%Z.

Definition extract_ffmpeg_progress (output_line : string) (row_idx : nat)
    (media_type comparison_type : string) (total_frames : Z) : M unit :=
  try_except
    (match search frame_re output_line with
     | Some tok =>
         curr_frame <- lift (Str.to_int tok) ;;
         if (0 <? curr_frame)%Z then
           let base_progress :=
             if String.eqb comparison_type "left_ref" then 10%Z else 55%Z in
           ratio <- lift (PyFloat.true_div curr_frame total_frames) ;;
           additional_progress <- lift (additional_of_ratio ratio) ;;
           if String.eqb media_type "video"
           then update_progress (row_id row_idx) "video"
                  (base_progress + additional_progress)
           else ret tt
         else ret tt
     | None => ret tt
     end)
    (fun _ => ret tt).

(** ** Metric runner *)

(** The reading loop of [run_single_video_comparison].  [None]: the stop flag
    was seen and the process terminated; [Some text]: the loop left by
    [break] with [text] collected. *)
Fixpoint monitor_video (reads : list string) (stderr_output : string)
    (row_idx : nat) (comparison_type : string) (total_frames : Z)
    : M (option string) :=
  stop <- is_set "run_single_video_comparison" ;;
  if stop then ret None
  else
    match reads with
    | [] => ret (Some stderr_output)
    | output :: reads' =>
        match output with
        | EmptyString =>
            monitor_video reads' stderr_output row_idx comparison_type total_frames
        | _ =>
            extract_ffmpeg_progress output row_idx "video" comparison_type total_frames ;;
            monitor_video reads' (stderr_output ++ output)%string
              row_idx comparison_type total_frames
        end
    end.

(** The reading loop of [run_single_audio_comparison] and of
    [get_audio_loudness]. *)
Fixpoint monitor (site : string) (reads : list string) (stderr_output : string)
    : M (option string) :=
  stop <- is_set site ;;
  if stop then ret None
  else
    match reads with
    | [] => ret (Some stderr_output)
    | output :: reads' =>
        match output with
        | EmptyString => monitor site reads' stderr_output
        | _ => monitor site reads' (stderr_output ++ output)%string
        end
    end.

(** [stderr_output.strip() if stderr_output else "Unknown FFmpeg error"] *)
Definition error_msg (stderr_output : string) : string :=
  match stderr_output with
  | EmptyString => "Unknown FFmpeg error"
  | _ => Str.strip stderr_output
  end.

Definition vmaf_cmd (reference_file distorted_file : string) : list string :=
  ["ffmpeg"; "-i"; reference_file; "-i"; distorted_file;
   "-lavfi"; "libvmaf=log_fmt=json"; "-f"; "null"; "-"].

Definition ssim_cmd (reference_file distorted_file : string) : list string :=
  ["ffmpeg"; "-i"; reference_file; "-i"; distorted_file;
   "-lavfi"; "ssim"; "-f"; "null"; "-"].

Definition apsnr_cmd (reference_file distorted_file : string) : list string :=
  ["ffmpeg"; "-i"; reference_file; "-i"; distorted_file;
   "-lavfi"; "[0:a][1:a]apsnr"; "-f"; "null"; "-"].

Definition ebur128_cmd (file_path : string) : list string :=
  ["ffmpeg"; "-i"; file_path; "-af"; "ebur128=peak=true"; "-f"; "null"; "-"].

Definition run_single_video_comparison
    (reference_file distorted_file metric comparison_type : string)
    (row_idx : nat) : M (option float) :=
  try_except
    (stop <- is_set "run_single_video_comparison" ;;
     if stop then ret None
     else
       let cmd := if String.eqb metric "VMAF"
                  then vmaf_cmd reference_file distorted_file
                  else ssim_cmd reference_file distorted_file in
       frames <- get_total_frames reference_file ;;
       let total_frames := clamp_total_frames frames in
       proc <- popen cmd ;;
       collected <- monitor_video (stderr_reads proc) "" row_idx comparison_type
                      total_frames ;;
       match collected with
       | None => ret None
       | Some text =>
           let stderr_output := (text ++ stderr_rest proc)%string in
           if negb (returncode proc =? 0)%Z then
             log_put "ERROR"
               [T "Row "; row_number row_idx; T ": Video comparison failed (";
                T comparison_type; T "): "; T (error_msg stderr_output)] ;;
             ret None
           else parse_single_video_output stderr_output metric comparison_type row_idx
       end)
    (fun e =>
       log_put "ERROR"
         [T "Row "; row_number row_idx; T ": Single video comparison error (";
          T comparison_type; T "): "; E e] ;;
       ret None).

Definition run_single_audio_comparison
    (reference_file distorted_file comparison_type : string)
    (row_idx : nat) : M (option float) :=
  try_except
    (stop <- is_set "run_single_audio_comparison" ;;
     if stop then ret None
     else
       proc <- popen (apsnr_cmd reference_file distorted_file) ;;
       collected <- monitor "run_single_audio_comparison" (stderr_reads proc) "" ;;
       match collected with
       | None => ret None
       | Some text =>
           let stderr_output := (text ++ stderr_rest proc)%string in
           if negb (returncode proc =? 0)%Z then
             log_put "ERROR"
               [T "Row "; row_number row_idx; T ": Audio PSNR failed (";
                T comparison_type; T "): "; T (error_msg stderr_output)] ;;
             ret None
           else parse_single_audio_output stderr_output comparison_type row_idx
       end)
    (fun e =>
       log_put "ERROR"
         [T "Row "; row_number row_idx; T ": Single audio comparison error (";
          T comparison_type; T "): "; E e] ;;
       ret None).

(** The loop over the lines of the loudness report: the value of the first
    line that carries the label and matches the pattern. *)
Fixpoint scan_loudness (lines : list string) : result (option float) :=
  match lines with
  | [] => Ok None
  | line :: lines' =>
      if Str.contains "Integrated loudness:" line then
        match search loudness_re line with
        | Some tok =>
            match Str.to_float tok with
            | Ok x => Ok (Some x)
            | Raise e => Raise e
            end
        | None => scan_loudness lines'
        end
      else scan_loudness lines'
  end.

Definition get_audio_loudness (file_path : string) (row_idx : nat) : M (option float) :=
  try_except
    (stop <- is_set "get_audio_loudness" ;;
     if stop then ret None
     else
       proc <- popen (ebur128_cmd file_path) ;;
       collected <- monitor "get_audio_loudness" (stderr_reads proc) "" ;;
       match collected with
       | None => ret None
       | Some text =>
           let stderr_output := (text ++ stderr_rest proc)%string in
           lift (scan_loudness (Str.split_lines stderr_output))
       end)
    (fun _ => ret None).

(** ** Audio winner decision and loudness fallback *)

Definition run_audio_analysis_fallback
    (left_file right_file : string) (row_idx : nat) : M dict :=
  try_except
    (stop <- is_set "run_audio_analysis_fallback" ;;
     if stop then ret tie_result
     else
       left_loudness <- get_audio_loudness left_file row_idx ;;
       stop <- is_set "run_audio_analysis_fallback" ;;
       if stop then ret tie_result
       else
         right_loudness <- get_audio_loudness right_file row_idx ;;
         stop <- is_set "run_audio_analysis_fallback" ;;
         if stop then ret tie_result
         else
           match left_loudness, right_loudness with
           | Some ll, Some rl =>
               let winner := if PyFloat.gt ll rl then "left" else "right" in
               let winner :=
                 if PyFloat.lt (PyFloat.absdiff ll rl) 1.0%float then "tie" else winner in
               log_put "INFO"
                 [T "Row "; row_number row_idx; T ": Audio loudness - Left: ";
                  F 1 ll; T " LUFS, Right: "; F 1 rl; T " LUFS"] ;;
               ret (winner_dict winner ll rl)
           | _, _ => ret tie_result
           end)
    (fun e =>
       log_put "ERROR"
         [T "Row "; row_number row_idx; T ": Audio analysis fallback error: "; E e] ;;
       ret tie_result).

(** [files[i]] *)
Definition index (files : list string) (i : nat) : M string :=
  match nth_error files i with
  | Some f => ret f
  | None => raise IndexError
  end.

Definition determine_audio_winner
    (left_as_ref_score right_as_ref_score : option float) (row_idx : nat) : M dict :=
  try_except
    (match left_as_ref_score, right_as_ref_score with
     | Some l, Some r =>
         let left_quality := l in
         let right_quality := r in
         log_put "INFO"
           [T "Row "; row_number row_idx; T ": Audio PSNR results - Left quality: ";
            F 2 left_quality; T " dB, Right quality: "; F 2 right_quality; T " dB"] ;;
         let winner :=
           if PyFloat.lt (PyFloat.absdiff left_quality right_quality) 1.0%float
           then "tie"
           else if PyFloat.gt left_quality right_quality then "left"
           else "right" in
         ret (winner_dict winner left_quality right_quality)
     | _, _ =>
         lefts <- get_left_files ;;
         left_file <- index lefts row_idx ;;
         rights <- get_right_files ;;
         right_file <- index rights row_idx ;;
         run_audio_analysis_fallback left_file right_file row_idx
     end)
    (fun e =>
       log_put "ERROR"
         [T "Row "; row_number row_idx; T ": Error determining audio winner: "; E e] ;;
       ret tie_result).

(** ** Row comparator *)

Definition run_video_comparison
    (left_file right_file metric : string) (row_idx : nat) : M dict :=
  try_except
    (stop <- is_set "run_video_comparison" ;;
     if stop then ret tie_result
     else
       log_put "INFO"
         [T "Row "; row_number row_idx; T ": Running "; T metric;
          T " with left as reference..."] ;;
       update_progress (row_id row_idx) "video" 10 ;;
       left_as_ref_score <-
         run_single_video_comparison left_file right_file metric "left_ref" row_idx ;;
       stop <- is_set "run_video_comparison" ;;
       if stop then ret tie_result
       else
         update_progress (row_id row_idx) "video" 55 ;;
         log_put "INFO"
           [T "Row "; row_number row_idx; T ": Running "; T metric;
            T " with right as reference..."] ;;
         right_as_ref_score <-
           run_single_video_comparison right_file left_file metric "right_ref" row_idx ;;
         stop <- is_set "run_video_comparison" ;;
         if stop then ret tie_result
         else
           update_progress (row_id row_idx) "video" 100 ;;
           determine_video_winner left_as_ref_score right_as_ref_score metric row_idx)
    (fun e =>
       log_put "ERROR"
         [T "Row "; row_number row_idx; T ": Video comparison error: "; E e] ;;
       ret tie_result).

Definition run_audio_comparison
    (left_file right_file : string) (row_idx : nat) : M dict :=
  try_except
    (stop <- is_set "run_audio_comparison" ;;
     if stop then ret tie_result
     else
       log_put "INFO"
         [T "Row "; row_number row_idx;
          T ": Running audio PSNR with left as reference..."] ;;
       update_progress (row_id row_idx) "audio" 25 ;;
       left_as_ref_score <-
         run_single_audio_comparison left_file right_file "left_ref" row_idx ;;
       stop <- is_set "run_audio_comparison" ;;
       if stop then ret tie_result
       else
         update_progress (row_id row_idx) "audio" 50 ;;
         log_put "INFO"
           [T "Row "; row_number row_idx;
            T ": Running audio PSNR with right as reference..."] ;;
         right_as_ref_score <-
           run_single_audio_comparison right_file left_file "right_ref" row_idx ;;
         stop <- is_set "run_audio_comparison" ;;
         if stop then ret tie_result
         else
           update_progress (row_id row_idx) "audio" 75 ;;
           determine_audio_winner left_as_ref_score right_as_ref_score row_idx)
    (fun e =>
       log_put "ERROR"
         [T "Row "; row_number row_idx; T ": Audio comparison error: "; E e] ;;
       ret tie_result).

(** The record a completed row returns. *)
Definition row_result (video_result audio_result : dict) : dict :=
  [("video_winner", dict_get video_result "winner" (Str "tie"));
   ("audio_winner", dict_get audio_result "winner" (Str "tie"));
   ("video_score_left", dict_get video_result "left_score" (Int 0));
   ("video_score_right", dict_get video_result "right_score" (Int 0));
   ("audio_score_left", dict_get audio_result "left_score" (Int 0));
   ("audio_score_right", dict_get audio_result "right_score" (Int 0))].

Definition compare_row (row_idx : nat) (left_file right_file : string)
    : M (option dict) :=
  try_except
    (stop <- is_set "compare_row" ;;
     if stop then ret None
     else
       log_put "INFO"
         [T "Starting row "; row_number row_idx; T ": "; Basename left_file;
          T " vs "; Basename right_file] ;;
       update_progress (row_id row_idx) "video" 0 ;;
       metric <- get_current_metric ;;
       video_result <- run_video_comparison left_file right_file metric row_idx ;;
       stop <- is_set "compare_row" ;;
       if stop then ret None
       else
         update_progress (row_id row_idx) "video" 100 ;;
         update_progress (row_id row_idx) "audio" 0 ;;
         audio_result <- run_audio_comparison left_file right_file row_idx ;;
         stop <- is_set "compare_row" ;;
         if stop then ret None
         else
           update_progress (row_id row_idx) "audio" 100 ;;
           log_put "INFO" [T "Completed row "; row_number row_idx] ;;
           ret (Some (row_result video_result audio_result)))
    (fun e =>
       log_put "ERROR"
         [T "Row "; row_number row_idx; T " comparison error: "; E e] ;;
       ret None).

(** ** Comparison scheduler: the tasks and their submission *)

Definition task : Type := nat * string * string.

(** [for i in range(min_count): tasks.append((i, left_files[i], right_files[i]))] *)
Fixpoint build_tasks (lefts rights : list string) (rows : list nat) (tasks : list task)
    : M (list task) :=
  match rows with
  | [] => ret tasks
  | i :: rows' =>
      l <- index lefts i ;;
      r <- index rights i ;;
      build_tasks lefts rights rows' (tasks ++ [(i, l, r)])
  end.

(** The submission loop: the rows handed to the executor, in order. *)
Fixpoint submit_tasks (tasks submitted : list task) : M (list task) :=
  match tasks with
  | [] => ret submitted
  | t :: tasks' =>
      stop <- is_set "run_comparisons" ;;
      if stop then ret submitted
      else submit_tasks tasks' (submitted ++ [t])
  end.

(** [run_comparisons] up to the end of the submission loop: the result is the
    list of rows handed to the executor.  Their execution by the pool is
    concurrent and is not part of this definition; a row is [compare_row],
    and the loop that collects the results is [Gui.collect_completed]. *)
Definition run_comparisons : M (list task) :=
  try_except
    (lefts <- get_left_files ;;
     rights <- get_right_files ;;
     let min_count := Nat.min (length lefts) (length rights) in
     tasks <- build_tasks lefts rights (seq 0 min_count) [] ;;
     submit_tasks tasks [])
    (fun e =>
       log_put "ERROR" [T "Comparison process failed: "; E e] ;;
       ret []).

(** ** Notions used to state the properties *)

(** The score a captured token stands for: [None] when [float] refuses it. *)
Definition float_or_none (tok : string) : option float :=
  match Str.to_float tok with
  | Ok x => Some x
  | Raise _ => None
  end.

(** [s] begins with a character of the class [k]. *)
Definition starts_with (k : cls) (s : string) : bool :=
  match s with
  | String c _ => mem k c
  | EmptyString => false
  end.

(** The three tiers of the SSIM parser as the specification words them, each
    giving the token it finds: the aggregate [All:] token of the text; the
    aggregate token of the last line that carries both a channel marker
    ([Y:] or [SSIM]) and the aggregate marker; the luma [Y:] token. *)
Definition ssim_aggregate_token (output : string) : option string :=
  search ssim_all_re output.

Fixpoint first_marked_line (lines : list string) : option string :=
  match lines with
  | [] => None
  | line :: lines' =>
      if Str.contains "All:" line
         && (Str.contains "Y:" line || Str.contains "SSIM" line)
      then match search ssim_all_re line with
           | Some tok => Some tok
           | None => first_marked_line lines'
           end
      else first_marked_line lines'
  end.

Definition ssim_line_token (output : string) : option string :=
  first_marked_line (rev (Str.split_lines (Str.strip output))).

Definition ssim_luma_token (output : string) : option string :=
  search ssim_y_re output.

(** The token of the first tier that finds one. *)
Fixpoint first_success (tiers : list (option string)) : option string :=
  match tiers with
  | [] => None
  | Some tok :: _ => Some tok
  | None :: tiers' => first_success tiers'
  end.

Definition ssim_tiers (output : string) : option float :=
  match first_success [ssim_aggregate_token output; ssim_line_token output;
                       ssim_luma_token output] with
  | Some tok => float_or_none tok
  | None => None
  end.

(** The text the reading loops collect from the reads of a process. *)
Definition collected_text (p : process) : string :=
  (String.concat "" (stderr_reads p) ++ stderr_rest p)%string.

(** The loudness a finished measurement yields. *)
Definition loudness_of (r : result process) : option float :=
  match r with
  | Ok p =>
      match scan_loudness (Str.split_lines (collected_text p)) with
      | Ok v => v
      | Raise _ => None
      end
  | Raise _ => None
  end.

(** The rows of a run: the files of the two lists paired by position. *)
Definition paired_rows (lefts rights : list string) : list task :=
  map (fun '(i, (l, r)) => (i, l, r))
      (combine (seq 0 (Nat.min (length lefts) (length rights))) (combine lefts rights)).

(** The estimate as the specification words it,
    [offset + min(1, current / total) * span], computed on floats. *)
Definition spec_progress (offset : float) (ratio : float) (span : float) : float :=
  PrimFloat.add offset
    (PrimFloat.mul (if PyFloat.lt ratio 1%float then ratio else 1%float) span).

(** ** Worlds used in examples *)

Definition initial_state : state :=
  {| flag_reads := []; log_queue := []; progress_queue := []; spawned := [] |}.

(** An environment where no subprocess can be started; [stop] is what the
    successive reads of the stop flag find. *)
Definition bare_env (stop : nat -> bool) (lefts rights : list string) : env :=
  {| stop_event := stop;
     spawn := fun _ _ => Raise OSError;
     left_files := lefts;
     right_files := rights;
     current_metric := Ok "VMAF" |}.

Definition never_stopped : nat -> bool := fun _ => false.

(** The stop flag is set once and stays set. *)
Definition set_once (stop : nat -> bool) : Prop :=
  forall n m, n <= m -> stop n = true -> stop m = true.

Definition newline : string := String "010" "".

(** The state [s] with one more estimate reported on the video channel. *)
Definition with_progress (s : state) (row_idx : nat) (value : Z) : state :=
  {| flag_reads := flag_reads s; log_queue := log_queue s;
     progress_queue := progress_queue s ++ [(row_id row_idx, "video", value)];
     spawned := spawned s |}.

(** The decision of a tie band of width [t]. *)
Definition band_winner (a b t : float) : string :=
  if PyFloat.lt (PyFloat.absdiff a b) t then "tie"
  else if PyFloat.gt a b then "left" else "right".

(** What the loudness fallback returns from the two loudness values. *)
Definition fallback_result (ll rl : option float) : dict :=
  match ll, rl with
  | Some x, Some y => winner_dict (band_winner x y 1.0) x y
  | _, _ => tie_result
  end.

(** A process that prints [lines] on its diagnostic stream and succeeds. *)
Definition report_process (lines : list string) : process :=
  {| stderr_reads := lines; stderr_rest := ""; stdout := ""; returncode := 0 |}.

(** Between [s] and [s'] the stop flag was read some more times: each new read
    found what the environment holds for its position, and its site and value
    satisfy [P]. *)
Definition reads_extend (P : string -> bool -> Prop) (w : env) (s s' : state) : Prop :=
  exists new,
    flag_reads s' = flag_reads s ++ new
    /\ forall i site b,
         nth_error new i = Some (site, b) ->
         P site b /\ b = stop_event w (length (flag_reads s) + i).

(** Every run of [c] reads the flag in that way. *)
Definition tracks {A} (P : string -> bool -> Prop) (c : M A) : Prop :=
  forall w s r s', c w s = (r, s') -> reads_extend P w s s'.


(** An environment with one file on each side where every subprocess prints a loudness
    report of -23.5 LUFS (on one line, as the pattern of the parser wants it). *)
Definition loudness_env (stop : nat -> bool) : env :=
  {| stop_event := stop;
     spawn := fun _ _ => Ok (report_process ["Integrated loudness: -23.5 LUFS"]);
     left_files := ["a.mp4"];
     right_files := ["b.mp4"];
     current_metric := Ok "VMAF" |}.

(** The stop flag as the reads find it when the request arrives just before
    the read number [k]. *)
Definition stopped_from (k : nat) : nat -> bool := fun n => Nat.leb k n.

(** The stop flag as the reads find it when it is set for the read number [k]
    alone: a request made before that read, and the flag cleared again, as
    the start of a new run does, before the next. *)
Definition stopped_only_at (k : nat) : nat -> bool := fun n => Nat.eqb n k.

(** Reads made below [compare_row]: their site is not its own. *)
Definition inner (site : string) (b : bool) : Prop := site <> "compare_row".


(** ** Notions used to state the properties of the metric runner *)

(** The command of the frame query of [get_total_frames]. *)
Definition ffprobe_cmd (video_path : string) : list string :=
  ["ffprobe"; "-v"; "error"; "-count_frames"; "-select_streams"; "v:0";
   "-show_entries"; "stream=nb_read_frames";
   "-of"; "default=nokey=1:noprint_wrappers=1"; video_path].

(** The command of a directional video pass. *)
Definition video_cmd (metric reference_file distorted_file : string) : list string :=
  if String.eqb metric "VMAF" then vmaf_cmd reference_file distorted_file
  else ssim_cmd reference_file distorted_file.

(** The value of [get_total_frames] once the frame query has run: the count
    printed, [None] when the text is not made of digits, the error of [int]
    when it refuses the digits. *)
Definition frames_of (p : process) : result (option Z) :=
  if Str.isdigit (Str.strip (stdout p))
  then match Str.to_int (Str.strip (stdout p)) with
       | Ok n => Ok (Some n)
       | Raise e => Raise e
       end
  else Ok None.

(** The last element of a list of tokens, when there is one. *)
Definition last_token (tokens : list string) : option string :=
  match tokens with
  | [] => None
  | _ => Some (last tokens "")
  end.

(** The two tiers of the VMAF parser and of the audio parser: the token of the
    labelled pattern, else the last token of the loose pattern. *)
Definition vmaf_tiers (output : string) : option float :=
  match first_success [search vmaf_score_re output;
                       last_token (findall vmaf_any_re output)] with
  | Some tok => float_or_none tok
  | None => None
  end.

Definition audio_tiers (output : string) : option float :=
  match first_success [search psnr_ch0_re output;
                       last_token (findall psnr_db_re output)] with
  | Some tok => float_or_none tok
  | None => None
  end.

Definition video_tiers (metric output : string) : option float :=
  if String.eqb metric "VMAF" then vmaf_tiers output else ssim_tiers output.

(** The score of an audio pass that is not interrupted, from what became of
    its process: nothing when it could not be started or failed, else what the
    parser reads in all it printed. *)
Definition audio_pass_score (started : result process) : option float :=
  match started with
  | Ok p => if (returncode p =? 0)%Z then audio_tiers (collected_text p) else None
  | Raise _ => None
  end.

(** The same for a video pass, which runs the frame query first. *)
Definition video_pass_score (metric : string) (probe started : result process)
    : option float :=
  match probe with
  | Ok q =>
      match frames_of q with
      | Ok _ =>
          match started with
          | Ok p => if (returncode p =? 0)%Z
                    then video_tiers metric (collected_text p) else None
          | Raise _ => None
          end
      | Raise _ => None
      end
  | Raise _ => None
  end.

(** The processes an uninterrupted video pass starts: the frame query, and
    the comparison when the query gave an answer. *)
Definition video_pass_cmds (metric reference_file distorted_file : string)
    (probe : result process) : list (list string) :=
  ffprobe_cmd reference_file
  :: match probe with
     | Ok q =>
         match frames_of q with
         | Ok _ => [video_cmd metric reference_file distorted_file]
         | Raise _ => []
         end
     | Raise _ => []
     end.

(** Every run of [c] leaves the component [f] of the state as it was. *)
Definition keeps {A X} (f : state -> X) (c : M A) : Prop :=
  forall w s r s', c w s = (r, s') -> f s' = f s.

(** The last read of the stop flag recorded in [s'] found it unset. *)
Definition ends_unset (w : env) (s' : state) : Prop :=
  exists before site,
    flag_reads s' = before ++ [(site, false)]
    /\ stop_event w (length before) = false.

(** Every run of [c] only adds entries to the progress queue, and they
    satisfy [P]. *)
Definition reports {A} (P : string * string * Z -> Prop) (c : M A) : Prop :=
  forall w s r s',
    c w s = (r, s') ->
    exists new, progress_queue s' = progress_queue s ++ new /\ Forall P new.

(** An entry of the progress queue for the bar [progress_type] of [row]. *)
Definition on_channel (row progress_type : string) (entry : string * string * Z)
    : Prop :=
  fst (fst entry) = row /\ snd (fst entry) = progress_type.

(** The values reported for one bar among the entries [q], in order. *)
Definition channel_values (row progress_type : string)
    (q : list (string * string * Z)) : list Z :=
  map snd
    (filter (fun entry => String.eqb (fst (fst entry)) row
                          && String.eqb (snd (fst entry)) progress_type) q).

(** The reports of the audio stage of a row. *)
Definition audio_steps (row_idx : nat) : list (string * string * Z) :=
  [(row_id row_idx, "audio", 25%Z); (row_id row_idx, "audio", 50%Z);
   (row_id row_idx, "audio", 75%Z)].

(** Between [s] and [s'] some read of the stop flag found it set. *)
Definition saw_stop (w : env) (s s' : state) : Prop :=
  exists i,
    length (flag_reads s) <= i < length (flag_reads s')
    /\ stop_event w i = true.

(** A process whose frame query prints [count]. *)
Definition probe_process (count : string) : process :=
  {| stderr_reads := []; stderr_rest := ""; stdout := count; returncode := 0 |}.

(** ** Notions used to state the outcome of a row *)

(** The video decision on two directional scores. *)
Definition video_decision (metric : string) (l r : option float) : dict :=
  match l, r with
  | Some a, Some b =>
      winner_dict
        (band_winner a b (if String.eqb metric "VMAF" then vmaf_win_threshold
                          else ssim_win_threshold)) a b
  | _, _ => tie_result
  end.

(** The audio decision on two directional scores, where [fallback] is what
    the loudness fallback gives. *)
Definition audio_decision (l r : option float) (fallback : dict) : dict :=
  match l, r with
  | Some a, Some b => winner_dict (band_winner a b 1.0) a b
  | _, _ => fallback
  end.

(** The other side. *)
Definition mirror (winner : string) : string :=
  if String.eqb winner "left" then "right"
  else if String.eqb winner "right" then "left"
  else winner.

Definition mirror_value (v : value) : value :=
  match v with
  | Str winner => Str (mirror winner)
  | _ => v
  end.

(** The record of a row with the two sides exchanged. *)
Definition mirror_record (d : dict) : dict :=
  [("video_winner", mirror_value (dict_get d "video_winner" (Str "tie")));
   ("audio_winner", mirror_value (dict_get d "audio_winner" (Str "tie")));
   ("video_score_left", dict_get d "video_score_right" (Int 0));
   ("video_score_right", dict_get d "video_score_left" (Int 0));
   ("audio_score_left", dict_get d "audio_score_right" (Int 0));
   ("audio_score_right", dict_get d "audio_score_left" (Int 0))].

(** The difference of two available scores is a number. *)
Definition comparable (l r : option float) : Prop :=
  match l, r with
  | Some a, Some b => PrimFloat.is_nan (PrimFloat.sub a b) = false
  | _, _ => True
  end.

Section Outcome.

(** What a process does when it depends on its command only. *)
Variable respond : list string -> result process.

(** The file lists of the application, the metric, the row and its files. *)
Variables (lefts rights : list string) (metric : string) (row_idx : nat).
Variables left_file right_file : string.

Definition video_pass (reference_file distorted_file : string) : option float :=
  video_pass_score metric (respond (ffprobe_cmd reference_file))
    (respond (video_cmd metric reference_file distorted_file)).

Definition audio_pass (reference_file distorted_file : string) : option float :=
  audio_pass_score (respond (apsnr_cmd reference_file distorted_file)).

(** The loudness fallback reads the files of the row in the two lists. *)
Definition fallback_decision : dict :=
  match nth_error lefts row_idx, nth_error rights row_idx with
  | Some lf, Some rf =>
      fallback_result (loudness_of (respond (ebur128_cmd lf)))
        (loudness_of (respond (ebur128_cmd rf)))
  | _, _ => tie_result
  end.

Definition fallback_cmds : list (list string) :=
  match nth_error lefts row_idx, nth_error rights row_idx with
  | Some lf, Some rf => [ebur128_cmd lf; ebur128_cmd rf]
  | _, _ => []
  end.

(** The record of an uninterrupted row. *)
Definition row_outcome : dict :=
  row_result
    (video_decision metric (video_pass left_file right_file)
       (video_pass right_file left_file))
    (audio_decision (audio_pass left_file right_file)
       (audio_pass right_file left_file) fallback_decision).

(** The processes an uninterrupted row starts, in order. *)
Definition row_cmds : list (list string) :=
  video_pass_cmds metric left_file right_file (respond (ffprobe_cmd left_file))
  ++ video_pass_cmds metric right_file left_file (respond (ffprobe_cmd right_file))
  ++ [apsnr_cmd left_file right_file; apsnr_cmd right_file left_file]
  ++ match audio_pass left_file right_file, audio_pass right_file left_file with
     | Some _, Some _ => []
     | _, _ => fallback_cmds
     end.

End Outcome.

(** An environment where every process depends on its command only. *)
Definition responding_env (stop : nat -> bool)
    (respond : list string -> result process)
    (lefts rights : list string) (metric : string) : env :=
  {| stop_event := stop;
     spawn := fun _ cmd => respond cmd;
     left_files := lefts;
     right_files := rights;
     current_metric := Ok metric |}.

(** The environment with the two file lists exchanged. *)
Definition swap_env (w : env) : env :=
  {| stop_event := stop_event w;
     spawn := spawn w;
     left_files := right_files w;
     right_files := left_files w;
     current_metric := current_metric w |}.

(** Tools that print a VMAF score of 91.5 with the first file as reference
    and of 88.0 the other way round, PSNR scores alike, and fail on everything
    else. *)
Definition sample_tools (cmd : list string) : result process :=
  match cmd with
  | ["ffprobe"; _; _; _; _; _; _; _; _; _; _] => Ok (probe_process "250")
  | ["ffmpeg"; "-i"; ref; "-i"; _; "-lavfi"; filter; "-f"; "null"; "-"] =>
      if String.eqb filter "libvmaf=log_fmt=json" then
        Ok (report_process
              [if String.eqb ref "a.mp4" then "VMAF score: 91.5" else "VMAF score: 88.0"])
      else if String.eqb filter "[0:a][1:a]apsnr" then
        Ok (report_process
              [if String.eqb ref "a.mp4" then "PSNR ch0: 40.0 dB" else "PSNR ch0: 37.5 dB"])
      else Raise OSError
  | _ => Raise OSError
  end.

(** Tools that print PSNR scores as [sample_tools] does and a loudness of
    -20.0 LUFS for ["a.mp4"] and of -23.5 LUFS for any other file. *)
Definition loudness_tools (cmd : list string) : result process :=
  match cmd with
  | ["ffmpeg"; "-i"; file_path; "-af"; _; "-f"; "null"; "-"] =>
      Ok (report_process
            [if String.eqb file_path "a.mp4" then "Integrated loudness: -20.0 LUFS"
             else "Integrated loudness: -23.5 LUFS"])
  | _ => sample_tools cmd
  end.

(** ** Numbers of mixed type

    The scores of a record are the integer 0 of the placeholder or floats;
    the display computes with them as Python does with [int] and [float]. *)

Module PyNum.

Inductive number : Type :=
| NInt (z : Z)
| NFloat (x : float).

(** [float(z)]: the nearest float, [OverflowError] beyond the range. *)
Definition of_int (z : Z) : result float := PyFloat.true_div z 1.

(** The order of the integer [z] and the float [x], which Python decides on
    their exact values; [None] when [x] is not a number. *)
Definition compare_int_float (z : Z) (x : float) : option comparison :=
  match Prim2SF x with
  | S754_nan => None
  | S754_infinity s => Some (if s then Gt else Lt)
  | S754_zero _ => Some (Z.compare z 0)
  | S754_finite s m e =>
      let v := if s then Zneg m else Zpos m in
      Some (match e with
            | Zneg k => Z.compare (Z.shiftl z (Zpos k)) v
            | _ => Z.compare z (Z.shiftl v e)
            end)
  end.

(** [a < b] *)
Definition less (a b : number) : bool :=
  match a, b with
  | NInt x, NInt y => Z.ltb x y
  | NFloat x, NFloat y => PrimFloat.ltb x y
  | NInt x, NFloat y =>
      match compare_int_float x y with Some Lt => true | _ => false end
  | NFloat x, NInt y =>
      match compare_int_float y x with Some Gt => true | _ => false end
  end.

(** [a > b] *)
Definition greater (a b : number) : bool := less b a.

(** [a >= b] *)
Definition greater_eq (a b : number) : bool :=
  match a, b with
  | NInt x, NInt y => Z.leb y x
  | NFloat x, NFloat y => PrimFloat.leb y x
  | NInt x, NFloat y =>
      match compare_int_float x y with Some Gt | Some Eq => true | _ => false end
  | NFloat x, NInt y =>
      match compare_int_float y x with Some Lt | Some Eq => true | _ => false end
  end.

(** [abs(a - b)] *)
Definition abs_diff (a b : number) : result number :=
  match a, b with
  | NInt x, NInt y => Ok (NInt (Z.abs (x - y)))
  | NFloat x, NFloat y => Ok (NFloat (PyFloat.absdiff x y))
  | NInt x, NFloat y =>
      match of_int x with
      | Ok x' => Ok (NFloat (PyFloat.absdiff x' y))
      | Raise e => Raise e
      end
  | NFloat x, NInt y =>
      match of_int y with
      | Ok y' => Ok (NFloat (PyFloat.absdiff x y'))
      | Raise e => Raise e
      end
  end.

(** The fragment [{a:.2f}] of an f-string: an integer is converted first. *)
Definition fixed2 (a : number) : result frag :=
  match a with
  | NFloat x => Ok (F 2 x)
  | NInt z =>
      match of_int z with
      | Ok x => Ok (F 2 x)
      | Raise e => Raise e
      end
  end.

(** The number a value of a record is; the format [.2f] refuses text. *)
Definition of_value (v : value) : result number :=
  match v with
  | Int z => Ok (NInt z)
  | Num x => Ok (NFloat x)
  | Str _ => Raise ValueError
  end.

End PyNum.

(** ** The application state and the handlers of the file lists

    The handlers of the graphical interface run in the main thread, one at a
    time.  A widget is modelled by the data it holds: a list box by the texts
    of its items and the indices selected, a progress bar by its value.  The
    text of an item is kept as a prefix and a path: it stands for the prefix
    followed by [os.path.basename] of the path.  Answers of dialogs are
    arguments of the handlers. *)

Module Gui.

(** [d.get(key)], [None] when the key is missing. *)
Fixpoint lookup {V} (d : list (string * V)) (key : string) : option V :=
  match d with
  | [] => None
  | (k, v) :: d' => if String.eqb k key then Some v else lookup d' key
  end.

(** [d[key] = v]: the value of a key that exists is replaced where it is, a
    new key is added at the end. *)
Fixpoint assign {V} (d : list (string * V)) (key : string) (v : V)
    : list (string * V) :=
  match d with
  | [] => [(key, v)]
  | (k, v') :: d' =>
      if String.eqb k key then (k, v) :: d' else (k, v') :: assign d' key v
  end.

(** [l.pop(i)] for an index that is not negative: the item and the list
    without it ([without l i]), [IndexError] beyond the end. *)
Definition without {A} (l : list A) (i : nat) : list A :=
  firstn i l ++ skipn (S i) l.

Definition pop {A} (l : list A) (i : nat) : result (A * list A) :=
  match nth_error l i with
  | Some x => Ok (x, without l i)
  | None => Raise IndexError
  end.

(** [l.insert(i, x)] for an index that is not negative: before the item at
    [i], at the end when there is none. *)
Definition insert {A} (l : list A) (i : nat) (x : A) : list A :=
  firstn i l ++ x :: skipn i l.

Record listbox : Type := {
  items : list (string * string);
  curselection : list nat
}.

(** The two bars of a row; the dictionary of the row has a third key,
    ["frame"], for the frame that holds them. *)
Record bars : Type := { video : Z; audio : Z }.

(** A label: its text and its colour. *)
Record label : Type := { text : message; foreground : string }.

(** The six score labels of a row. *)
Record labels : Type := {
  vidleft : label;
  vidright : label;
  viddiff : label;
  audioleft : label;
  audioright : label;
  audiodiff : label
}.

Record app : Type := {
  left_files : list string;
  right_files : list string;
  results : list (string * dict);
  progress_bars : list (string * bars);
  score_labels : list (string * labels);
  left_listbox : listbox;
  right_listbox : listbox;
  console : list (string * message)
}.

Definition file_list (panel : string) (a : app) : list string :=
  if String.eqb panel "left" then left_files a else right_files a.

Definition listbox_of (panel : string) (a : app) : listbox :=
  if String.eqb panel "left" then left_listbox a else right_listbox a.

Definition set_file_list (panel : string) (files : list string) (a : app) : app :=
  if String.eqb panel "left" then
    {| left_files := files; right_files := right_files a; results := results a;
       progress_bars := progress_bars a; score_labels := score_labels a;
       left_listbox := left_listbox a; right_listbox := right_listbox a;
       console := console a |}
  else
    {| left_files := left_files a; right_files := files; results := results a;
       progress_bars := progress_bars a; score_labels := score_labels a;
       left_listbox := left_listbox a; right_listbox := right_listbox a;
       console := console a |}.

Definition set_listbox (panel : string) (box : listbox) (a : app) : app :=
  if String.eqb panel "left" then
    {| left_files := left_files a; right_files := right_files a; results := results a;
       progress_bars := progress_bars a; score_labels := score_labels a;
       left_listbox := box; right_listbox := right_listbox a;
       console := console a |}
  else
    {| left_files := left_files a; right_files := right_files a; results := results a;
       progress_bars := progress_bars a; score_labels := score_labels a;
       left_listbox := left_listbox a; right_listbox := box;
       console := console a |}.

Definition set_results (r : list (string * dict)) (a : app) : app :=
  {| left_files := left_files a; right_files := right_files a; results := r;
     progress_bars := progress_bars a; score_labels := score_labels a;
     left_listbox := left_listbox a; right_listbox := right_listbox a;
     console := console a |}.

Definition set_progress (p : list (string * bars)) (ls : list (string * labels))
    (a : app)
    : app :=
  {| left_files := left_files a; right_files := right_files a; results := results a;
     progress_bars := p; score_labels := ls;
     left_listbox := left_listbox a; right_listbox := right_listbox a;
     console := console a |}.

(** [log_message]: a line of the console (its time stamp is left out). *)
Definition log_message (level : string) (text : message) (a : app) : app :=
  {| left_files := left_files a; right_files := right_files a; results := results a;
     progress_bars := progress_bars a; score_labels := score_labels a;
     left_listbox := left_listbox a; right_listbox := right_listbox a;
     console := console a ++ [(level, text)] |}.

(** [result.get(key) == panel] chooses the mark of a winner. *)
Definition indicator (result : dict) (key panel mark : string) : string :=
  match lookup result key with
  | Some (Str winner) => if String.eqb winner panel then mark else ""
  | _ => ""
  end.

(** The text of the item of the file at index [i]. *)
Definition display_name (res : list (string * dict)) (panel : string) (i : nat)
    (file_path : string) : string * string :=
  match lookup res (row_id i) with
  | Some result =>
      ((indicator result "video_winner" panel "[V] "
        ++ indicator result "audio_winner" panel "[A] ")%string, file_path)
  | None => ("", file_path)
  end.

Fixpoint display_names (res : list (string * dict)) (panel : string) (i : nat)
    (files : list string) : list (string * string) :=
  match files with
  | [] => []
  | file_path :: files' =>
      display_name res panel i file_path :: display_names res panel (S i) files'
  end.

(** [refresh_file_display]: the list box is emptied, which also drops its
    selection, and filled again. *)
Definition refresh_file_display (panel : string) (a : app) : app :=
  set_listbox panel
    {| items := display_names (results a) panel 0 (file_list panel a);
       curselection := [] |} a.

Definition clear_progress_bars (a : app) : app := set_progress [] [] a.

(** The labels of a row that has no scores yet. *)
Definition initial_labels : labels :=
  {| vidleft := {| text := [T "Visual Score (L): --"]; foreground := "gray" |};
     vidright := {| text := [T "Visual Score (R): --"]; foreground := "gray" |};
     viddiff := {| text := [T ""]; foreground := "purple" |};
     audioleft := {| text := [T "Audio Score (L): --"]; foreground := "gray" |};
     audioright := {| text := [T "Audio Score (R): --"]; foreground := "gray" |};
     audiodiff := {| text := [T ""]; foreground := "purple" |} |}.

(** The loop of [setup_progress_bars]: a pair of bars at 0 and a set of score
    labels for each row. *)
Fixpoint add_rows (rows : list nat) (a : app) : app :=
  match rows with
  | [] => a
  | i :: rows' =>
      add_rows rows'
        (set_progress
           (assign (progress_bars a) (row_id i) {| video := 0; audio := 0 |})
           (assign (score_labels a) (row_id i) initial_labels) a)
  end.

Definition setup_progress_bars (a : app) : app :=
  let a := clear_progress_bars a in
  let min_count := Nat.min (length (left_files a)) (length (right_files a)) in
  if Nat.eqb min_count 0 then a else add_rows (seq 0 min_count) a.

(** [listbox.selection_clear(0, tk.END); listbox.selection_set(index)] *)
Definition select (panel : string) (index : nat) (a : app) : app :=
  set_listbox panel
    {| items := items (listbox_of panel a); curselection := [index] |} a.

Definition reorder_files (panel : string) (old_index new_index : Z) (a : app)
    : result app :=
  let file_list := file_list panel a in
  let n := Z.of_nat (length file_list) in
  if ((0 <=? old_index) && (old_index <? n)
      && ((0 <=? new_index) && (new_index <? n)))%Z
  then
    match pop file_list (Z.to_nat old_index) with
    | Ok (item, rest) =>
        let a := set_file_list panel (insert rest (Z.to_nat new_index) item) a in
        let a := set_results [] a in
        let a := clear_progress_bars a in
        let a := refresh_file_display "left" a in
        let a := refresh_file_display "right" a in
        let a := setup_progress_bars a in
        Ok (select panel (Z.to_nat new_index) a)
    | Raise e => Raise e
    end
  else Ok a.

(** [add_files], where [files] is what the file dialog returns. *)
Definition add_files (panel : string) (files : list string) (a : app) : app :=
  match files with
  | [] => a
  | _ =>
      let a := set_file_list panel (file_list panel a ++ files) a in
      let a := refresh_file_display panel a in
      let a := setup_progress_bars a in
      log_message "INFO"
        [T "Added "; I (Z.of_nat (length files)); T " files to "; T panel; T " panel"] a
  end.

Definition remove_selected_file (panel : string) (a : app) : result app :=
  let file_list := file_list panel a in
  match curselection (listbox_of panel a) with
  | [] => Ok a
  | index :: _ =>
      if Nat.ltb index (length file_list) then
        match pop file_list index with
        | Ok (removed_file, rest) =>
            let a := set_file_list panel rest a in
            let a := set_results [] a in
            let a := clear_progress_bars a in
            let a := refresh_file_display panel a in
            let a := setup_progress_bars a in
            Ok (log_message "INFO" [T "Removed file: "; Basename removed_file] a)
        | Raise e => Raise e
        end
      else Ok a
  end.

(** One run of [process_progress_queue] on the entries the queue holds: what
    is left in the queue, and the application.  An entry for a row without
    bars is dropped.  An entry for the key ["frame"] of a row reaches a widget
    that has no value: the error ends the loop, and the handler of the method
    swallows it. *)
Fixpoint process_progress_queue (queue : list (string * string * Z)) (a : app)
    : list (string * string * Z) * app :=
  match queue with
  | [] => ([], a)
  | (row, progress_type, value) :: queue' =>
      match lookup (progress_bars a) row with
      | Some b =>
          if String.eqb progress_type "video" then
            process_progress_queue queue'
              (set_progress
                 (assign (progress_bars a) row {| video := value; audio := audio b |})
                 (score_labels a) a)
          else if String.eqb progress_type "audio" then
            process_progress_queue queue'
              (set_progress
                 (assign (progress_bars a) row {| video := video b; audio := value |})
                 (score_labels a) a)
          else if String.eqb progress_type "frame" then (queue', a)
          else process_progress_queue queue' a
      | None => process_progress_queue queue' a
      end
  end.

(** *** The score labels *)

(** One half of [update_labels], which the method has twice, for the video
    and for the audio scores: the texts of the two scores, the text and the
    colour of the difference, the colours of the two scores.  The labels
    are changed one after the other; [false] says that an exception ended
    the update, after the changes made so far.  The sign of the tie text is
    kept as the bytes of its UTF-8 encoding. *)
Definition show_scores (threshold : float) (left_score right_score : value)
    (t : label * label * label) : label * label * label * bool :=
  let '(l, r, d) := t in
  match PyNum.of_value left_score with
  | Raise _ => (l, r, d, false)
  | Ok x =>
  match PyNum.fixed2 x with
  | Raise _ => (l, r, d, false)
  | Ok fx =>
  let l := {| text := [T "Left: "; fx]; foreground := foreground l |} in
  match PyNum.of_value right_score with
  | Raise _ => (l, r, d, false)
  | Ok y =>
  match PyNum.fixed2 y with
  | Raise _ => (l, r, d, false)
  | Ok fy =>
  let r := {| text := [T "Right: "; fy]; foreground := foreground r |} in
  match PyNum.abs_diff x y with
  | Raise _ => (l, r, d, false)
  | Ok diff =>
  let winner := if PyNum.greater x y then "Left"
                else if PyNum.greater y x then "Right" else "Tie" in
  match (if PyNum.less diff (PyNum.NFloat threshold)
         then Ok ([T "≈ Tie"], "gray")
         else match PyNum.fixed2 diff with
              | Ok fd => Ok ([T winner; T " +"; fd],
                             if String.eqb winner "Left" then "green" else "red")
              | Raise e => Raise e
              end) with
  | Raise _ => (l, r, d, false)
  | Ok (diff_text, diff_color) =>
  let d := {| text := diff_text; foreground := diff_color |} in
  if PyNum.greater x y && PyNum.greater_eq diff (PyNum.NFloat threshold) then
    ({| text := text l; foreground := "green" |},
     {| text := text r; foreground := "gray" |}, d, true)
  else if PyNum.greater y x && PyNum.greater_eq diff (PyNum.NFloat threshold) then
    ({| text := text l; foreground := "gray" |},
     {| text := text r; foreground := "red" |}, d, true)
  else
    ({| text := text l; foreground := "gray" |},
     {| text := text r; foreground := "gray" |}, d, true)
  end end end end end end.

(** [update_labels], the function [update_score_display] hands to the main
    thread.  Its handler swallows every exception (it prints it): a row
    whose labels are gone, a score that is text. *)
Definition update_labels (row : string)
    (vid_left_score vid_right_score audio_left_score audio_right_score : value)
    (metric : string) (a : app) : app :=
  match lookup (score_labels a) row with
  | None => a
  | Some ls =>
      let '(vl, vr, vd, ok) :=
        show_scores (if String.eqb metric "VMAF" then vmaf_win_threshold
                     else ssim_win_threshold)
          vid_left_score vid_right_score (vidleft ls, vidright ls, viddiff ls) in
      let '(al, ar, ad, _) :=
        if ok then
          show_scores psnr_win_threshold audio_left_score audio_right_score
            (audioleft ls, audioright ls, audiodiff ls)
        else (audioleft ls, audioright ls, audiodiff ls, false) in
      set_progress (progress_bars a)
        (assign (score_labels a) row
           {| vidleft := vl; vidright := vr; viddiff := vd;
              audioleft := al; audioright := ar; audiodiff := ad |}) a
  end.

(** What [self.root.after(0, ...)] hands to the main thread: a call of
    [refresh_file_display], or a call of [update_labels] with the scores and
    the metric it was made for. *)
Inductive callback : Type :=
| RefreshFileDisplay (panel : string)
| UpdateLabels (row : string) (vid_left_score vid_right_score
                               audio_left_score audio_right_score : value)
    (metric : string).

(** [update_score_display]: nothing for a row without labels, else the
    update is handed to the main thread. *)
Definition update_score_display (row : string)
    (vid_left_score vid_right_score audio_left_score audio_right_score : value)
    (metric : string) (a : app) : list callback :=
  match lookup (score_labels a) row with
  | None => []
  | Some _ =>
      [UpdateLabels row vid_left_score vid_right_score audio_left_score
         audio_right_score metric]
  end.

(** *** The collection of the results

    The second loop of [run_comparisons], in the thread that submitted the
    rows.  [completed] lists the rows in the order in which their futures
    complete, each with what [future.result()] gives: what [compare_row]
    returned, or the exception it raised.  The loop stores the records in
    [self.results] and hands the updates of the display to the main thread;
    [pending] collects them, in the order in which they are handed over.
    The loop is followed on its own: the handlers of the file lists, which
    also change [self.results] and the labels, are taken not to run
    meanwhile. *)
Fixpoint collect_completed (completed : list (nat * result (option dict)))
    (a : app) (pending : list callback) : M (app * list callback) :=
  match completed with
  | [] => ret (a, pending)
  | (row_idx, outcome) :: completed' =>
      stop <- is_set "run_comparisons" ;;
      if stop then ret (a, pending)
      else
        step <-
          try_except
            (result <- lift outcome ;;
             match result with
             | Some ((_ :: _) as record) =>
                 let a := set_results (assign (results a) (row_id row_idx) record) a in
                 let pending :=
                   pending ++ [RefreshFileDisplay "left"; RefreshFileDisplay "right"] in
                 try_except
                   (metric <- get_current_metric ;;
                    ret (a, pending
                            ++ update_score_display (row_id row_idx)
                                 (dict_get record "video_score_left" (Int 0))
                                 (dict_get record "video_score_right" (Int 0))
                                 (dict_get record "audio_score_left" (Int 0))
                                 (dict_get record "audio_score_right" (Int 0))
                                 metric a))
                   (fun e =>
                      log_put "ERROR"
                        [T "Row "; row_number row_idx; T " comparison failed: "; E e] ;;
                      ret (a, pending))
             | _ => ret (a, pending)
             end)
            (fun e =>
               log_put "ERROR"
                 [T "Row "; row_number row_idx; T " comparison failed: "; E e] ;;
               ret (a, pending)) ;;
        collect_completed completed' (fst step) (snd step)
  end.



(** The bars of [row] once the entries [queue] have been applied to the bars
    [b]: each bar shows the last value reported for it, if any. *)
Definition shown (queue : list (string * string * Z)) (row : string) (b : bars)
    : bars :=
  {| video := last (channel_values row "video" queue) (video b);
     audio := last (channel_values row "audio" queue) (audio b) |}.

(** An application that has just started. *)
Definition empty : app :=
  {| left_files := []; right_files := []; results := []; progress_bars := [];
     score_labels := [];
     left_listbox := {| items := []; curselection := [] |};
     right_listbox := {| items := []; curselection := [] |};
     console := [] |}.

End Gui.

(** * Properties *)

(** ** Facts on binary64 comparisons *)

Section FloatFacts.

Local Open Scope float_scope.

Lemma compare_cont_antisym (p q : positive) :
  PosDef.Pos.compare_cont Eq q p = CompOpp (PosDef.Pos.compare_cont Eq p q).
Proof. exact (Pos.compare_antisym p q). Qed.

Lemma compare_cont_eq (p q : positive) :
  PosDef.Pos.compare_cont Eq p q = Eq -> p = q.
Proof. exact (Pos.compare_eq p q). Qed.

Lemma SFcompare_antisym (x y : spec_float) :
  SFcompare y x = option_map CompOpp (SFcompare x y).
Proof.
  destruct x as [sx|sx| |sx mx ex], y as [sy|sy| |sy my ey]; simpl;
    try reflexivity;
    try (destruct sx; reflexivity); try (destruct sy; reflexivity);
    try (destruct sx, sy; reflexivity).
  destruct sx, sy; try reflexivity;
    rewrite (Z.compare_antisym ex ey);
    destruct (ex ?= ey)%Z; simpl; try reflexivity;
    rewrite (compare_cont_antisym mx my);
    destruct (PosDef.Pos.compare_cont Eq mx my); reflexivity.
Qed.

Lemma ltb_antisym (x y : float) : (x <? y) = true -> (y <? x) = false.
Proof.
  rewrite !ltb_spec. unfold SFltb.
  rewrite (SFcompare_antisym (Prim2SF x) (Prim2SF y)).
  destruct (SFcompare (Prim2SF x) (Prim2SF y)) as [[]|]; simpl; congruence.
Qed.

Lemma eqb_not_ltb (x y : float) : (x =? y) = true -> (x <? y) = false.
Proof.
  rewrite FloatAxioms.eqb_spec, ltb_spec. unfold SFeqb, SFltb.
  destruct (SFcompare (Prim2SF x) (Prim2SF y)) as [[]|]; congruence.
Qed.

Lemma SFsub_diag_finite (s : bool) (m : positive) (e : Z) :
  SFsub prec emax (S754_finite s m e) (S754_finite s m e) = S754_zero false.
Proof.
  unfold SFsub. cbv zeta. rewrite Z.sub_diag. reflexivity.
Qed.

(** The order of two spec floats whose difference is a number. *)
Lemma SF_apart_ordered (x y pt : spec_float) :
  SFeqb (SFsub prec emax x y) (SFsub prec emax x y) = true ->
  SFltb (S754_zero false) pt = true ->
  SFltb (SFabs (SFsub prec emax x y)) pt = false ->
  SFltb y x = false ->
  SFltb x y = true.
Proof.
  intros Hnan Ht Htie Hgt.
  destruct (SFcompare x y) as [[]|] eqn:Hc.
  - (* equal: the difference is a zero, or not a number *)
    exfalso.
    destruct x as [sx|sx| |sx mx ex], y as [sy|sy| |sy my ey]; simpl in Hc;
      try discriminate;
      try (destruct sx; discriminate); try (destruct sy; discriminate).
    + destruct sx, sy; simpl in Htie; congruence.
    + destruct sx, sy; simpl in Hnan; try discriminate; simpl in Hc; discriminate.
    + assert (sx = sy /\ ex = ey /\ mx = my) as (-> & -> & ->).
      { destruct sx, sy; try discriminate;
          destruct (ex ?= ey)%Z eqn:He; try discriminate;
          apply Z.compare_eq in He;
          injection Hc as Hc.
        - destruct (PosDef.Pos.compare_cont Eq mx my) eqn:Hm; try discriminate.
          apply compare_cont_eq in Hm. auto.
        - apply compare_cont_eq in Hc. auto. }
      rewrite SFsub_diag_finite in Htie. simpl in Htie. congruence.
  - unfold SFltb. rewrite Hc. reflexivity.
  - unfold SFltb in Hgt. rewrite (SFcompare_antisym x y), Hc in Hgt. discriminate.
  - (* unordered: one of them is not a number, and so is the difference *)
    exfalso.
    destruct x as [sx|sx| |sx mx ex], y as [sy|sy| |sy my ey]; simpl in Hc;
      try discriminate; simpl in Hnan; try discriminate.
Qed.

Lemma apart_ordered (x y t : float) :
  is_nan (x - y) = false ->
  (0 <? t) = true ->
  (abs (x - y) <? t) = false ->
  (y <? x) = false ->
  (x <? y) = true.
Proof.
  unfold is_nan. rewrite !ltb_spec, FloatAxioms.eqb_spec, abs_spec, sub_spec.
  unfold SF64sub.
  change (Prim2SF 0) with (S754_zero false).
  intros Hnan. apply negb_false_iff in Hnan.
  now apply SF_apart_ordered.
Qed.

End FloatFacts.

(** ** The tie band *)

Section TieBand.

Local Open Scope float_scope.

(** The three-way decision all the winner functions make. *)
Lemma tie_band_decision (a b t : float) :
  (0 <? t) = true ->
  let w := if PyFloat.lt (PyFloat.absdiff a b) t then "tie"%string
           else if PyFloat.gt a b then "left"%string else "right"%string in
  (w = "tie"%string <-> PyFloat.lt (PyFloat.absdiff a b) t = true)
  /\ ((PyFloat.absdiff a b =? t) = true -> w <> "tie"%string)
  /\ (w <> "tie"%string -> PyFloat.gt a b = true -> w = "left"%string)
  /\ (w <> "tie"%string -> PyFloat.gt b a = true -> w = "right"%string)
  /\ (is_nan (a - b) = false -> w <> "tie"%string ->
      (w = "left"%string /\ PyFloat.gt a b = true)
      \/ (w = "right"%string /\ PyFloat.gt b a = true)).
Proof.
  intros Ht w. subst w. unfold PyFloat.lt, PyFloat.gt, PyFloat.absdiff.
  destruct (abs (a - b) <? t) eqn:Htie.
  - repeat split; try congruence.
    intros Heq. apply eqb_not_ltb in Heq. congruence.
  - destruct (b <? a) eqn:Hgt.
    + repeat split; try congruence; try discriminate.
      * intros _ Hba. apply ltb_antisym in Hba. congruence.
      * intros _ _. left. split; reflexivity.
    + repeat split; try congruence; try discriminate.
      intros Hnan _. right. split; [reflexivity|].
      now apply (apart_ordered a b t).
Qed.

End TieBand.

(** ** Winner decision *)

(** C1.  For two available scores [a] and [b] the video decision returns,
    without raising, the record of a winner and the two scores, where the
    threshold [t] is 2.0 for VMAF and 0.01 for SSIM and, with the binary64
    difference and comparisons Python computes: the winner is "tie" exactly
    when [abs(a - b) < t]; it is not "tie" when [abs(a - b) == t]; when it is
    not "tie", a strictly higher left score gives "left" and a strictly higher
    right score gives "right"; and, provided the difference is a number, the
    side named is the one with the strictly higher score. *)
Theorem determine_video_winner_tie_rule
    (a b : float) (metric : string) (row_idx : nat) (w : env) (s : state) :
  let t := if String.eqb metric "VMAF" then 2.0%float else 0.01%float in
  exists winner s',
    determine_video_winner (Some a) (Some b) metric row_idx w s
    = (Ok (winner_dict winner a b), s')
    /\ (winner = "tie" <-> PyFloat.lt (PyFloat.absdiff a b) t = true)
    /\ (PrimFloat.eqb (PyFloat.absdiff a b) t = true -> winner <> "tie")
    /\ (winner <> "tie" -> PyFloat.gt a b = true -> winner = "left")
    /\ (winner <> "tie" -> PyFloat.gt b a = true -> winner = "right")
    /\ (PrimFloat.is_nan (PrimFloat.sub a b) = false -> winner <> "tie" ->
        (winner = "left" /\ PyFloat.gt a b = true)
        \/ (winner = "right" /\ PyFloat.gt b a = true)).
Proof.
  intros t. subst t.
  unfold determine_video_winner, try_except, bind, log_put, ret.
  destruct (String.eqb metric "VMAF"); cbv beta iota zeta.
  - eexists. eexists. split; [reflexivity|].
    apply (tie_band_decision a b vmaf_win_threshold). reflexivity.
  - eexists. eexists. split; [reflexivity|].
    apply (tie_band_decision a b ssim_win_threshold). reflexivity.
Qed.

(** The examples of the specification: 95.0 against 96.5 under VMAF is a tie,
    95.0 against 98.0 is won by the right side, and a difference equal to the
    threshold is decided. *)
Example video_winner_examples (w : env) (s : state) :
  fst (determine_video_winner (Some 95.0%float) (Some 96.5%float) "VMAF" 0 w s)
  = Ok (winner_dict "tie" 95.0 96.5)
  /\ fst (determine_video_winner (Some 95.0%float) (Some 98.0%float) "VMAF" 0 w s)
     = Ok (winner_dict "right" 95.0 98.0)
  /\ fst (determine_video_winner (Some 3.0%float) (Some 1.0%float) "VMAF" 0 w s)
     = Ok (winner_dict "left" 3.0 1.0)
  /\ fst (determine_video_winner (Some 0.5%float) (Some 0.75%float) "SSIM" 0 w s)
     = Ok (winner_dict "right" 0.5 0.75).
Proof. repeat split. Qed.

(** When both scores are the same infinity their difference is not a number:
    the decision is "right" although no side is strictly higher. *)
Example video_winner_infinite_scores (w : env) (s : state) :
  fst (determine_video_winner (Some infinity) (Some infinity) "VMAF" 0 w s)
  = Ok (winner_dict "right" infinity infinity)
  /\ PyFloat.gt infinity infinity = false.
Proof. split; reflexivity. Qed.

(** C2.  For two available PSNR scores the audio decision returns, without
    raising and without starting any subprocess, the record of a winner and
    the two scores, decided with a band of 1.0 dB: "tie" exactly when
    [abs(a - b) < 1.0], otherwise the strictly higher side (the side named is
    strictly higher provided the difference is a number).  The constant
    [psnr_win_threshold] (2.0) plays no part: 40.0 against 37.5 is won by the
    left side, and so is 40.0 against 38.5, which is inside a 2.0 band. *)
Theorem determine_audio_winner_tie_band
    (a b : float) (row_idx : nat) (w : env) (s : state) :
  (exists winner s',
    determine_audio_winner (Some a) (Some b) row_idx w s
    = (Ok (winner_dict winner a b), s')
    /\ spawned s' = spawned s
    /\ (winner = "tie" <-> PyFloat.lt (PyFloat.absdiff a b) 1.0 = true)
    /\ (PrimFloat.eqb (PyFloat.absdiff a b) 1.0 = true -> winner <> "tie")
    /\ (winner <> "tie" -> PyFloat.gt a b = true -> winner = "left")
    /\ (winner <> "tie" -> PyFloat.gt b a = true -> winner = "right")
    /\ (PrimFloat.is_nan (PrimFloat.sub a b) = false -> winner <> "tie" ->
        (winner = "left" /\ PyFloat.gt a b = true)
        \/ (winner = "right" /\ PyFloat.gt b a = true)))
  /\ fst (determine_audio_winner (Some 40.0%float) (Some 37.5%float) row_idx w s)
     = Ok (winner_dict "left" 40.0 37.5)
  /\ fst (determine_audio_winner (Some 40.0%float) (Some 38.5%float) row_idx w s)
     = Ok (winner_dict "left" 40.0 38.5)
  /\ PyFloat.lt (PyFloat.absdiff 40.0 38.5) psnr_win_threshold = true.
Proof.
  split; [|repeat split].
  unfold determine_audio_winner, try_except, bind, log_put, ret.
  cbv beta iota zeta.
  eexists. eexists. split; [reflexivity|]. split; [reflexivity|].
  apply (tie_band_decision a b 1.0%float). reflexivity.
Qed.

(** C4.  When at least one of the two directional video scores is unavailable
    the video decision returns the record with winner "tie" and both scores 0;
    it raises nothing and leaves the queues untouched. *)
Theorem determine_video_winner_unavailable
    (l r : option float) (metric : string) (row_idx : nat) (w : env) (s : state) :
  l = None \/ r = None ->
  determine_video_winner l r metric row_idx w s = (Ok tie_result, s)
  /\ dict_get tie_result "winner" (Str "") = Str "tie"
  /\ dict_get tie_result "left_score" (Str "") = Int 0
  /\ dict_get tie_result "right_score" (Str "") = Int 0.
Proof.
  intros H. split; [|repeat split].
  unfold determine_video_winner, try_except, ret.
  destruct H as [-> | ->]; [|destruct l]; reflexivity.
Qed.

(** The left score unavailable, the right one 91.5. *)
Lemma determine_video_winner_unavailable_witness :
  determine_video_winner None (Some 91.5%float) "VMAF" 0
    (bare_env never_stopped [] []) initial_state
  = (Ok tie_result, initial_state)
  /\ dict_get tie_result "winner" (Str "") = Str "tie"
  /\ dict_get tie_result "left_score" (Str "") = Int 0
  /\ dict_get tie_result "right_score" (Str "") = Int 0.
Proof.
  apply (determine_video_winner_unavailable None (Some 91.5%float) "VMAF" 0
           (bare_env never_stopped [] []) initial_state).
  left. reflexivity.
Defined.

(** ** The monad *)

Lemma try_except_returns {A} (body : M A) (handler : exn -> M A) :
  (forall e w s, exists a s', handler e w s = (Ok a, s')) ->
  forall w s, exists a s', try_except body handler w s = (Ok a, s').
Proof.
  intros H w s. unfold try_except.
  destruct (body w s) as [[a|e] s1].
  - now exists a, s1.
  - apply H.
Qed.

Lemma log_then_ret_returns {A} (level : string) (text : message) (a : A) w s :
  exists a' s', (log_put level text ;; ret a) w s = (Ok a', s').
Proof. eexists. eexists. reflexivity. Qed.

(** ** Output parsers: totality *)

(** C10.  Each of the three output parsers returns, on every text, a score or
    [None] and raises nothing, although the conversion of a captured token can
    raise inside it: a token made of points only is captured by the numeric
    class, refused by [float], and the parser returns [None]. *)
Theorem output_parsers_total
    (output comparison_type : string) (row_idx : nat) (w : env) (s : state) :
  (exists r s', parse_single_vmaf_output output comparison_type row_idx w s = (Ok r, s'))
  /\ (exists r s', parse_single_ssim_output output comparison_type row_idx w s = (Ok r, s'))
  /\ (exists r s', parse_single_audio_output output comparison_type row_idx w s = (Ok r, s'))
  /\ search vmaf_score_re "VMAF score: ..." = Some "..."
  /\ Str.to_float "..." = Raise ValueError
  /\ fst (parse_single_vmaf_output "VMAF score: ..." comparison_type row_idx w s) = Ok None
  /\ fst (parse_single_vmaf_output "VMAF ... 5" comparison_type row_idx w s) = Ok None
  /\ fst (parse_single_ssim_output "Y:0.9 All:.." comparison_type row_idx w s) = Ok None
  /\ fst (parse_single_audio_output "PSNR ch0: 1.2.3 dB" comparison_type row_idx w s) = Ok None
  /\ fst (parse_single_audio_output "average: . dB" comparison_type row_idx w s) = Ok None.
Proof.
  split; [|split; [|split]].
  - apply try_except_returns. intros. apply log_then_ret_returns.
  - apply try_except_returns. intros. apply log_then_ret_returns.
  - apply try_except_returns. intros. apply log_then_ret_returns.
  - repeat split.
Qed.

(** ** Regular expressions *)

Section Regex.

Local Infix "+++" := String.append (right associativity, at level 60).

Lemma string_app_assoc (a b c : string) : (a +++ b) +++ c = a +++ (b +++ c).
Proof. induction a; simpl; congruence. Qed.

Lemma string_app_nil_r (a : string) : a +++ "" = a.
Proof. induction a; simpl; congruence. Qed.

Lemma string_length_app (a b : string) :
  String.length (a +++ b) = String.length a + String.length b.
Proof. induction a; simpl; congruence. Qed.

Lemma substring_app_prefix (a b : string) :
  String.substring 0 (String.length a) (a +++ b) = a.
Proof. induction a; simpl; [destruct b; reflexivity | congruence]. Qed.

Lemma captured_app (tok suf : string) : captured (tok +++ suf) suf = tok.
Proof.
  unfold captured. rewrite string_length_app.
  replace (String.length tok + String.length suf - String.length suf)
    with (String.length tok) by lia.
  apply substring_app_prefix.
Qed.

Lemma prefix_split (L s : string) :
  String.prefix L s = true -> exists s', s = L +++ s'.
Proof.
  revert s. induction L as [|a L IH]; intros s H.
  - now exists s.
  - destruct s as [|b s]; simpl in H; [discriminate|].
    destruct (ascii_dec a b) as [Hab|]; [subst b|discriminate].
    destruct (IH _ H) as [s' ->]. now exists s'.
Qed.

(** A literal matches its own text and nothing else. *)
Lemma run_lit_app (L : string) (r : regex) (o c s : string) :
  run (lit L ++ r) o c (L +++ s) = run r o c s.
Proof.
  induction L as [|a L IH]; simpl; [reflexivity|].
  now rewrite Ascii.eqb_refl.
Qed.

Lemma run_lit_no_prefix (L : string) (r : regex) (o c s : string) :
  String.prefix L s = false -> run (lit L ++ r) o c s = None.
Proof.
  revert s. induction L as [|a L IH]; intros s H.
  - destruct s; discriminate.
  - destruct s as [|b s]; simpl in *; [reflexivity|].
    destruct (ascii_dec a b) as [Hab|Hab].
    + subst b. rewrite Ascii.eqb_refl. now apply IH.
    + apply Ascii.eqb_neq in Hab. now rewrite Hab.
Qed.

(** The equations of [run]. *)
Lemma run_Open r o c s : run (Open :: r) o c s = run r s c s.
Proof. reflexivity. Qed.

Lemma run_Close r o c s : run (Close :: r) o c s = run r o (captured o s) s.
Proof. reflexivity. Qed.

Lemma run_One k r o c d s :
  run (One k :: r) o c (String d s) = if mem k d then run r o c s else None.
Proof. reflexivity. Qed.

Lemma run_Star_nil k r o c : run (Star k :: r) o c "" = run r o c "".
Proof. reflexivity. Qed.

Lemma run_Star_cons k r o c d s :
  run (Star k :: r) o c (String d s)
  = if mem k d
    then match run (Star k :: r) o c s with
         | Some m => Some m
         | None => run r o c (String d s)
         end
    else run r o c (String d s).
Proof. reflexivity. Qed.

Lemma run_Lazy k r o c s :
  run (Lazy k :: r) o c s
  = match run r o c s with
    | Some m => Some m
    | None =>
        match s with
        | String d s' => if mem k d then run (Lazy k :: r) o c s' else None
        | EmptyString => None
        end
    end.
Proof. destruct s; reflexivity. Qed.

(** A greedy repetition that can take a whole run of the class, with a
    continuation that matches after it, takes it. *)
Lemma run_star_greedy (k : cls) (r : regex) (o c xs rest : string) m :
  Str.all (mem k) xs = true ->
  starts_with k rest = false ->
  run r o c rest = Some m ->
  run (Star k :: r) o c (xs +++ rest) = Some m.
Proof.
  intros Hxs Hrest Hr. induction xs as [|x xs IH]; cbn [Str.all append] in *.
  - destruct rest as [|d rest]; [now rewrite run_Star_nil|].
    cbn [starts_with] in Hrest. now rewrite run_Star_cons, Hrest.
  - apply andb_true_iff in Hxs as [Hx Hxs].
    now rewrite run_Star_cons, Hx, (IH Hxs).
Qed.

(** A repetition followed by the end of the group always matches. *)
Lemma run_star_close_some (k : cls) (o c s : string) :
  run [Star k; Close] o c s <> None.
Proof.
  induction s as [|d s IH].
  - rewrite run_Star_nil. discriminate.
  - rewrite run_Star_cons.
    destruct (mem k d); [|discriminate].
    destruct (run [Star k; Close] o c s); [discriminate|congruence].
Qed.

(** The group [([0-9.]+)] at the end of a pattern captures the whole run. *)
Lemma run_numeric_group (o c tok suf : string) :
  tok <> "" ->
  Str.all (mem NumDot) tok = true ->
  starts_with NumDot suf = false ->
  run (group (plus NumDot)) o c (tok +++ suf) = Some (tok, suf).
Proof.
  intros Hne Hall Hsuf.
  destruct tok as [|t tok]; [congruence|].
  cbn [Str.all] in Hall. apply andb_true_iff in Hall as [Ht Hall].
  change (group (plus NumDot)) with [Open; One NumDot; Star NumDot; Close].
  cbn [append]. rewrite run_Open, run_One, Ht.
  apply run_star_greedy; auto.
  rewrite run_Close. cbn [run].
  do 2 f_equal. exact (captured_app (String t tok) suf).
Qed.

(** [([0-9.]+)] matches at the start of a text exactly when the text starts
    with a character of the class. *)
Lemma run_numeric_group_none (o c p : string) :
  run (group (plus NumDot)) o c p = None <-> starts_with NumDot p = false.
Proof.
  change (group (plus NumDot)) with [Open; One NumDot; Star NumDot; Close].
  rewrite run_Open. destruct p as [|a p]; [split; reflexivity|].
  rewrite run_One. cbn [starts_with].
  destruct (mem NumDot a); [|split; reflexivity].
  split; [|discriminate].
  intros H. now apply run_star_close_some in H.
Qed.

Lemma label_tail_none_app (o c p X : string) :
  starts_with Space X = false ->
  starts_with NumDot X = false ->
  run ([Star Space] ++ group (plus NumDot)) o c p = None ->
  run ([Star Space] ++ group (plus NumDot)) o c (p +++ X) = None.
Proof.
  intros HS HN.
  change ([Star Space] ++ group (plus NumDot)) with (Star Space :: group (plus NumDot)).
  induction p as [|a p IH]; intros H.
  - rewrite run_Star_nil in H. apply run_numeric_group_none in H.
    cbn [append]. destruct X as [|x X]; [now rewrite run_Star_nil, run_numeric_group_none|].
    cbn [starts_with] in HS. rewrite run_Star_cons, HS.
    now apply run_numeric_group_none.
  - cbn [append]. rewrite run_Star_cons in *.
    destruct (mem Space a) eqn:Ha.
    + destruct (run (Star Space :: group (plus NumDot)) o c p); [discriminate|].
      rewrite (IH eq_refl).
      apply run_numeric_group_none in H. now apply run_numeric_group_none.
    + apply run_numeric_group_none in H. now apply run_numeric_group_none.
Qed.

(** A label whose first character occurs nowhere else in it cannot start
    inside a text and end inside a following occurrence of itself. *)
Lemma prefix_app_tail (v : ascii) (M q X : string) :
  Str.all (fun a => negb (Ascii.eqb a v)) M = true ->
  String.prefix M (q +++ String v X) = true ->
  String.prefix M q = true.
Proof.
  revert q. induction M as [|a M IH]; intros q HM H.
  - destruct q; reflexivity.
  - cbn [Str.all] in HM. apply andb_true_iff in HM as [Ha HM].
    destruct q as [|b q]; cbn [append] in H; simpl in H |- *.
    + destruct (ascii_dec a v) as [->|]; [|discriminate].
      now rewrite Ascii.eqb_refl in Ha.
    + destruct (ascii_dec a b); [|discriminate]. now apply IH.
Qed.

Lemma prefix_app_border (v : ascii) (L p X : string) :
  Str.all (fun a => negb (Ascii.eqb a v)) L = true ->
  p <> "" ->
  String.prefix (String v L) (p +++ String v X) = true ->
  String.prefix (String v L) p = true.
Proof.
  intros HL Hp H. destruct p as [|b p]; [congruence|].
  cbn [append] in H. simpl in H |- *.
  destruct (ascii_dec v b); [|discriminate].
  now apply (prefix_app_tail v L p X).
Qed.

Lemma numeric_not_space (t : ascii) : mem NumDot t = true -> mem Space t = false.
Proof.
  unfold mem. intros Ht. apply orb_true_iff in Ht as [Ht|Ht].
  - revert Ht. unfold Str.isspace, Str.isdecimal.
    generalize (Str.code t). intros n.
    destruct (Nat.leb_spec 48 n), (Nat.leb_spec n 57); try discriminate.
    intros _.
    destruct (Nat.leb_spec 9 n), (Nat.leb_spec n 13), (Nat.leb_spec 28 n),
      (Nat.leb_spec n 32), (Nat.eqb_spec n 133), (Nat.eqb_spec n 160);
      try reflexivity; lia.
  - apply Ascii.eqb_eq in Ht. subst t. reflexivity.
Qed.

(** The labelled VMAF pattern: no match at a non-empty text stays no match
    when the text is followed by a labelled token. *)
Lemma vmaf_score_none_app (p X : string) :
  p <> "" ->
  match_at vmaf_score_re p = None ->
  match_at vmaf_score_re (p +++ String "V" X) = None.
Proof.
  intros Hp H. unfold match_at, vmaf_score_re in *.
  destruct (String.prefix "VMAF score:" p) eqn:Hpre.
  - apply prefix_split in Hpre as [p' ->].
    rewrite string_app_assoc. rewrite run_lit_app in *.
    apply label_tail_none_app; auto.
  - apply run_lit_no_prefix.
    destruct (String.prefix "VMAF score:" (p +++ String "V" X)) eqn:Hpre'; [|reflexivity].
    apply prefix_app_border in Hpre'; [congruence|reflexivity|assumption].
Qed.

Lemma search_cons_none r c s :
  search r (String c s) = None ->
  match_at r (String c s) = None /\ search r s = None.
Proof.
  cbn [search]. destruct (match_at r (String c s)) as [[g rest]|]; [discriminate|].
  auto.
Qed.

Lemma search_vmaf_score_app (pre X tok rest : string) :
  search vmaf_score_re pre = None ->
  match_at vmaf_score_re (String "V" X) = Some (tok, rest) ->
  search vmaf_score_re (pre +++ String "V" X) = Some tok.
Proof.
  intros Hpre Hat. induction pre as [|c pre IH].
  - cbn [append search]. now rewrite Hat.
  - apply search_cons_none in Hpre as [Hc Hpre].
    cbn [append search].
    change (String c (pre +++ String "V" X)) with (String c pre +++ String "V" X).
    rewrite vmaf_score_none_app; auto. discriminate.
Qed.

(** The leftmost labelled token: when no match lies before it, the search
    returns it. *)
Lemma search_vmaf_score_found (pre ws tok suf : string) :
  search vmaf_score_re pre = None ->
  Str.all (mem Space) ws = true ->
  tok <> "" ->
  Str.all (mem NumDot) tok = true ->
  starts_with NumDot suf = false ->
  search vmaf_score_re (pre +++ "VMAF score:" +++ ws +++ tok +++ suf) = Some tok.
Proof.
  intros Hpre Hws Hne Htok Hsuf.
  assert (Hat : match_at vmaf_score_re ("VMAF score:" +++ ws +++ tok +++ suf)
                = Some (tok, suf)).
  { unfold match_at, vmaf_score_re. rewrite run_lit_app.
    change ([Star Space] ++ group (plus NumDot)) with (Star Space :: group (plus NumDot)).
    apply run_star_greedy; auto.
    - destruct tok as [|t tok]; [congruence|].
      cbn [Str.all] in Htok. apply andb_true_iff in Htok as [Ht _].
      cbn [append starts_with].
      now apply numeric_not_space.
    - now apply run_numeric_group. }
  change ("VMAF score:" +++ ws +++ tok +++ suf)
    with (String "V" ("MAF score:" +++ ws +++ tok +++ suf)) in *.
  now apply (search_vmaf_score_app pre _ tok suf).
Qed.

End Regex.

(** ** Output parsers: order of the tiers *)

Section Tiers.

Local Infix "+++" := String.append (right associativity, at level 60).

(** The common shape of a tier that found a token: convert, log, return;
    the handler of the parser turns a refused token into [None]. *)
Lemma convert_token_returns (tok : string) (info : float -> message)
    (err : exn -> message) w s :
  fst (try_except
         (score <- lift (Str.to_float tok) ;;
          log_put "INFO" (info score) ;;
          ret (Some score))
         (fun e => log_put "ERROR" (err e) ;; ret None) w s)
  = Ok (float_or_none tok).
Proof.
  unfold try_except, bind, lift, float_or_none.
  destruct (Str.to_float tok); reflexivity.
Qed.

Lemma parse_single_vmaf_output_primary output comparison_type row_idx w s tok :
  search vmaf_score_re output = Some tok ->
  fst (parse_single_vmaf_output output comparison_type row_idx w s)
  = Ok (float_or_none tok).
Proof.
  intros H. unfold parse_single_vmaf_output. rewrite H.
  apply convert_token_returns.
Qed.

Lemma parse_single_vmaf_output_secondary output comparison_type row_idx w s :
  search vmaf_score_re output = None ->
  fst (parse_single_vmaf_output output comparison_type row_idx w s)
  = Ok match findall vmaf_any_re output with
       | [] => None
       | tokens => float_or_none (last tokens "")
       end.
Proof.
  intros H. unfold parse_single_vmaf_output. rewrite H.
  destruct (findall vmaf_any_re output) as [|t ts]; [reflexivity|].
  apply convert_token_returns.
Qed.

(** C7.  The VMAF parser tries its two tiers in order.  When the labelled
    pattern ["VMAF score:" blanks number] matches, the token of its leftmost
    match is the result; the tokens that follow a bare ["VMAF"] label are not
    looked at.  Only when it does not match is the result the last token that
    follows a ["VMAF"] label.  A token that is not a number gives [None].
    In particular a text made of anything without a labelled token, then
    ["VMAF score:"], blanks and a numeric token gives that token, and the
    text with "VMAF score: 91.23" and "VMAF ... 5" gives 91.23 in either
    order of the two. *)
Theorem parse_single_vmaf_output_tiers
    (comparison_type : string) (row_idx : nat) (w : env) (s : state) :
  (forall output tok,
      search vmaf_score_re output = Some tok ->
      fst (parse_single_vmaf_output output comparison_type row_idx w s)
      = Ok (float_or_none tok))
  /\ (forall output,
      search vmaf_score_re output = None ->
      fst (parse_single_vmaf_output output comparison_type row_idx w s)
      = Ok match findall vmaf_any_re output with
           | [] => None
           | tokens => float_or_none (last tokens "")
           end)
  /\ (forall pre ws tok suf,
      search vmaf_score_re pre = None ->
      Str.all (mem Space) ws = true ->
      tok <> "" ->
      Str.all (mem NumDot) tok = true ->
      starts_with NumDot suf = false ->
      fst (parse_single_vmaf_output (pre +++ "VMAF score:" +++ ws +++ tok +++ suf)
             comparison_type row_idx w s)
      = Ok (float_or_none tok))
  /\ fst (parse_single_vmaf_output "VMAF score: 91.23 VMAF ... 5"
            comparison_type row_idx w s) = Ok (Some 91.23%float)
  /\ fst (parse_single_vmaf_output ("VMAF ... 5" +++ newline +++ "VMAF score: 91.23")
            comparison_type row_idx w s) = Ok (Some 91.23%float)
  /\ fst (parse_single_vmaf_output "VMAF 90.5 VMAF mean 88.5"
            comparison_type row_idx w s) = Ok (Some 88.5%float).
Proof.
  split; [|split; [|split]].
  - intros. now apply parse_single_vmaf_output_primary.
  - intros. now apply parse_single_vmaf_output_secondary.
  - intros. apply parse_single_vmaf_output_primary.
    now apply search_vmaf_score_found.
  - repeat split.
Qed.

(** *** SSIM *)

Lemma search_none_at r (s : string) : search r s = None -> match_at r s = None.
Proof.
  destruct s; cbn [search]; destruct (match_at r _) as [[g rest]|]; congruence.
Qed.

Lemma search_none_suffix r (pre s : string) :
  search r (pre +++ s) = None -> match_at r s = None.
Proof.
  induction pre as [|c pre IH]; cbn [append]; intros H.
  - now apply search_none_at.
  - apply search_cons_none in H as [_ H]. auto.
Qed.

Lemma search_some_position r (s tok : string) :
  search r s = Some tok ->
  exists pre s' rest, s = pre +++ s' /\ match_at r s' = Some (tok, rest).
Proof.
  induction s as [|c s IH]; cbn [search];
    destruct (match_at r _) as [[g rest]|] eqn:Hm; intros H; try discriminate.
  - injection H as ->. now exists "", "", rest.
  - injection H as ->. now exists "", (String c s), rest.
  - destruct (IH H) as (pre & s' & rest & -> & Hs').
    now exists (String c pre), s', rest.
Qed.

(** A match of [k*? r] ends with a match of [r] somewhere further. *)
Lemma run_lazy_some k r o c (s : string) m :
  run (Lazy k :: r) o c s = Some m ->
  exists pre s', s = pre +++ s' /\ run r o c s' = Some m.
Proof.
  induction s as [|d s IH]; rewrite run_Lazy; intros H.
  - destruct (run r o c "") eqn:Hr; [|discriminate].
    injection H as ->. now exists "", "".
  - destruct (run r o c (String d s)) eqn:Hr.
    + injection H as ->. now exists "", (String d s).
    + destruct (mem k d); [|discriminate].
      destruct (IH H) as (pre & s' & -> & Hs').
      now exists (String d pre), s'.
Qed.

Lemma run_lit_some L r o c (s : string) m :
  run (lit L ++ r) o c s = Some m ->
  exists s', s = L +++ s' /\ run r o c s' = Some m.
Proof.
  intros H. destruct (String.prefix L s) eqn:Hp.
  - apply prefix_split in Hp as [s' ->]. rewrite run_lit_app in H. now exists s'.
  - now rewrite run_lit_no_prefix in H.
Qed.

(** The second pattern of the SSIM parser, ["SSIM" anything "All:" number],
    never matches when the first, ["All:" number], does not. *)
Lemma ssim_line_re_subsumed (output : string) :
  search ssim_all_re output = None -> search ssim_line_re output = None.
Proof.
  intros Hall. destruct (search ssim_line_re output) as [tok|] eqn:Hline; [|reflexivity].
  exfalso.
  apply search_some_position in Hline as (pre & s1 & rest & -> & H1).
  unfold match_at, ssim_line_re in H1.
  apply run_lit_some in H1 as (s2 & -> & H2).
  change ([Lazy Dot] ++ lit "All:" ++ group (plus NumDot))
    with (Lazy Dot :: (lit "All:" ++ group (plus NumDot))) in H2.
  apply run_lazy_some in H2 as (pre2 & s3 & -> & H3).
  apply run_lit_some in H3 as (s4 & -> & H4).
  assert (Hm : match_at ssim_all_re ("All:" +++ s4) <> None).
  { unfold match_at, ssim_all_re. rewrite run_lit_app.
    intros Hn. apply run_numeric_group_none in Hn.
    apply (proj2 (run_numeric_group_none "" "" s4)) in Hn. congruence. }
  apply Hm.
  apply (search_none_suffix ssim_all_re (pre +++ "SSIM" +++ pre2)).
  now rewrite !string_app_assoc.
Qed.

Lemma ssim_scan_lines_spec lines comparison_type row_idx w s :
  match first_marked_line lines with
  | Some tok =>
      fst (ssim_scan_lines lines comparison_type row_idx w s)
      = match Str.to_float tok with
        | Ok x => Ok (Some x)
        | Raise e => Raise e
        end
  | None => ssim_scan_lines lines comparison_type row_idx w s = (Ok None, s)
  end.
Proof.
  induction lines as [|line lines IH]; cbn [first_marked_line ssim_scan_lines].
  - reflexivity.
  - destruct (Str.contains "All:" line
              && (Str.contains "Y:" line || Str.contains "SSIM" line)); [|exact IH].
    destruct (search ssim_all_re line) as [tok|]; [|exact IH].
    unfold bind, lift. destruct (Str.to_float tok); reflexivity.
Qed.













(** The loop on the lines of a report in reverse: of the two lines that carry
    the markers and a token, the last one of the report decides. *)
Example ssim_scan_lines_example comparison_type row_idx w s :
  fst (ssim_scan_lines
         (rev ["SSIM Y:0.9 All:0.95"; "frames"; "n:2 Y:0.8 All:0.85 (1)"; "All: none"])
         comparison_type row_idx w s)
  = Ok (Some 0.85%float).
Proof. reflexivity. Qed.

Example parse_single_ssim_output_examples comparison_type row_idx w s :
  fst (parse_single_ssim_output "n:1 Y:0.9 U:0.8 V:0.7 All:0.85 (12.3)"
         comparison_type row_idx w s) = Ok (Some 0.85%float)
  /\ fst (parse_single_ssim_output "n:1 Y:0.9 U:0.8 V:0.7"
            comparison_type row_idx w s) = Ok (Some 0.9%float)
  /\ fst (parse_single_ssim_output "no statistics"
            comparison_type row_idx w s) = Ok None.
Proof. repeat split. Qed.

End Tiers.

(** ** Progress estimator *)

Section Progress.

Local Infix "+++" := String.append (right associativity, at level 60).

(** What [k* )] consumes is a run of the class, and it is what the group
    captures after its first character. *)
Lemma run_star_close_inv (k : cls) (o c s g rest : string) :
  run [Star k; Close] o c s = Some (g, rest) ->
  exists xs, s = xs +++ rest /\ Str.all (mem k) xs = true /\ g = captured o rest.
Proof.
  revert g rest. induction s as [|d s IH]; intros g rest.
  - rewrite run_Star_nil, run_Close. cbn [run]. intros H. injection H as <- <-.
    now exists "".
  - rewrite run_Star_cons.
    destruct (mem k d) eqn:Hd.
    + destruct (run [Star k; Close] o c s) as [[g' rest']|] eqn:Hs.
      * intros H. injection H as <- <-.
        destruct (IH _ _ eq_refl) as (xs & -> & Hxs & Hg).
        exists (String d xs). cbn [append Str.all]. now rewrite Hd, Hxs.
      * now apply run_star_close_some in Hs.
    + rewrite run_Close. cbn [run]. intros H. injection H as <- <-.
      now exists "".
Qed.

Lemma run_group_plus_inv (k : cls) (o c s g rest : string) :
  run (group (plus k)) o c s = Some (g, rest) ->
  g <> "" /\ Str.all (mem k) g = true /\ s = g +++ rest.
Proof.
  change (group (plus k)) with [Open; One k; Star k; Close].
  rewrite run_Open. destruct s as [|d s]; [discriminate|].
  rewrite run_One. destruct (mem k d) eqn:Hd; [|discriminate].
  intros H. apply run_star_close_inv in H as (xs & -> & Hxs & ->).
  change (String d (xs +++ rest)) with (String d xs +++ rest).
  rewrite captured_app. cbn [Str.all]. rewrite Hd, Hxs.
  repeat split. discriminate.
Qed.

(** The result of a greedy repetition is a result of what follows it. *)
Lemma run_star_inv (k : cls) (r : regex) (o c s : string) m :
  run (Star k :: r) o c s = Some m ->
  exists s', run r o c s' = Some m.
Proof.
  induction s as [|d s IH].
  - rewrite run_Star_nil. eauto.
  - rewrite run_Star_cons. destruct (mem k d); [|eauto].
    destruct (run (Star k :: r) o c s) as [m'|]; [|eauto].
    intros H. injection H as <-. now apply IH.
Qed.

(** The token of the frame counter is a non-empty string of decimal digits:
    [int] accepts it. *)
Lemma frame_token_digits (line tok : string) :
  search frame_re line = Some tok ->
  Str.to_int tok = Ok (Z.of_N (Str.digits_value 0 tok)).
Proof.
  intros H. apply search_some_position in H as (pre & s1 & rest & _ & H).
  unfold match_at, frame_re in H.
  apply run_lit_some in H as (s2 & _ & H).
  change ([Star Space] ++ group (plus Digit)) with (Star Space :: group (plus Digit)) in H.
  apply run_star_inv in H as (s3 & H).
  apply run_group_plus_inv in H as (Hne & Hall & _).
  unfold Str.to_int. destruct tok as [|t tok]; [congruence|].
  change (Str.all (mem Digit) (String t tok))
    with (Str.all Str.isdecimal (String t tok)) in Hall.
  now rewrite Hall.
Qed.

Lemma true_div_zero_division (a b : Z) :
  PyFloat.true_div a b = Raise ZeroDivisionError <-> b = 0%Z.
Proof.
  unfold PyFloat.true_div.
  destruct a, b; try (split; [discriminate|congruence]); try tauto;
    split; try discriminate;
    destruct (PyFloat.round_ratio _ _); discriminate.
Qed.

Lemma clamp_total_frames_positive (frames : option Z) :
  (1 <= clamp_total_frames frames)%Z.
Proof. unfold clamp_total_frames. lia. Qed.

Lemma extract_ffmpeg_progress_returns line row_idx media_type comparison_type total w s :
  exists s', extract_ffmpeg_progress line row_idx media_type comparison_type total w s
             = (Ok tt, s').
Proof.
  unfold extract_ffmpeg_progress, try_except.
  match goal with |- context [?body w s] => destruct (body w s) as [[[]|e] s1] end;
    eexists; reflexivity.
Qed.

(** C9, as the code has it.  The total frame count handed to the estimator is
    at least 1 (it is 1 when the frame query gives nothing), so the division
    of the estimator never raises [ZeroDivisionError]; the estimator returns
    without raising on every line and every total.  For a line whose frame
    counter is a positive number [c], when the quotient [c / total] and its
    truncation are computed, exactly one estimate is reported on the video
    channel: the offset of the pass (10 for the first, 55 for the second)
    plus [int(min(1, c / total) * 45)], which is the product truncated to an
    integer when the quotient is below 1 and 45 otherwise.  A line without a
    frame counter, or whose counter is 0, reports nothing. *)
Theorem extract_ffmpeg_progress_estimate
    (line : string) (row_idx : nat) (comparison_type : string) (total : Z)
    (w : env) (s : state) :
  (forall frames, (1 <= clamp_total_frames frames)%Z)
  /\ clamp_total_frames None = 1%Z
  /\ (forall c frames,
        PyFloat.true_div c (clamp_total_frames frames) <> Raise ZeroDivisionError)
  /\ (forall media_type, exists s',
        extract_ffmpeg_progress line row_idx media_type comparison_type total w s
        = (Ok tt, s'))
  /\ (forall tok ratio additional,
        search frame_re line = Some tok ->
        let c := Z.of_N (Str.digits_value 0 tok) in
        (0 < c)%Z ->
        PyFloat.true_div c total = Ok ratio ->
        additional_of_ratio ratio = Ok additional ->
        extract_ffmpeg_progress line row_idx "video" comparison_type total w s
        = (Ok tt,
           with_progress s row_idx
             ((if String.eqb comparison_type "left_ref" then 10 else 55) + additional))
        /\ (PyFloat.lt ratio 1 = false -> additional = 45%Z)
        /\ (PyFloat.lt ratio 1 = true ->
            PyFloat.trunc (PrimFloat.mul ratio 45) = Ok additional))
  /\ (search frame_re line = None \/
      (exists tok, search frame_re line = Some tok
                   /\ Z.of_N (Str.digits_value 0 tok) = 0%Z) ->
      extract_ffmpeg_progress line row_idx "video" comparison_type total w s
      = (Ok tt, s)).
Proof.
  split; [apply clamp_total_frames_positive|].
  split; [reflexivity|].
  split.
  { intros c frames H. apply true_div_zero_division in H.
    pose proof (clamp_total_frames_positive frames). lia. }
  split; [intros; apply extract_ffmpeg_progress_returns|].
  split.
  - intros tok ratio additional Htok c Hc Hdiv Hadd.
    split; [|split].
    + unfold extract_ffmpeg_progress, try_except, bind, lift.
      rewrite Htok, (frame_token_digits line tok Htok).
      fold c. apply Z.ltb_lt in Hc. rewrite Hc, Hdiv, Hadd. reflexivity.
    + intros Hlt. unfold additional_of_ratio in Hadd. rewrite Hlt in Hadd.
      now injection Hadd as <-.
    + intros Hlt. unfold additional_of_ratio in Hadd. now rewrite Hlt in Hadd.
  - intros [Hnone | (tok & Htok & Hzero)];
      unfold extract_ffmpeg_progress, try_except, bind, lift.
    + now rewrite Hnone.
    + now rewrite Htok, (frame_token_digits line tok Htok), Hzero.
Qed.

(** The estimate on concrete lines: frame 1 of 2 in the first pass is 32
    (the specification's formula gives 32.5), frame 7 of 2 in the second pass
    is 100, and a total of 0, which the clamp excludes, would only lose the
    estimate. *)
Example extract_ffmpeg_progress_examples (w : env) (s : state) :
  extract_ffmpeg_progress "frame=    1 fps= 25" 0 "video" "left_ref" 2 w s
  = (Ok tt, with_progress s 0 32)
  /\ extract_ffmpeg_progress "frame=    7 fps= 25" 0 "video" "right_ref" 2 w s
     = (Ok tt, with_progress s 0 100)
  /\ extract_ffmpeg_progress "frame=    7 fps= 25" 0 "video" "right_ref" 0 w s
     = (Ok tt, s).
Proof. repeat split. Qed.

(** The estimate is an integer: on the line "frame= 1" with a total of 2
    frames the first pass reports 32, while the formula of the specification,
    [offset + min(1, current / total) * span], is 32.5. *)
Lemma progress_formula_counterexample :
  extract_ffmpeg_progress "frame=    1 fps= 25" 0 "video" "left_ref" 2
    (bare_env never_stopped [] []) initial_state
  = (Ok tt, with_progress initial_state 0 32)
  /\ PyFloat.true_div 1 2 = Ok 0.5%float
  /\ spec_progress 10 0.5 45 = 32.5%float
  /\ PrimFloat.eqb 32.5 32 = false.
Proof. repeat split. Qed.

End Progress.

(** ** Comparison scheduler *)

Section Scheduler.

Lemma paired_rows_length (lefts rights : list string) :
  length (paired_rows lefts rights) = Nat.min (length lefts) (length rights).
Proof.
  unfold paired_rows.
  rewrite length_map, !length_combine, length_seq. lia.
Qed.

Lemma index_app_here (pre : list string) (x : string) (l : list string) (n : nat) w s :
  n = length pre -> index (pre ++ x :: l) n w s = (Ok x, s).
Proof.
  intros ->. unfold index. rewrite nth_error_app2, Nat.sub_diag by lia. reflexivity.
Qed.

(** The loop that builds the tasks, started at row [a] with the files from
    position [a] on still to pair. *)
Lemma build_tasks_spec (preL preR lefts rights : list string) (tasks : list task) w s :
  length preL = length preR ->
  build_tasks (preL ++ lefts) (preR ++ rights)
    (seq (length preL) (Nat.min (length lefts) (length rights))) tasks w s
  = (Ok (tasks ++ map (fun '(i, (l, r)) => (i, l, r))
                    (combine (seq (length preL) (Nat.min (length lefts) (length rights)))
                             (combine lefts rights))), s).
Proof.
  revert preL preR rights tasks.
  induction lefts as [|l lefts IH]; intros preL preR rights tasks Hlen.
  - cbn. now rewrite app_nil_r.
  - destruct rights as [|r rights].
    + cbn. now rewrite app_nil_r.
    + cbn [length Nat.min seq combine map build_tasks].
      unfold bind at 1. rewrite index_app_here by reflexivity.
      unfold bind at 1. rewrite index_app_here by exact Hlen.
      replace (preL ++ l :: lefts) with ((preL ++ [l]) ++ lefts)
        by now rewrite <- app_assoc.
      replace (preR ++ r :: rights) with ((preR ++ [r]) ++ rights)
        by now rewrite <- app_assoc.
      replace (S (length preL)) with (length (preL ++ [l]))
        by (rewrite length_app; cbn; lia).
      rewrite (IH (preL ++ [l]) (preR ++ [r]) rights)
        by (rewrite !length_app; cbn; lia).
      now rewrite <- app_assoc.
Qed.

(** The submission loop hands over the tasks up to the first of its reads
    that finds the stop flag set: [k] reads find it unset, one for each task
    handed over, and the read for the next task, if there is one, finds it
    set. *)
Lemma submit_tasks_spec (tasks submitted : list task) w s :
  exists k s',
    k <= length tasks
    /\ submit_tasks tasks submitted w s = (Ok (submitted ++ firstn k tasks), s')
    /\ log_queue s' = log_queue s
    /\ (forall i, i < k -> stop_event w (length (flag_reads s) + i) = false)
    /\ (k < length tasks -> stop_event w (length (flag_reads s) + k) = true)
    /\ flag_reads s'
       = flag_reads s ++ repeat ("run_comparisons", false) k
         ++ (if Nat.ltb k (length tasks) then [("run_comparisons", true)] else []).
Proof.
  revert submitted s. induction tasks as [|t tasks IH]; intros submitted s.
  - exists 0, s. cbn. rewrite !app_nil_r. repeat split; auto; lia.
  - cbn [submit_tasks]. unfold bind, is_set.
    destruct (stop_event w (length (flag_reads s))) eqn:Hstop.
    + exists 0. eexists. cbn [firstn length repeat app Nat.ltb Nat.leb].
      rewrite app_nil_r, Nat.add_0_r.
      repeat split; auto; lia.
    + match goal with |- context [submit_tasks tasks ?sub w ?s1] =>
        destruct (IH sub s1) as (k & s' & Hk & Hrun & Hlog & Hunset & Hset & Hreads)
      end.
      cbn [flag_reads] in Hunset, Hset, Hreads.
      rewrite length_app in Hunset, Hset. cbn [length] in Hunset, Hset.
      exists (S k), s'. rewrite Hrun. cbn [firstn length repeat].
      rewrite <- app_assoc. cbn [app].
      split; [lia|]. split; [reflexivity|]. split; [exact Hlog|].
      split; [|split].
      * intros [|i] Hi.
        -- now rewrite Nat.add_0_r.
        -- replace (length (flag_reads s) + S i) with (length (flag_reads s) + 1 + i)
             by lia.
           apply Hunset. lia.
      * intros Hlt.
        replace (length (flag_reads s) + S k) with (length (flag_reads s) + 1 + k)
          by lia.
        apply Hset. lia.
      * rewrite Hreads, <- app_assoc. cbn [app].
        change (Nat.ltb (S k) (S (length tasks))) with (Nat.ltb k (length tasks)). reflexivity.
Qed.

Lemma paired_rows_in_from (preL preR lefts rights : list string) (bound : nat) i l r :
  length preL = length preR ->
  In (i, l, r)
     (map (fun '(i, (l, r)) => (i, l, r))
          (combine (seq (length preL) bound) (combine lefts rights))) ->
  length preL <= i < length preL + Nat.min (length lefts) (length rights)
  /\ nth_error (preL ++ lefts) i = Some l
  /\ nth_error (preR ++ rights) i = Some r.
Proof.
  revert preL preR rights bound.
  induction lefts as [|x lefts IH]; intros preL preR rights bound Hlen Hin.
  - destruct bound; contradiction.
  - destruct rights as [|y rights]; [destruct bound; contradiction|].
    destruct bound as [|bound]; [contradiction|].
    cbn [length Nat.min seq combine map In] in Hin.
    destruct Hin as [Heq | Hin].
    + injection Heq as <- <- <-.
      split; [cbn [length]; lia|].
      split; rewrite nth_error_app2 by lia.
      * now rewrite Nat.sub_diag.
      * now rewrite Hlen, Nat.sub_diag.
    + replace (S (length preL)) with (length (preL ++ [x])) in Hin
        by (rewrite length_app; cbn; lia).
      apply (IH (preL ++ [x]) (preR ++ [y])) in Hin;
        [|rewrite !length_app; cbn; lia].
      rewrite <- !app_assoc in Hin. cbn [app] in Hin.
      rewrite length_app in Hin. cbn [length] in *.
      destruct Hin as (Hi & Hl & Hr). repeat split; auto; lia.
Qed.

(** C3, as the code has it.  The rows of a run are the files of the two lists
    paired by position, [min(|left|, |right|)] of them.  The run hands them
    to the executor in order and without raising, and reads the stop flag
    once before each: it hands over the first [k] rows, where the [k] first
    reads of the loop find the flag unset and, when rows are left, the next
    read finds it set and is the last.  So all the rows, exactly
    [min(|left|, |right|)], are handed over if and only if none of the reads
    made for them finds a stop request.  Every row has an index below that
    minimum and the files at that index, so the files beyond the shorter
    list enter no row. *)
Theorem run_comparisons_rows (w : env) (s : state) :
  let rows := paired_rows (left_files w) (right_files w) in
  let first_read := length (flag_reads s) in
  length rows = Nat.min (length (left_files w)) (length (right_files w))
  /\ (exists k s',
        k <= length rows
        /\ run_comparisons w s = (Ok (firstn k rows), s')
        /\ (forall i, i < k -> stop_event w (first_read + i) = false)
        /\ (k < length rows -> stop_event w (first_read + k) = true)
        /\ flag_reads s'
           = flag_reads s ++ repeat ("run_comparisons", false) k
             ++ (if Nat.ltb k (length rows) then [("run_comparisons", true)] else [])
        /\ (k = Nat.min (length (left_files w)) (length (right_files w))
            <-> forall i, i < length rows -> stop_event w (first_read + i) = false)
        /\ ((forall i, i < length rows -> stop_event w (first_read + i) = false) ->
            run_comparisons w s = (Ok rows, s')))
  /\ (forall i l r,
        In (i, l, r) rows ->
        i < Nat.min (length (left_files w)) (length (right_files w))
        /\ nth_error (left_files w) i = Some l
        /\ nth_error (right_files w) i = Some r).
Proof.
  intros rows first_read. split; [apply paired_rows_length|]. split.
  - unfold run_comparisons, try_except, bind, get_left_files, get_right_files.
    pose proof (build_tasks_spec [] [] (left_files w) (right_files w) [] w s eq_refl)
      as Hbuild.
    cbn [app length] in Hbuild. rewrite Hbuild.
    fold (paired_rows (left_files w) (right_files w)). fold rows.
    destruct (submit_tasks_spec rows [] w s)
      as (k & s' & Hk & Hrun & _ & Hunset & Hset & Hreads).
    cbn [app] in Hrun. rewrite Hrun. fold first_read in Hunset, Hset.
    assert (Hlen : length rows
                   = Nat.min (length (left_files w)) (length (right_files w)))
      by apply paired_rows_length.
    assert (Hall : (forall i, i < length rows -> stop_event w (first_read + i) = false)
                   -> k = length rows).
    { intros Hnone. destruct (Nat.eq_dec k (length rows)) as [|Hne]; [assumption|].
      assert (Hlt : k < length rows) by lia.
      rewrite (Hnone k Hlt) in Hset. specialize (Hset Hlt). discriminate. }
    exists k, s'. split; [exact Hk|]. split; [reflexivity|].
    split; [exact Hunset|]. split; [exact Hset|]. split; [exact Hreads|]. split.
    + rewrite <- Hlen. split.
      * intros ->. exact Hunset.
      * exact Hall.
    + intros Hnone. rewrite (Hall Hnone). now rewrite firstn_all.
  - intros i l r Hin.
    apply (paired_rows_in_from [] [] (left_files w) (right_files w)) in Hin;
      [|reflexivity].
    cbn [app length] in Hin. destruct Hin as (Hi & Hl & Hr).
    repeat split; auto. lia.
Qed.

(** With 5 files on the left and 3 on the right there are 3 rows, and when no
    stop request is found they are all handed over. *)
Example run_comparisons_five_three :
  let lefts := ["l0"; "l1"; "l2"; "l3"; "l4"] in
  let rights := ["r0"; "r1"; "r2"] in
  paired_rows lefts rights = [(0, "l0", "r0"); (1, "l1", "r1"); (2, "l2", "r2")]
  /\ fst (run_comparisons (bare_env never_stopped lefts rights) initial_state)
     = Ok [(0, "l0", "r0"); (1, "l1", "r1"); (2, "l2", "r2")].
Proof. split; reflexivity. Qed.

(** A stop request that arrives during submission, here just before the third
    check of the loop: of the 3 rows of 5 left and 3 right files only the
    first 2 are handed to the executor. *)
Lemma run_comparisons_stopped_counterexample :
  fst (run_comparisons
         (bare_env (stopped_from 2) ["l0"; "l1"; "l2"; "l3"; "l4"] ["r0"; "r1"; "r2"])
         initial_state)
  = Ok [(0, "l0", "r0"); (1, "l1", "r1")]
  /\ Nat.min (length ["l0"; "l1"; "l2"; "l3"; "l4"]) (length ["r0"; "r1"; "r2"]) = 3.
Proof. split; reflexivity. Qed.

End Scheduler.

(** ** Audio decision: the loudness fallback *)

Section Fallback.

Local Infix "+++" := String.append (right associativity, at level 60).

Lemma concat_cons (x : string) (xs : list string) :
  String.concat "" (x :: xs) = x +++ String.concat "" xs.
Proof.
  destruct xs as [|y ys].
  - cbn [String.concat]. now rewrite string_app_nil_r.
  - reflexivity.
Qed.

(** The reading loop starts no subprocess. *)
Lemma monitor_spawned site reads text w s r s' :
  monitor site reads text w s = (r, s') -> spawned s' = spawned s.
Proof.
  revert text s. induction reads as [|output reads IH]; intros text s;
    cbn [monitor]; unfold bind, is_set;
    destruct (stop_event w (length (flag_reads s)));
    try (intros H; injection H as <- <-; reflexivity).
  destruct output; intros H; apply IH in H; exact H.
Qed.

(** With no stop request it collects all that the process prints. *)
Lemma monitor_never_stopped site reads text w s :
  (forall n, stop_event w n = false) ->
  exists s', monitor site reads text w s
             = (Ok (Some (text +++ String.concat "" reads)), s')
             /\ spawned s' = spawned s.
Proof.
  intros Hns. revert text s. induction reads as [|output reads IH]; intros text s;
    cbn [monitor]; unfold bind, is_set; rewrite Hns.
  - cbn [String.concat]. rewrite string_app_nil_r.
    eexists. split; reflexivity.
  - rewrite concat_cons. destruct output as [|c output].
    + match goal with |- context [monitor site reads text w ?s1] =>
        destruct (IH text s1) as (s' & Hm & Hs)
      end.
      exists s'. split; [exact Hm | exact Hs].
    + rewrite <- string_app_assoc.
      match goal with |- context [monitor site reads ?t w ?s1] =>
        destruct (IH t s1) as (s' & Hm & Hs)
      end.
      exists s'. split; [exact Hm | exact Hs].
Qed.

(** One loudness measurement: it returns without raising and starts at most
    one subprocess, the [ebur128] analysis of its file. *)
Lemma get_audio_loudness_spawned file_path row_idx w s :
  exists v s',
    get_audio_loudness file_path row_idx w s = (Ok v, s')
    /\ (spawned s' = spawned s \/ spawned s' = spawned s ++ [ebur128_cmd file_path]).
Proof.
  unfold get_audio_loudness, try_except, bind, is_set, popen, lift, ret.
  destruct (stop_event w (length (flag_reads s))); [eauto|].
  cbn [spawned].
  destruct (spawn w (length (spawned s)) (ebur128_cmd file_path)) as [proc|e];
    [|eauto].
  match goal with |- context [monitor ?a ?b ?c w ?s1] =>
    destruct (monitor a b c w s1) as [[[text|]|e] s2] eqn:Hm;
    apply monitor_spawned in Hm; cbn [spawned] in Hm
  end; try (eexists; eexists; split; [reflexivity|right; exact Hm]).
  destruct (scan_loudness _);
    eexists; eexists; (split; [reflexivity|right; exact Hm]).
Qed.

(** With no stop request it starts exactly that one subprocess and returns
    the loudness its report carries. *)
Lemma get_audio_loudness_never_stopped file_path row_idx w s :
  (forall n, stop_event w n = false) ->
  exists s',
    get_audio_loudness file_path row_idx w s
    = (Ok (loudness_of (spawn w (length (spawned s)) (ebur128_cmd file_path))), s')
    /\ spawned s' = spawned s ++ [ebur128_cmd file_path].
Proof.
  intros Hns.
  unfold get_audio_loudness, try_except, bind, is_set, popen, lift, ret.
  rewrite Hns. cbn [spawned].
  destruct (spawn w (length (spawned s)) (ebur128_cmd file_path)) as [proc|e];
    [|eauto].
  match goal with |- context [monitor ?a ?b ?c w ?s1] =>
    destruct (monitor_never_stopped a b c w s1 Hns) as (s2 & Hm & Hs)
  end.
  rewrite Hm. cbn [spawned append] in *.
  unfold loudness_of, collected_text.
  destruct (scan_loudness _); eauto.
Qed.

Lemma run_audio_analysis_fallback_never_stopped left_file right_file row_idx w s :
  (forall n, stop_event w n = false) ->
  exists s',
    run_audio_analysis_fallback left_file right_file row_idx w s
    = (Ok (fallback_result
             (loudness_of (spawn w (length (spawned s)) (ebur128_cmd left_file)))
             (loudness_of (spawn w (S (length (spawned s))) (ebur128_cmd right_file)))),
       s')
    /\ spawned s' = spawned s ++ [ebur128_cmd left_file; ebur128_cmd right_file].
Proof.
  intros Hns.
  unfold run_audio_analysis_fallback, try_except.
  unfold bind at 1. unfold is_set at 1. rewrite Hns.
  unfold bind at 1.
  match goal with |- context [get_audio_loudness left_file row_idx w ?s1] =>
    destruct (get_audio_loudness_never_stopped left_file row_idx w s1 Hns)
      as (s2 & Hl & Hs2)
  end.
  rewrite Hl. cbn [spawned] in *.
  unfold bind at 1. unfold is_set at 1. rewrite Hns.
  unfold bind at 1.
  match goal with |- context [get_audio_loudness right_file row_idx w ?s3] =>
    destruct (get_audio_loudness_never_stopped right_file row_idx w s3 Hns)
      as (s4 & Hr & Hs4)
  end.
  rewrite Hr. cbn [spawned] in *.
  unfold bind at 1. unfold is_set at 1. rewrite Hns.
  rewrite Hs2 in *. rewrite length_app in *. cbn [length] in *.
  replace (length (spawned s) + 1) with (S (length (spawned s))) in * by lia.
  destruct (loudness_of (spawn w (length (spawned s)) (ebur128_cmd left_file))) as [x|];
    destruct (loudness_of (spawn w (S (length (spawned s))) (ebur128_cmd right_file))) as [y|];
    cbn [fallback_result];
    (eexists; split; [reflexivity|]; cbn [spawned]; rewrite Hs4, <- app_assoc;
     reflexivity).
Qed.

Lemma run_audio_analysis_fallback_spawned left_file right_file row_idx w s :
  exists d s' new,
    run_audio_analysis_fallback left_file right_file row_idx w s = (Ok d, s')
    /\ spawned s' = spawned s ++ new
    /\ (new = [] \/ new = [ebur128_cmd left_file]
        \/ new = [ebur128_cmd right_file]
        \/ new = [ebur128_cmd left_file; ebur128_cmd right_file]).
Proof.
  unfold run_audio_analysis_fallback, try_except.
  unfold bind at 1. unfold is_set at 1.
  destruct (stop_event w (length (flag_reads s))).
  { exists tie_result. eexists. exists [].
    split; [reflexivity|]. split; [cbn [spawned]; now rewrite app_nil_r | auto]. }
  unfold bind at 1.
  match goal with |- context [get_audio_loudness left_file row_idx w ?s1] =>
    destruct (get_audio_loudness_spawned left_file row_idx w s1)
      as (ll & s2 & Hl & Hs2)
  end.
  rewrite Hl. cbn [spawned] in Hs2.
  unfold bind at 1. unfold is_set at 1.
  destruct (stop_event w (length (flag_reads s2))).
  { exists tie_result. eexists.
    destruct Hs2 as [Hs2|Hs2]; [exists [] | exists [ebur128_cmd left_file]];
      (split; [reflexivity|]); cbn [spawned]; rewrite Hs2, ?app_nil_r; auto. }
  unfold bind at 1.
  match goal with |- context [get_audio_loudness right_file row_idx w ?s3] =>
    destruct (get_audio_loudness_spawned right_file row_idx w s3)
      as (rl & s4 & Hr & Hs4)
  end.
  rewrite Hr. cbn [spawned] in Hs4.
  assert (Hnew : exists new, spawned s4 = spawned s ++ new
            /\ (new = [] \/ new = [ebur128_cmd left_file]
                \/ new = [ebur128_cmd right_file]
                \/ new = [ebur128_cmd left_file; ebur128_cmd right_file])).
  { destruct Hs2 as [Hs2|Hs2], Hs4 as [Hs4|Hs4]; rewrite Hs4, Hs2.
    - exists []. rewrite app_nil_r. auto.
    - exists [ebur128_cmd right_file]. auto.
    - exists [ebur128_cmd left_file]. auto.
    - exists [ebur128_cmd left_file; ebur128_cmd right_file].
      rewrite <- app_assoc. auto. }
  destruct Hnew as (new & Hnew & Hcases).
  unfold bind at 1. unfold is_set at 1.
  destruct (stop_event w (length (flag_reads s4))).
  { exists tie_result. eexists. exists new.
    split; [reflexivity|]. cbn [spawned]. auto. }
  destruct ll as [x|], rl as [y|];
    try (exists tie_result; eexists; exists new;
         split; [reflexivity|]; cbn [spawned]; auto).
  unfold bind, log_put, ret.
  eexists. eexists. exists new.
  split; [reflexivity|]. cbn [spawned]. auto.
Qed.

(** The reads of the stop flag a reading loop makes are all at its site; one
    that finds the flag set ends the loop without a text, and when none does
    the loop collects all that the process prints. *)
Lemma monitor_reads site reads text w s r s' :
  monitor site reads text w s = (r, s') ->
  exists new,
    flag_reads s' = flag_reads s ++ new
    /\ Forall (fun rd => fst rd = site) new
    /\ ((exists st, In (st, true) new) -> r = Ok None)
    /\ ((forall st, ~ In (st, true) new) ->
        r = Ok (Some (text +++ String.concat "" reads))).
Proof.
  revert text s. induction reads as [|output reads IH]; intros text s;
    cbn [monitor]; unfold bind, is_set;
    destruct (stop_event w (length (flag_reads s))) eqn:Hstop.
  - intros H. injection H as <- <-. exists [(site, true)]. cbn [flag_reads].
    repeat split; auto. intros Hn. exfalso. apply (Hn site). now left.
  - intros H. injection H as <- <-. exists [(site, false)]. cbn [flag_reads].
    split; [reflexivity|]. split; [auto|]. split.
    + intros (st & [H|[]]). discriminate.
    + intros _. cbn [String.concat]. now rewrite string_app_nil_r.
  - intros H. injection H as <- <-. exists [(site, true)]. cbn [flag_reads].
    repeat split; auto. intros Hn. exfalso. apply (Hn site). now left.
  - intros H.
    assert (Hgo : exists text',
               monitor site reads text'
                 w {| flag_reads := flag_reads s ++ [(site, false)];
                      log_queue := log_queue s; progress_queue := progress_queue s;
                      spawned := spawned s |} = (r, s')
               /\ text' +++ String.concat "" reads
                  = text +++ String.concat "" (output :: reads)).
    { rewrite concat_cons. destruct output as [|c output].
      - exists text. split; [exact H | reflexivity].
      - exists (text +++ String c output). split; [exact H|].
        now rewrite string_app_assoc. }
    destruct Hgo as (text' & Hrun & Htext).
    apply IH in Hrun as (new & Hnew & Hsite & Hset & Hunset).
    cbn [flag_reads] in Hnew. rewrite <- app_assoc in Hnew. cbn [app] in Hnew.
    exists ((site, false) :: new). split; [exact Hnew|].
    split; [constructor; [reflexivity | exact Hsite]|]. split.
    + intros (st & [H0|Hin]); [discriminate|]. apply Hset. now exists st.
    + intros Hn. rewrite <- Htext. apply Hunset.
      intros st Hin. apply (Hn st). now right.
Qed.

(** One loudness measurement, with its reads of the stop flag: they are all
    its own; when one finds the flag set the measurement gives no value, and
    when none does the measurement has started its subprocess and gives the
    loudness of the report. *)
Lemma get_audio_loudness_reads file_path row_idx w s :
  exists v s' new,
    get_audio_loudness file_path row_idx w s = (Ok v, s')
    /\ flag_reads s' = flag_reads s ++ new
    /\ Forall (fun rd => fst rd = "get_audio_loudness") new
    /\ (spawned s' = spawned s \/ spawned s' = spawned s ++ [ebur128_cmd file_path])
    /\ ((exists site, In (site, true) new) -> v = None)
    /\ ((forall site, ~ In (site, true) new) ->
        v = loudness_of (spawn w (length (spawned s)) (ebur128_cmd file_path))
        /\ spawned s' = spawned s ++ [ebur128_cmd file_path]).
Proof.
  unfold get_audio_loudness, try_except.
  unfold bind at 1. unfold is_set at 1.
  destruct (stop_event w (length (flag_reads s))) eqn:Hstop.
  { unfold ret. eexists None, _, [("get_audio_loudness", true)].
    split; [reflexivity|]. cbn [flag_reads spawned].
    split; [reflexivity|]. split; [auto|]. split; [now left|].
    split; [reflexivity|].
    intros Hn. exfalso. apply (Hn "get_audio_loudness"). now left. }
  unfold bind at 1. unfold popen at 1. cbn [spawned flag_reads].
  destruct (spawn w (length (spawned s)) (ebur128_cmd file_path)) as [proc|e].
  2:{ unfold ret. eexists None, _, [("get_audio_loudness", false)].
      split; [reflexivity|]. cbn [flag_reads spawned].
      split; [reflexivity|]. split; [auto|]. split; [now right|].
      split; [reflexivity|]. intros _. split; reflexivity. }
  unfold bind at 1.
  match goal with |- context [monitor ?a ?b ?c w ?s1] =>
    destruct (monitor a b c w s1) as [r s2] eqn:Hm;
    pose proof (monitor_spawned _ _ _ _ _ _ _ Hm) as Hsp;
    apply monitor_reads in Hm as (new & Hnew & Hsite & Hset & Hunset)
  end.
  cbn [flag_reads spawned] in Hnew, Hsp.
  rewrite <- app_assoc in Hnew. cbn [app] in Hnew.
  assert (Hcases : (exists st, In (st, true) new) \/ (forall st, ~ In (st, true) new)).
  { clear. induction new as [|[st [|]] new IH].
    - right. intros st [].
    - left. exists st. now left.
    - destruct IH as [(st' & H)|H].
      + left. exists st'. now right.
      + right. intros st' [H0|H0]; [discriminate | now apply (H st')]. }
  destruct Hcases as [Hfound|Hnone].
  - rewrite (Hset Hfound). unfold ret.
    eexists None, _, (("get_audio_loudness", false) :: new).
    split; [reflexivity|]. split; [exact Hnew|].
    split; [constructor; [reflexivity | exact Hsite]|].
    split; [right; exact Hsp|]. split; [reflexivity|].
    intros Hn. exfalso. destruct Hfound as (st & Hin). apply (Hn st). now right.
  - rewrite (Hunset Hnone). unfold lift, loudness_of, collected_text.
    cbn [append].
    destruct (scan_loudness _) as [v|e] eqn:Hscan.
    + eexists v, _, (("get_audio_loudness", false) :: new).
      split; [reflexivity|]. split; [exact Hnew|].
      split; [constructor; [reflexivity | exact Hsite]|].
      split; [right; exact Hsp|]. split; [|intros _; split; [reflexivity | exact Hsp]].
      intros (st & [H0|Hin]); [discriminate|]. exfalso. now apply (Hnone st).
    + unfold ret. eexists None, _, (("get_audio_loudness", false) :: new).
      split; [reflexivity|]. split; [exact Hnew|].
      split; [constructor; [reflexivity | exact Hsite]|].
      split; [right; exact Hsp|]. split; [reflexivity|].
      intros _. split; [reflexivity | exact Hsp].
Qed.

Lemma found_or_not (reads : list (string * bool)) :
  (exists site, In (site, true) reads) \/ (forall site, ~ In (site, true) reads).
Proof.
  induction reads as [|[st [|]] reads IH].
  - right. intros st [].
  - left. exists st. now left.
  - destruct IH as [(st' & H)|H].
    + left. exists st'. now right.
    + right. intros st' [H0|H0]; [discriminate | now apply (H st')].
Qed.

(** The fallback step by step.  It reads the stop flag before the first
    measurement, after it and after the second one; a read that finds the
    flag set is its last, and gives the tie placeholder. *)
Lemma run_audio_analysis_fallback_checks left_file right_file row_idx w s :
  let fb := "run_audio_analysis_fallback" in
  let measuring := Forall (fun rd : string * bool => fst rd = "get_audio_loudness") in
  exists d s' new reads,
    run_audio_analysis_fallback left_file right_file row_idx w s = (Ok d, s')
    /\ spawned s' = spawned s ++ new
    /\ flag_reads s' = flag_reads s ++ reads
    /\ ((reads = [(fb, true)] /\ new = [] /\ d = tie_result)
        \/ (exists r1,
              measuring r1 /\ reads = (fb, false) :: r1 ++ [(fb, true)]
              /\ (new = [] \/ new = [ebur128_cmd left_file]) /\ d = tie_result)
        \/ (exists r1 r2,
              measuring r1 /\ measuring r2
              /\ reads = (fb, false) :: r1 ++ (fb, false) :: r2 ++ [(fb, true)]
              /\ d = tie_result)
        \/ (exists r1 r2,
              measuring r1 /\ measuring r2
              /\ reads = (fb, false) :: r1 ++ (fb, false) :: r2 ++ [(fb, false)]))
    /\ ((exists site, In (site, true) reads) -> d = tie_result)
    /\ ((forall site, ~ In (site, true) reads) ->
        d = fallback_result
              (loudness_of (spawn w (length (spawned s)) (ebur128_cmd left_file)))
              (loudness_of (spawn w (S (length (spawned s))) (ebur128_cmd right_file)))
        /\ new = [ebur128_cmd left_file; ebur128_cmd right_file])
    /\ (new = [] \/ new = [ebur128_cmd left_file]
        \/ new = [ebur128_cmd right_file]
        \/ new = [ebur128_cmd left_file; ebur128_cmd right_file]).
Proof.
  intros fb measuring.
  unfold run_audio_analysis_fallback, try_except.
  unfold bind at 1. unfold is_set at 1.
  destruct (stop_event w (length (flag_reads s))) eqn:Hc1.
  { unfold ret. eexists tie_result, _, [], [(fb, true)].
    split; [reflexivity|]. cbn [spawned flag_reads].
    split; [now rewrite app_nil_r|]. split; [reflexivity|].
    split; [left; auto|]. split; [reflexivity|]. split; [|auto].
    intros Hn. exfalso. apply (Hn fb). now left. }
  unfold bind at 1.
  match goal with |- context [get_audio_loudness left_file row_idx w ?s1] =>
    destruct (get_audio_loudness_reads left_file row_idx w s1)
      as (ll & s2 & r1 & Hl & Hr1 & Hm1 & Hs2 & Hset1 & Hunset1)
  end.
  rewrite Hl. cbn [spawned flag_reads] in Hr1, Hs2, Hunset1.
  rewrite <- app_assoc in Hr1. cbn [app] in Hr1.
  unfold bind at 1. unfold is_set at 1.
  destruct (stop_event w (length (flag_reads s2))) eqn:Hc2.
  { unfold ret.
    assert (Hnew : exists new, spawned s2 = spawned s ++ new
                               /\ (new = [] \/ new = [ebur128_cmd left_file])).
    { destruct Hs2 as [Hs2|Hs2]; [exists [] | exists [ebur128_cmd left_file]];
        rewrite Hs2, ?app_nil_r; auto. }
    destruct Hnew as (new & Hnew & Hcases).
    eexists tie_result, _, new, ((fb, false) :: r1 ++ [(fb, true)]).
    split; [reflexivity|]. cbn [spawned flag_reads].
    split; [exact Hnew|]. split; [rewrite Hr1, <- app_assoc; reflexivity|].
    split; [right; left; exists r1; auto|]. split; [reflexivity|]. split.
    - intros Hn. exfalso. apply (Hn fb). right. apply in_or_app. right. now left.
    - destruct Hcases as [->| ->]; auto. }
  unfold bind at 1.
  match goal with |- context [get_audio_loudness right_file row_idx w ?s3] =>
    destruct (get_audio_loudness_reads right_file row_idx w s3)
      as (rl & s4 & r2 & Hr & Hr2 & Hm2 & Hs4 & Hset2 & Hunset2)
  end.
  rewrite Hr. cbn [spawned flag_reads] in Hr2, Hs4, Hunset2.
  assert (Hreads4 : flag_reads s4 = flag_reads s ++ (fb, false) :: r1 ++ (fb, false) :: r2).
  { rewrite Hr2, Hr1, <- !app_assoc. reflexivity. }
  assert (Hnew : exists new, spawned s4 = spawned s ++ new
            /\ (new = [] \/ new = [ebur128_cmd left_file]
                \/ new = [ebur128_cmd right_file]
                \/ new = [ebur128_cmd left_file; ebur128_cmd right_file])).
  { destruct Hs2 as [Hs2|Hs2], Hs4 as [Hs4|Hs4]; rewrite Hs4, Hs2.
    - exists []. rewrite app_nil_r. auto.
    - exists [ebur128_cmd right_file]. auto.
    - exists [ebur128_cmd left_file]. auto.
    - exists [ebur128_cmd left_file; ebur128_cmd right_file].
      rewrite <- app_assoc. auto. }
  destruct Hnew as (new & Hnew & Hcases).
  unfold bind at 1. unfold is_set at 1.
  destruct (stop_event w (length (flag_reads s4))) eqn:Hc3.
  { unfold ret.
    eexists tie_result, _, new, ((fb, false) :: r1 ++ (fb, false) :: r2 ++ [(fb, true)]).
    split; [reflexivity|]. cbn [spawned flag_reads].
    split; [exact Hnew|].
    split; [rewrite Hreads4, <- !app_assoc; cbn [app]; rewrite <- app_assoc; reflexivity|].
    split; [right; right; left; exists r1, r2; auto|]. split; [reflexivity|].
    split; [|exact Hcases].
    intros Hn. exfalso. apply (Hn fb). right. apply in_or_app. right.
    right. apply in_or_app. right. now left. }
  assert (Hfinal : forall s5,
             flag_reads s5 = flag_reads s4 ++ [(fb, false)] ->
             spawned s5 = spawned s4 ->
             forall d,
               (ll = None \/ rl = None -> d = tie_result) ->
               d = fallback_result ll rl ->
               flag_reads s5
               = flag_reads s ++ (fb, false) :: r1 ++ (fb, false) :: r2 ++ [(fb, false)]
               /\ ((exists site,
                      In (site, true)
                         ((fb, false) :: r1 ++ (fb, false) :: r2 ++ [(fb, false)])) ->
                   d = tie_result)
               /\ ((forall site,
                      ~ In (site, true)
                          ((fb, false) :: r1 ++ (fb, false) :: r2 ++ [(fb, false)])) ->
                   d = fallback_result
                         (loudness_of (spawn w (length (spawned s))
                                         (ebur128_cmd left_file)))
                         (loudness_of (spawn w (S (length (spawned s)))
                                         (ebur128_cmd right_file)))
                   /\ new = [ebur128_cmd left_file; ebur128_cmd right_file])).
  { intros s5 Hf5 Hsp5 d Htie Hd. split; [|split].
    - rewrite Hf5, Hreads4, <- !app_assoc. cbn [app]. rewrite <- app_assoc. reflexivity.
    - intros (site & [H0|Hin]); [discriminate|].
      apply in_app_or in Hin as [Hin|[H0|Hin]]; [| discriminate |].
      + apply Htie. left. apply Hset1. now exists site.
      + apply in_app_or in Hin as [Hin|[H0|[]]]; [|discriminate].
        apply Htie. right. apply Hset2. now exists site.
    - intros Hn.
      assert (Hn1 : forall site, ~ In (site, true) r1).
      { intros site Hin. apply (Hn site). right. apply in_or_app. now left. }
      assert (Hn2 : forall site, ~ In (site, true) r2).
      { intros site Hin. apply (Hn site). right. apply in_or_app. right.
        right. apply in_or_app. now left. }
      destruct (Hunset1 Hn1) as (Hll & Hsp2).
      destruct (Hunset2 Hn2) as (Hrl & Hsp4).
      rewrite Hsp2, length_app in Hrl. cbn [length] in Hrl.
      replace (length (spawned s) + 1) with (S (length (spawned s))) in Hrl by lia.
      split; [rewrite Hd, Hll, Hrl; reflexivity|].
      rewrite Hsp4, Hsp2, <- app_assoc in Hnew. cbn [app] in Hnew.
      apply app_inv_head in Hnew. now symmetry. }
  destruct ll as [x|], rl as [y|].
  - unfold bind, log_put, ret.
    eexists _, _, new, ((fb, false) :: r1 ++ (fb, false) :: r2 ++ [(fb, false)]).
    split; [reflexivity|]. cbn [spawned].
    split; [exact Hnew|].
    match goal with |- flag_reads ?s5 = _ /\ _ =>
      destruct (Hfinal s5 eq_refl eq_refl
                  (winner_dict (band_winner x y 1.0) x y)) as (H1 & H2 & H3)
    end.
    + intros [H0|H0]; discriminate.
    + reflexivity.
    + split; [exact H1|]. split; [right; right; right; exists r1, r2; auto|].
      split; [exact H2|]. split; [exact H3 | exact Hcases].
  - unfold ret.
    eexists _, _, new, ((fb, false) :: r1 ++ (fb, false) :: r2 ++ [(fb, false)]).
    split; [reflexivity|]. cbn [spawned].
    split; [exact Hnew|].
    match goal with |- flag_reads ?s5 = _ /\ _ =>
      destruct (Hfinal s5 eq_refl eq_refl tie_result) as (H1 & H2 & H3)
    end; [reflexivity | reflexivity |].
    split; [exact H1|]. split; [right; right; right; exists r1, r2; auto|].
    split; [exact H2|]. split; [exact H3 | exact Hcases].
  - unfold ret.
    eexists _, _, new, ((fb, false) :: r1 ++ (fb, false) :: r2 ++ [(fb, false)]).
    split; [reflexivity|]. cbn [spawned].
    split; [exact Hnew|].
    match goal with |- flag_reads ?s5 = _ /\ _ =>
      destruct (Hfinal s5 eq_refl eq_refl tie_result) as (H1 & H2 & H3)
    end; [reflexivity | reflexivity |].
    split; [exact H1|]. split; [right; right; right; exists r1, r2; auto|].
    split; [exact H2|]. split; [exact H3 | exact Hcases].
  - unfold ret.
    eexists _, _, new, ((fb, false) :: r1 ++ (fb, false) :: r2 ++ [(fb, false)]).
    split; [reflexivity|]. cbn [spawned].
    split; [exact Hnew|].
    match goal with |- flag_reads ?s5 = _ /\ _ =>
      destruct (Hfinal s5 eq_refl eq_refl tie_result) as (H1 & H2 & H3)
    end; [reflexivity | reflexivity |].
    split; [exact H1|]. split; [right; right; right; exists r1, r2; auto|].
    split; [exact H2|]. split; [exact H3 | exact Hcases].
Qed.

Lemma ebur128_is_not_apsnr (file_path reference_file distorted_file : string) :
  ebur128_cmd file_path <> apsnr_cmd reference_file distorted_file.
Proof. discriminate. Qed.

(** C5, as the code has it.  In a row where a directional PSNR score is
    unavailable the audio decision is the loudness fallback on the two files
    of the row; it returns without raising.  In every case the subprocesses
    it starts are loudness measurements, at most one per side and never the
    PSNR comparison.  The fallback reads the stop flag before the left
    measurement, after it, and after the right measurement; the other reads
    are those of the measurements.  A check that finds the flag set is the
    last read: the fallback returns there with winner "tie" and both scores
    0, before any measurement at the first check and without measuring the
    right file at the second.  Any read that finds the flag set, in a check
    or in a measurement, gives "tie" and 0, 0.  When no read finds it set the
    fallback starts exactly one loudness measurement per side, left then
    right, and returns the decision of the 1.0 LUFS band on the two values,
    or winner "tie" with both scores 0 when a value is unavailable. *)
Theorem determine_audio_winner_fallback
    (l r : option float) (row_idx : nat) (left_file right_file : string)
    (w : env) (s : state) :
  l = None \/ r = None ->
  nth_error (left_files w) row_idx = Some left_file ->
  nth_error (right_files w) row_idx = Some right_file ->
  let fb := "run_audio_analysis_fallback" in
  let measuring :=
    Forall (fun rd : string * bool => fst rd = "get_audio_loudness") in
  (exists d s' new reads,
      determine_audio_winner l r row_idx w s = (Ok d, s')
      /\ spawned s' = spawned s ++ new
      /\ (new = [] \/ new = [ebur128_cmd left_file]
          \/ new = [ebur128_cmd right_file]
          \/ new = [ebur128_cmd left_file; ebur128_cmd right_file])
      /\ flag_reads s' = flag_reads s ++ reads
      /\ ((reads = [(fb, true)] /\ new = [] /\ d = tie_result)
          \/ (exists r1,
                measuring r1 /\ reads = (fb, false) :: r1 ++ [(fb, true)]
                /\ (new = [] \/ new = [ebur128_cmd left_file]) /\ d = tie_result)
          \/ (exists r1 r2,
                measuring r1 /\ measuring r2
                /\ reads = (fb, false) :: r1 ++ (fb, false) :: r2 ++ [(fb, true)]
                /\ d = tie_result)
          \/ (exists r1 r2,
                measuring r1 /\ measuring r2
                /\ reads = (fb, false) :: r1 ++ (fb, false) :: r2 ++ [(fb, false)]))
      /\ ((exists site, In (site, true) reads) -> d = tie_result)
      /\ ((forall site, ~ In (site, true) reads) ->
          d = fallback_result
                (loudness_of (spawn w (length (spawned s)) (ebur128_cmd left_file)))
                (loudness_of (spawn w (S (length (spawned s)))
                                (ebur128_cmd right_file)))
          /\ new = [ebur128_cmd left_file; ebur128_cmd right_file]))
  /\ ((forall n, stop_event w n = false) ->
      exists s',
        determine_audio_winner l r row_idx w s
        = (Ok (fallback_result
                 (loudness_of (spawn w (length (spawned s)) (ebur128_cmd left_file)))
                 (loudness_of (spawn w (S (length (spawned s)))
                                 (ebur128_cmd right_file)))),
           s')
        /\ spawned s' = spawned s ++ [ebur128_cmd left_file; ebur128_cmd right_file])
  /\ (forall x y,
        fallback_result (Some x) (Some y) = winner_dict (band_winner x y 1.0) x y
        /\ (band_winner x y 1.0 = "tie"
            <-> PyFloat.lt (PyFloat.absdiff x y) 1.0 = true)
        /\ (band_winner x y 1.0 <> "tie" -> PyFloat.gt x y = true ->
            band_winner x y 1.0 = "left")
        /\ (band_winner x y 1.0 <> "tie" -> PyFloat.gt y x = true ->
            band_winner x y 1.0 = "right"))
  /\ (forall ll rl, ll = None \/ rl = None -> fallback_result ll rl = tie_result)
  /\ (forall file_path reference_file distorted_file,
        ebur128_cmd file_path <> apsnr_cmd reference_file distorted_file).
Proof.
  intros Hnone Hleft Hright fb measuring.
  assert (Hstep : forall w' s',
             determine_audio_winner l r row_idx w' s'
             = try_except
                 (lefts <- get_left_files ;;
                  lf <- index lefts row_idx ;;
                  rights <- get_right_files ;;
                  rf <- index rights row_idx ;;
                  run_audio_analysis_fallback lf rf row_idx)
                 (fun e =>
                    log_put "ERROR"
                      [T "Row "; row_number row_idx;
                       T ": Error determining audio winner: "; E e] ;;
                    ret tie_result) w' s').
  { intros w' s'. unfold determine_audio_winner.
    destruct Hnone as [-> | ->]; [|destruct l]; reflexivity. }
  assert (Hrun : forall d s',
             run_audio_analysis_fallback left_file right_file row_idx w s = (Ok d, s') ->
             determine_audio_winner l r row_idx w s = (Ok d, s')).
  { intros d s' H. rewrite Hstep.
    unfold try_except, bind, get_left_files, get_right_files, index.
    rewrite Hleft, Hright. unfold ret at 1 2. cbv beta iota. now rewrite H. }
  clear Hstep.
  split; [|split; [|split; [|split]]].
  - destruct (run_audio_analysis_fallback_checks left_file right_file row_idx w s)
      as (d & s' & new & reads & H & Hnew & Hreads & Hcases & Hset & Hunset & Hcmds).
    exists d, s', new, reads. split; [now apply Hrun|].
    split; [exact Hnew|]. split; [exact Hcmds|]. split; [exact Hreads|].
    split; [exact Hcases|]. split; [exact Hset | exact Hunset].
  - intros Hns.
    destruct (run_audio_analysis_fallback_never_stopped left_file right_file
                row_idx w s Hns) as (s' & H & Hnew).
    exists s'. split; [now apply Hrun | exact Hnew].
  - intros x y. split; [reflexivity|].
    pose proof (tie_band_decision x y 1.0 eq_refl) as (H1 & _ & H3 & H4 & _).
    unfold band_winner. auto.
  - intros ll rl [-> | ->]; [|destruct ll]; reflexivity.
  - intros. apply ebur128_is_not_apsnr.
Qed.

(** Row 0 of a run with one file on each side, the left PSNR score
    unavailable, no stop request: one measurement per side, and a tie of the
    two equal loudness values. *)
Lemma determine_audio_winner_fallback_witness :
  (@None float = None \/ Some 40.0%float = None)
  /\ nth_error (left_files (loudness_env never_stopped)) 0 = Some "a.mp4"
  /\ nth_error (right_files (loudness_env never_stopped)) 0 = Some "b.mp4"
  /\ (forall n, stop_event (loudness_env never_stopped) n = false)
  /\ exists s',
       determine_audio_winner None (Some 40.0%float) 0 (loudness_env never_stopped)
         initial_state
       = (Ok (winner_dict "tie" (-23.5) (-23.5)), s')
       /\ spawned s' = [ebur128_cmd "a.mp4"; ebur128_cmd "b.mp4"].
Proof.
  split; [left; reflexivity|]. split; [reflexivity|]. split; [reflexivity|].
  split; [reflexivity|].
  destruct (determine_audio_winner_fallback None (Some 40.0%float) 0 "a.mp4" "b.mp4"
              (loudness_env never_stopped) initial_state
              (or_introl eq_refl) eq_refl eq_refl) as (_ & H & _).
  exact (H (fun _ => eq_refl)).
Defined.

(** A stop request that arrives while the loudness of the left file is being
    measured: the fallback returns "tie" with 0, 0 and the right file is never
    measured. *)
Lemma loudness_fallback_stopped_counterexample :
  fst (determine_audio_winner None None 0
         (loudness_env (stopped_from 2)) initial_state)
  = Ok tie_result
  /\ spawned (snd (determine_audio_winner None None 0
                     (loudness_env (stopped_from 2)) initial_state))
     = [ebur128_cmd "a.mp4"].
Proof. split; reflexivity. Qed.

End Fallback.

(** ** Row comparator *)

Section Row.

(** *** Reads of the stop flag *)

Lemma reads_extend_refl P w s : reads_extend P w s s.
Proof.
  exists []. split; [now rewrite app_nil_r|].
  intros i site b H. destruct i; discriminate.
Qed.

Lemma reads_extend_trans P w s1 s2 s3 :
  reads_extend P w s1 s2 -> reads_extend P w s2 s3 -> reads_extend P w s1 s3.
Proof.
  intros (n1 & H1 & K1) (n2 & H2 & K2).
  exists (n1 ++ n2). split; [now rewrite H2, H1, app_assoc|].
  intros i site b H.
  destruct (Nat.lt_ge_cases i (length n1)) as [Hi|Hi].
  - rewrite nth_error_app1 in H by assumption. now apply K1.
  - rewrite nth_error_app2 in H by assumption.
    apply K2 in H as [HP Hb]. split; [assumption|].
    rewrite Hb, H1, length_app. f_equal. lia.
Qed.


(** A step that leaves the trace of reads as it is. *)
Lemma reads_extend_same P w s s' :
  flag_reads s' = flag_reads s -> reads_extend P w s s'.
Proof.
  intros H. exists []. split; [now rewrite app_nil_r|].
  intros i site b Hi. destruct i; discriminate.
Qed.

Lemma tracks_ret {A} P (a : A) : tracks P (ret a).
Proof. intros w s r s' H. injection H as <- <-. apply reads_extend_refl. Qed.

Lemma tracks_raise {A} P e : tracks P (@raise A e).
Proof. intros w s r s' H. injection H as <- <-. apply reads_extend_refl. Qed.

Lemma tracks_lift {A} P (x : result A) : tracks P (lift x).
Proof. intros w s r s' H. injection H as <- <-. apply reads_extend_refl. Qed.

Lemma tracks_log_put P level text : tracks P (log_put level text).
Proof. intros w s r s' H. injection H as <- <-. now apply reads_extend_same. Qed.

Lemma tracks_update_progress P row progress_type value :
  tracks P (update_progress row progress_type value).
Proof. intros w s r s' H. injection H as <- <-. now apply reads_extend_same. Qed.

Lemma tracks_popen P cmd : tracks P (popen cmd).
Proof. intros w s r s' H. injection H as <- <-. now apply reads_extend_same. Qed.

Lemma tracks_get_left_files P : tracks P get_left_files.
Proof. intros w s r s' H. injection H as <- <-. apply reads_extend_refl. Qed.

Lemma tracks_get_right_files P : tracks P get_right_files.
Proof. intros w s r s' H. injection H as <- <-. apply reads_extend_refl. Qed.

Lemma tracks_get_current_metric P : tracks P get_current_metric.
Proof. intros w s r s' H. injection H as <- <-. apply reads_extend_refl. Qed.

Lemma tracks_index P files i : tracks P (index files i).
Proof.
  unfold index. destruct (nth_error files i); [apply tracks_ret | apply tracks_raise].
Qed.

Lemma tracks_is_set (P : string -> bool -> Prop) site :
  (forall b, P site b) -> tracks P (is_set site).
Proof.
  intros HP w s r s' H. injection H as <- <-.
  exists [(site, stop_event w (length (flag_reads s)))]. split; [reflexivity|].
  intros [|i] site' b Hi; [|destruct i; discriminate].
  injection Hi as <- <-. split; [apply HP | now rewrite Nat.add_0_r].
Qed.

Lemma tracks_bind {A B} P (c : M A) (k : A -> M B) :
  tracks P c -> (forall a, tracks P (k a)) -> tracks P (bind c k).
Proof.
  intros Hc Hk w s r s' H. unfold bind in H.
  destruct (c w s) as [[a|e] s1] eqn:Hcs.
  - eapply reads_extend_trans; [eapply Hc, Hcs | eapply Hk, H].
  - injection H as <- <-. eapply Hc, Hcs.
Qed.

Lemma tracks_try_except {A} P (body : M A) (handler : exn -> M A) :
  tracks P body -> (forall e, tracks P (handler e)) -> tracks P (try_except body handler).
Proof.
  intros Hb Hh w s r s' H. unfold try_except in H.
  destruct (body w s) as [[a|e] s1] eqn:Hbs.
  - injection H as <- <-. eapply Hb, Hbs.
  - eapply reads_extend_trans; [eapply Hb, Hbs | eapply Hh, H].
Qed.

Create HintDb tracks.

Ltac tracks_step :=
  first
    [ solve [auto with tracks nocore]
    | apply tracks_ret | apply tracks_raise | apply tracks_lift
    | apply tracks_log_put | apply tracks_update_progress | apply tracks_popen
    | apply tracks_get_left_files | apply tracks_get_right_files
    | apply tracks_get_current_metric | apply tracks_index
    | apply tracks_is_set; intros ?; unfold inner; discriminate
    | apply tracks_bind; [|intros ?]
    | apply tracks_try_except; [|intros ?]
    | match goal with
      | |- tracks _ (if ?b then _ else _) => destruct b
      | |- tracks _ (match ?x with _ => _ end) => destruct x
      end ].

Ltac tracks_auto := cbv zeta; repeat tracks_step; auto.

Lemma tracks_parse_single_vmaf_output output comparison_type row_idx :
  tracks inner (parse_single_vmaf_output output comparison_type row_idx).
Proof. unfold parse_single_vmaf_output. tracks_auto. Qed.

#[local] Hint Resolve tracks_parse_single_vmaf_output : tracks.

Lemma tracks_ssim_scan_lines lines comparison_type row_idx :
  tracks inner (ssim_scan_lines lines comparison_type row_idx).
Proof.
  induction lines as [|line lines IH]; cbn [ssim_scan_lines]; tracks_auto.
Qed.

#[local] Hint Resolve tracks_ssim_scan_lines : tracks.

Lemma tracks_parse_single_ssim_output output comparison_type row_idx :
  tracks inner (parse_single_ssim_output output comparison_type row_idx).
Proof.
  unfold parse_single_ssim_output. tracks_auto.
Qed.

#[local] Hint Resolve tracks_parse_single_ssim_output : tracks.

Lemma tracks_parse_single_audio_output output comparison_type row_idx :
  tracks inner (parse_single_audio_output output comparison_type row_idx).
Proof. unfold parse_single_audio_output. tracks_auto. Qed.

#[local] Hint Resolve tracks_parse_single_audio_output : tracks.

Lemma tracks_parse_single_video_output output metric comparison_type row_idx :
  tracks inner (parse_single_video_output output metric comparison_type row_idx).
Proof.
  unfold parse_single_video_output.
  tracks_auto.
Qed.

#[local] Hint Resolve tracks_parse_single_video_output : tracks.

Lemma tracks_extract_ffmpeg_progress line row_idx media_type comparison_type total :
  tracks inner (extract_ffmpeg_progress line row_idx media_type comparison_type total).
Proof. unfold extract_ffmpeg_progress. tracks_auto. Qed.

#[local] Hint Resolve tracks_extract_ffmpeg_progress : tracks.

Lemma tracks_get_total_frames video_path : tracks inner (get_total_frames video_path).
Proof. unfold get_total_frames. tracks_auto. Qed.

#[local] Hint Resolve tracks_get_total_frames : tracks.

Lemma tracks_monitor_video reads text row_idx comparison_type total :
  tracks inner (monitor_video reads text row_idx comparison_type total).
Proof.
  revert text.
  induction reads as [|output reads IH]; intros text; cbn [monitor_video];
    tracks_auto.
Qed.

#[local] Hint Resolve tracks_monitor_video : tracks.

Lemma tracks_monitor site reads text :
  site <> "compare_row" -> tracks inner (monitor site reads text).
Proof.
  intros Hsite. revert text.
  induction reads as [|output reads IH]; intros text; cbn [monitor];
    (apply tracks_bind; [now apply tracks_is_set|intros ?]); tracks_auto.
Qed.

#[local] Hint Extern 1 (tracks inner (monitor _ _ _)) =>
  apply tracks_monitor; discriminate : tracks.

Lemma tracks_run_single_video_comparison reference distorted metric comparison_type row_idx :
  tracks inner
    (run_single_video_comparison reference distorted metric comparison_type row_idx).
Proof.
  unfold run_single_video_comparison.
  tracks_auto.
Qed.

#[local] Hint Resolve tracks_run_single_video_comparison : tracks.

Lemma tracks_run_single_audio_comparison reference distorted comparison_type row_idx :
  tracks inner (run_single_audio_comparison reference distorted comparison_type row_idx).
Proof.
  unfold run_single_audio_comparison.
  tracks_auto.
Qed.

#[local] Hint Resolve tracks_run_single_audio_comparison : tracks.

Lemma tracks_get_audio_loudness file_path row_idx :
  tracks inner (get_audio_loudness file_path row_idx).
Proof.
  unfold get_audio_loudness.
  tracks_auto.
Qed.

#[local] Hint Resolve tracks_get_audio_loudness : tracks.

Lemma tracks_run_audio_analysis_fallback left_file right_file row_idx :
  tracks inner (run_audio_analysis_fallback left_file right_file row_idx).
Proof.
  unfold run_audio_analysis_fallback. tracks_auto.
Qed.

#[local] Hint Resolve tracks_run_audio_analysis_fallback : tracks.

Lemma tracks_determine_video_winner l r metric row_idx :
  tracks inner (determine_video_winner l r metric row_idx).
Proof. unfold determine_video_winner. tracks_auto. Qed.

#[local] Hint Resolve tracks_determine_video_winner : tracks.

Lemma tracks_determine_audio_winner l r row_idx :
  tracks inner (determine_audio_winner l r row_idx).
Proof.
  unfold determine_audio_winner. tracks_auto.
Qed.

#[local] Hint Resolve tracks_determine_audio_winner : tracks.

Lemma tracks_run_video_comparison left_file right_file metric row_idx :
  tracks inner (run_video_comparison left_file right_file metric row_idx).
Proof.
  unfold run_video_comparison.
  tracks_auto.
Qed.

#[local] Hint Resolve tracks_run_video_comparison : tracks.

Lemma tracks_run_audio_comparison left_file right_file row_idx :
  tracks inner (run_audio_comparison left_file right_file row_idx).
Proof.
  unfold run_audio_comparison.
  tracks_auto.
Qed.

#[local] Hint Resolve tracks_run_audio_comparison : tracks.

(** *** The row *)






Lemma run_video_comparison_returns left_file right_file metric row_idx w s :
  exists d s', run_video_comparison left_file right_file metric row_idx w s = (Ok d, s').
Proof.
  unfold run_video_comparison. apply try_except_returns.
  intros. apply log_then_ret_returns.
Qed.

Lemma run_audio_comparison_returns left_file right_file row_idx w s :
  exists d s', run_audio_comparison left_file right_file row_idx w s = (Ok d, s').
Proof.
  unfold run_audio_comparison. apply try_except_returns.
  intros. apply log_then_ret_returns.
Qed.




(** A row that runs to its end returns a record (here without usable video
    output, so the video decision is the placeholder); a stop request that
    arrives during the row, here before the tenth read of the flag, leaves no
    record. *)
Example compare_row_examples :
  fst (compare_row 0 "a.mp4" "b.mp4" (loudness_env never_stopped) initial_state)
  = Ok (Some [("video_winner", Str "tie"); ("audio_winner", Str "tie");
              ("video_score_left", Int 0); ("video_score_right", Int 0);
              ("audio_score_left", Num (-23.5)); ("audio_score_right", Num (-23.5))])
  /\ fst (compare_row 0 "a.mp4" "b.mp4" (loudness_env (stopped_from 9)) initial_state)
     = Ok None.
Proof. split; reflexivity. Qed.

End Row.

(** ** What a step leaves untouched *)

Lemma keeps_ret {A X} (f : state -> X) (a : A) : keeps f (ret a).
Proof. intros w s r s' H. now injection H as <- <-. Qed.

Lemma keeps_raise {A X} (f : state -> X) e : keeps f (@raise A e).
Proof. intros w s r s' H. now injection H as <- <-. Qed.

Lemma keeps_lift {A X} (f : state -> X) (x : result A) : keeps f (lift x).
Proof. intros w s r s' H. now injection H as <- <-. Qed.

Lemma keeps_bind {A B X} (f : state -> X) (c : M A) (k : A -> M B) :
  keeps f c -> (forall a, keeps f (k a)) -> keeps f (bind c k).
Proof.
  intros Hc Hk w s r s' H. unfold bind in H.
  destruct (c w s) as [[a|e] s1] eqn:Hcs.
  - rewrite (Hk _ _ _ _ _ H). eapply Hc, Hcs.
  - injection H as <- <-. eapply Hc, Hcs.
Qed.

Lemma keeps_try_except {A X} (f : state -> X) (body : M A) (handler : exn -> M A) :
  keeps f body -> (forall e, keeps f (handler e)) -> keeps f (try_except body handler).
Proof.
  intros Hb Hh w s r s' H. unfold try_except in H.
  destruct (body w s) as [[a|e] s1] eqn:Hbs.
  - injection H as <- <-. eapply Hb, Hbs.
  - rewrite (Hh _ _ _ _ _ H). eapply Hb, Hbs.
Qed.

Create HintDb keeps.

Ltac keeps_prim :=
  let H := fresh in intros ? ? ? ? H; injection H as <- <-; reflexivity.

Ltac keeps_step :=
  first
    [ solve [auto with keeps nocore]
    | apply keeps_ret | apply keeps_raise | apply keeps_lift
    | apply keeps_bind; [|intros ?]
    | apply keeps_try_except; [|intros ?]
    | match goal with
      | |- keeps _ (if ?b then _ else _) => destruct b
      | |- keeps _ (match ?x with _ => _ end) => destruct x
      end
    | solve [keeps_prim] ].

Ltac keeps_auto := cbv zeta; repeat keeps_step.

Lemma keeps_index {X} (f : state -> X) files i : keeps f (index files i).
Proof. unfold index. keeps_auto. Qed.

#[local] Hint Resolve keeps_index : keeps.

Lemma spawned_parse_single_video_output output metric comparison_type row_idx :
  keeps spawned (parse_single_video_output output metric comparison_type row_idx).
Proof.
  assert (forall lines, keeps spawned (ssim_scan_lines lines comparison_type row_idx)).
  { induction lines as [|line lines IH]; cbn [ssim_scan_lines]; keeps_auto. }
  unfold parse_single_video_output, parse_single_vmaf_output, parse_single_ssim_output.
  keeps_auto.
Qed.

Lemma spawned_parse_single_audio_output output comparison_type row_idx :
  keeps spawned (parse_single_audio_output output comparison_type row_idx).
Proof. unfold parse_single_audio_output. keeps_auto. Qed.

Lemma spawned_extract_ffmpeg_progress line row_idx media_type comparison_type total :
  keeps spawned (extract_ffmpeg_progress line row_idx media_type comparison_type total).
Proof. unfold extract_ffmpeg_progress. keeps_auto. Qed.

#[local] Hint Resolve spawned_parse_single_video_output
  spawned_parse_single_audio_output spawned_extract_ffmpeg_progress : keeps.

(** ** Metric runner *)

Section Runner.

Local Infix "+++" := String.append (right associativity, at level 60).

(** *** The parsers as functions of the text *)

Lemma parse_single_vmaf_output_value output comparison_type row_idx w s :
  fst (parse_single_vmaf_output output comparison_type row_idx w s)
  = Ok (vmaf_tiers output).
Proof.
  unfold vmaf_tiers, first_success, last_token.
  destruct (search vmaf_score_re output) as [tok|] eqn:H.
  - now apply parse_single_vmaf_output_primary.
  - rewrite (parse_single_vmaf_output_secondary _ _ _ _ _ H).
    now destruct (findall vmaf_any_re output).
Qed.

Lemma parse_single_ssim_output_value output comparison_type row_idx w s :
  fst (parse_single_ssim_output output comparison_type row_idx w s)
  = Ok (ssim_tiers output).
Proof.
  unfold ssim_tiers, first_success, ssim_aggregate_token, ssim_line_token,
    ssim_luma_token, float_or_none.
  unfold parse_single_ssim_output, try_except.
  destruct (search ssim_all_re output) as [tok|] eqn:Hall.
  - unfold bind, lift. destruct (Str.to_float tok); reflexivity.
  - rewrite (ssim_line_re_subsumed output Hall). cbv beta iota.
    unfold bind at 1.
    pose proof (ssim_scan_lines_spec (rev (Str.split_lines (Str.strip output)))
                  comparison_type row_idx w s) as Hscan.
    destruct (first_marked_line (rev (Str.split_lines (Str.strip output)))) as [tok|].
    + destruct (ssim_scan_lines _ _ _ w s) as [r s1]. cbn [fst] in Hscan. subst r.
      destruct (Str.to_float tok); reflexivity.
    + rewrite Hscan.
      destruct (search ssim_y_re output) as [tok|].
      * unfold bind, lift. destruct (Str.to_float tok); reflexivity.
      * reflexivity.
Qed.

Lemma parse_single_audio_output_value output comparison_type row_idx w s :
  fst (parse_single_audio_output output comparison_type row_idx w s)
  = Ok (audio_tiers output).
Proof.
  unfold audio_tiers, first_success, last_token, parse_single_audio_output.
  destruct (search psnr_ch0_re output) as [tok|].
  - apply convert_token_returns.
  - destruct (findall psnr_db_re output) as [|t ts]; [reflexivity|].
    apply convert_token_returns.
Qed.

Lemma parse_single_video_output_value output metric comparison_type row_idx w s :
  fst (parse_single_video_output output metric comparison_type row_idx w s)
  = Ok (video_tiers metric output).
Proof.
  unfold parse_single_video_output, video_tiers, try_except.
  destruct (String.eqb metric "VMAF").
  - pose proof (parse_single_vmaf_output_value output comparison_type row_idx w s) as H.
    destruct (parse_single_vmaf_output _ _ _ w s) as [r s1]. cbn [fst] in H.
    now subst r.
  - pose proof (parse_single_ssim_output_value output comparison_type row_idx w s) as H.
    destruct (parse_single_ssim_output _ _ _ w s) as [r s1]. cbn [fst] in H.
    now subst r.
Qed.

(** *** The reading loops *)

(** A reading loop returns, without raising and without starting anything,
    either [None] (the flag was found set) or all that the process printed. *)
Lemma monitor_outcome site reads text w s :
  exists r s',
    monitor site reads text w s = (Ok r, s')
    /\ (r = None \/ r = Some (text +++ String.concat "" reads))
    /\ spawned s' = spawned s
    /\ ((forall n, stop_event w n = false) ->
        r = Some (text +++ String.concat "" reads)).
Proof.
  revert text s. induction reads as [|output reads IH]; intros text s;
    cbn [monitor]; unfold bind, is_set;
    destruct (stop_event w (length (flag_reads s))) eqn:Hstop.
  - eexists. eexists. split; [reflexivity|]. split; [now left|].
    split; [reflexivity|]. intros Hns. rewrite Hns in Hstop. discriminate.
  - cbn [String.concat]. rewrite string_app_nil_r.
    eexists. eexists. split; [reflexivity|]. split; [now right|].
    split; reflexivity.
  - eexists. eexists. split; [reflexivity|]. split; [now left|].
    split; [reflexivity|]. intros Hns. rewrite Hns in Hstop. discriminate.
  - rewrite concat_cons. destruct output as [|c output].
    + match goal with |- context [monitor site reads text w ?s1] =>
        destruct (IH text s1) as (r & s' & Hm & Hr & Hs & Hn)
      end.
      exists r, s'. split; [exact Hm|]. split; [exact Hr|]. split; [exact Hs | exact Hn].
    + rewrite <- string_app_assoc.
      match goal with |- context [monitor site reads ?t w ?s1] =>
        destruct (IH t s1) as (r & s' & Hm & Hr & Hs & Hn)
      end.
      exists r, s'. split; [exact Hm|]. split; [exact Hr|]. split; [exact Hs | exact Hn].
Qed.

Lemma monitor_video_outcome reads text row_idx comparison_type total w s :
  exists r s',
    monitor_video reads text row_idx comparison_type total w s = (Ok r, s')
    /\ (r = None \/ r = Some (text +++ String.concat "" reads))
    /\ spawned s' = spawned s
    /\ ((forall n, stop_event w n = false) ->
        r = Some (text +++ String.concat "" reads)).
Proof.
  revert text s. induction reads as [|output reads IH]; intros text s;
    cbn [monitor_video]; unfold bind at 1; unfold is_set;
    destruct (stop_event w (length (flag_reads s))) eqn:Hstop.
  - eexists. eexists. split; [reflexivity|]. split; [now left|].
    split; [reflexivity|]. intros Hns. rewrite Hns in Hstop. discriminate.
  - cbn [String.concat]. rewrite string_app_nil_r.
    eexists. eexists. split; [reflexivity|]. split; [now right|].
    split; reflexivity.
  - eexists. eexists. split; [reflexivity|]. split; [now left|].
    split; [reflexivity|]. intros Hns. rewrite Hns in Hstop. discriminate.
  - rewrite concat_cons. destruct output as [|c output].
    + match goal with |- context [monitor_video reads text _ _ _ w ?s1] =>
        destruct (IH text s1) as (r & s' & Hm & Hr & Hs & Hn)
      end.
      exists r, s'. split; [exact Hm|]. split; [exact Hr|]. split; [exact Hs | exact Hn].
    + rewrite <- string_app_assoc. unfold bind.
      match goal with |- context [extract_ffmpeg_progress ?l ?a ?b ?c ?d w ?s1] =>
        destruct (extract_ffmpeg_progress_returns l a b c d w s1) as (s2 & He);
        pose proof (spawned_extract_ffmpeg_progress _ _ _ _ _ _ _ _ _ He) as Hk
      end.
      rewrite He.
      match goal with |- context [monitor_video reads ?t _ _ _ w s2] =>
        destruct (IH t s2) as (r & s' & Hm & Hr & Hs & Hn)
      end.
      exists r, s'. split; [exact Hm|]. split; [exact Hr|].
      split; [now rewrite Hs, Hk | exact Hn].
Qed.

(** *** A directional pass *)

Lemma run_single_audio_comparison_run reference_file distorted_file
    comparison_type row_idx w s :
  exists r s',
    run_single_audio_comparison reference_file distorted_file comparison_type
      row_idx w s = (Ok r, s')
    /\ (r = None
        \/ r = audio_pass_score
                 (spawn w (length (spawned s)) (apsnr_cmd reference_file distorted_file)))
    /\ (spawned s' = spawned s
        \/ spawned s' = spawned s ++ [apsnr_cmd reference_file distorted_file])
    /\ ((forall n, stop_event w n = false) ->
        r = audio_pass_score
              (spawn w (length (spawned s)) (apsnr_cmd reference_file distorted_file))
        /\ spawned s' = spawned s ++ [apsnr_cmd reference_file distorted_file]).
Proof.
  unfold run_single_audio_comparison, try_except.
  unfold bind at 1. unfold is_set.
  destruct (stop_event w (length (flag_reads s))) eqn:Hstop.
  { eexists. eexists. split; [reflexivity|]. split; [now left|].
    split; [now left|]. intros Hns. rewrite Hns in Hstop. discriminate. }
  unfold bind at 1. unfold popen. cbn [spawned].
  destruct (spawn w (length (spawned s)) (apsnr_cmd reference_file distorted_file))
    as [proc|e].
  2:{ eexists. eexists. split; [reflexivity|]. cbn [spawned audio_pass_score].
      split; [now left|]. split; [now right|]. intros _. split; reflexivity. }
  unfold bind at 1.
  match goal with |- context [monitor ?a ?b ?c w ?s1] =>
    destruct (monitor_outcome a b c w s1) as (col & s2 & Hm & Hcol & Hs2 & Hn2)
  end.
  rewrite Hm. cbn [spawned] in Hs2.
  destruct col as [text|].
  2:{ eexists. eexists. split; [reflexivity|]. split; [now left|].
      split; [now right|]. intros Hns. now specialize (Hn2 Hns). }
  destruct Hcol as [Hcol|Hcol]; [discriminate|]. injection Hcol as ->.
  cbn [audio_pass_score]. unfold collected_text. cbn [append].
  destruct (returncode proc =? 0)%Z; cbn [negb].
  - pose proof (parse_single_audio_output_value
                  (String.concat "" (stderr_reads proc) +++ stderr_rest proc)
                  comparison_type row_idx w s2) as Hv.
    destruct (parse_single_audio_output _ _ _ w s2) as [r s3] eqn:Hp.
    cbn [fst] in Hv. subst r.
    apply spawned_parse_single_audio_output in Hp.
    eexists. eexists. split; [reflexivity|]. split; [now right|].
    rewrite Hp, Hs2. split; [now right|]. intros _. split; reflexivity.
  - eexists. eexists. split; [reflexivity|]. cbn [spawned].
    rewrite Hs2. split; [now left|]. split; [now right|]. intros _. split; reflexivity.
Qed.

Lemma get_total_frames_run video_path w s :
  exists s',
    get_total_frames video_path w s
    = (match spawn w (length (spawned s)) (ffprobe_cmd video_path) with
       | Ok p => frames_of p
       | Raise e => Raise e
       end, s')
    /\ spawned s' = spawned s ++ [ffprobe_cmd video_path]
    /\ flag_reads s' = flag_reads s
    /\ log_queue s' = log_queue s
    /\ progress_queue s' = progress_queue s.
Proof.
  unfold get_total_frames, bind, popen. fold (ffprobe_cmd video_path).
  destruct (spawn w (length (spawned s)) (ffprobe_cmd video_path)) as [p|e].
  - unfold frames_of. destruct (Str.isdigit (Str.strip (stdout p))).
    + unfold lift. destruct (Str.to_int (Str.strip (stdout p)));
        eexists; (split; [reflexivity|]); repeat split.
    + eexists. split; [reflexivity|]. repeat split.
  - eexists. split; [reflexivity|]. repeat split.
Qed.

Lemma run_single_video_comparison_run reference_file distorted_file metric
    comparison_type row_idx w s :
  let probe := spawn w (length (spawned s)) (ffprobe_cmd reference_file) in
  let started := spawn w (S (length (spawned s)))
                   (video_cmd metric reference_file distorted_file) in
  exists r s' k,
    run_single_video_comparison reference_file distorted_file metric comparison_type
      row_idx w s = (Ok r, s')
    /\ (r = None \/ r = video_pass_score metric probe started)
    /\ spawned s'
       = spawned s
         ++ firstn k (video_pass_cmds metric reference_file distorted_file probe)
    /\ ((forall n, stop_event w n = false) ->
        r = video_pass_score metric probe started
        /\ spawned s'
           = spawned s ++ video_pass_cmds metric reference_file distorted_file probe).
Proof.
  intros probe started.
  unfold run_single_video_comparison, try_except.
  unfold bind at 1. unfold is_set.
  destruct (stop_event w (length (flag_reads s))) eqn:Hstop.
  { eexists. eexists. exists 0. split; [reflexivity|]. split; [now left|].
    cbn [firstn spawned]. rewrite app_nil_r. split; [reflexivity|].
    intros Hns. rewrite Hns in Hstop. discriminate. }
  unfold bind at 1.
  match goal with |- context [get_total_frames reference_file w ?s1] =>
    destruct (get_total_frames_run reference_file w s1)
      as (s2 & Hg & Hs2 & _ & _ & _)
  end.
  rewrite Hg. cbn [spawned] in Hs2. cbn [spawned]. fold probe.
  unfold video_pass_score, video_pass_cmds.
  destruct probe as [q|e] eqn:Hprobe.
  2:{ eexists. eexists. exists 1. split; [reflexivity|]. cbn [spawned firstn].
      split; [now left|]. split; [exact Hs2|]. intros _. split; [reflexivity | exact Hs2]. }
  destruct (frames_of q) as [frames|e].
  2:{ eexists. eexists. exists 1. split; [reflexivity|]. cbn [spawned firstn].
      split; [now left|]. split; [exact Hs2|]. intros _. split; [reflexivity | exact Hs2]. }
  unfold bind at 1. unfold popen. rewrite Hs2, length_app, Nat.add_1_r. cbn [length].
  fold (video_cmd metric reference_file distorted_file). fold started.
  destruct started as [proc|e].
  2:{ eexists. eexists. exists 2. split; [reflexivity|]. cbn [spawned firstn].
      rewrite <- app_assoc. cbn [app].
      split; [now left|]. split; [reflexivity|]. intros _. split; reflexivity. }
  unfold bind at 1.
  match goal with |- context [monitor_video ?a ?b ?c ?d ?e w ?s1] =>
    destruct (monitor_video_outcome a b c d e w s1)
      as (col & s3 & Hm & Hcol & Hs3 & Hn3)
  end.
  rewrite Hm. cbn [spawned] in Hs3. rewrite <- app_assoc in Hs3. cbn [app] in Hs3.
  destruct col as [text|].
  2:{ eexists. eexists. exists 2. split; [reflexivity|]. cbn [firstn].
      split; [now left|]. split; [exact Hs3|]. intros Hns. now specialize (Hn3 Hns). }
  destruct Hcol as [Hcol|Hcol]; [discriminate|]. injection Hcol as ->.
  unfold collected_text. cbn [append].
  destruct (returncode proc =? 0)%Z; cbn [negb].
  - pose proof (parse_single_video_output_value
                  (String.concat "" (stderr_reads proc) +++ stderr_rest proc)
                  metric comparison_type row_idx w s3) as Hv.
    destruct (parse_single_video_output _ _ _ _ w s3) as [r s4] eqn:Hp.
    cbn [fst] in Hv. subst r.
    apply spawned_parse_single_video_output in Hp.
    eexists. eexists. exists 2. split; [reflexivity|]. split; [now right|].
    cbn [firstn]. rewrite Hp, Hs3. split; [reflexivity|]. intros _. split; reflexivity.
  - eexists. eexists. exists 2. split; [reflexivity|]. cbn [spawned firstn].
    rewrite Hs3. split; [now left|]. split; [reflexivity|]. intros _. split; reflexivity.
Qed.

(** X1.  A directional audio pass returns without raising and starts at most
    one process, the PSNR comparison of its two files.  Its result is [None]
    or the score of that process; with no stop request it starts exactly that
    process and returns its score.  The score of a process that could not be
    started, or that ended with a non-zero exit code, is [None] whatever it
    printed; otherwise it is what the audio parser reads in all the process
    printed, the lines read by the loop followed by the rest. *)
Theorem run_single_audio_comparison_outcome
    (reference_file distorted_file comparison_type : string) (row_idx : nat)
    (w : env) (s : state) :
  let started :=
    spawn w (length (spawned s)) (apsnr_cmd reference_file distorted_file) in
  (exists r s',
      run_single_audio_comparison reference_file distorted_file comparison_type
        row_idx w s = (Ok r, s')
      /\ (r = None \/ r = audio_pass_score started)
      /\ (spawned s' = spawned s
          \/ spawned s' = spawned s ++ [apsnr_cmd reference_file distorted_file])
      /\ ((forall n, stop_event w n = false) ->
          r = audio_pass_score started
          /\ spawned s' = spawned s ++ [apsnr_cmd reference_file distorted_file]))
  /\ (forall e, audio_pass_score (Raise e) = None)
  /\ (forall p, returncode p <> 0%Z -> audio_pass_score (Ok p) = None)
  /\ (forall p, returncode p = 0%Z ->
                audio_pass_score (Ok p) = audio_tiers (collected_text p)).
Proof.
  intros started. split; [apply run_single_audio_comparison_run|].
  split; [reflexivity|]. split.
  - intros p Hp. cbn [audio_pass_score].
    destruct (returncode p =? 0)%Z eqn:H; [|reflexivity].
    apply Z.eqb_eq in H. contradiction.
  - intros p Hp. cbn [audio_pass_score]. now rewrite Hp.
Qed.

(** X2.  A directional video pass returns without raising.  It first runs the
    frame query on the reference file and then the comparison; its result is
    [None] or the score of these two processes, and with no stop request it
    is that score.  When the frame query cannot be started, or prints digits
    that [int] refuses, the comparison is never started and the score is
    [None].  Otherwise the score does not depend on the frame count: it is
    [None] when the comparison could not be started or ended with a non-zero
    exit code, and else what the parser of the metric reads in all the
    comparison printed. *)
Theorem run_single_video_comparison_outcome
    (reference_file distorted_file metric comparison_type : string)
    (row_idx : nat) (w : env) (s : state) :
  let probe := spawn w (length (spawned s)) (ffprobe_cmd reference_file) in
  let started := spawn w (S (length (spawned s)))
                   (video_cmd metric reference_file distorted_file) in
  (exists r s' k,
      run_single_video_comparison reference_file distorted_file metric
        comparison_type row_idx w s = (Ok r, s')
      /\ (r = None \/ r = video_pass_score metric probe started)
      /\ spawned s'
         = spawned s
           ++ firstn k (video_pass_cmds metric reference_file distorted_file probe)
      /\ ((forall n, stop_event w n = false) ->
          r = video_pass_score metric probe started
          /\ spawned s'
             = spawned s
               ++ video_pass_cmds metric reference_file distorted_file probe))
  /\ (forall q e run,
        q = Raise e \/ (exists p, q = Ok p /\ frames_of p = Raise e) ->
        video_pass_score metric q run = None
        /\ video_pass_cmds metric reference_file distorted_file q
           = [ffprobe_cmd reference_file])
  /\ frames_of (probe_process (String (ascii_of_nat 178) "")) = Raise ValueError
  /\ (forall q n,
        frames_of q = Ok n ->
        video_pass_cmds metric reference_file distorted_file (Ok q)
        = [ffprobe_cmd reference_file;
           video_cmd metric reference_file distorted_file]
        /\ (forall e, video_pass_score metric (Ok q) (Raise e) = None)
        /\ (forall p, returncode p <> 0%Z ->
                      video_pass_score metric (Ok q) (Ok p) = None)
        /\ (forall p, returncode p = 0%Z ->
                      video_pass_score metric (Ok q) (Ok p)
                      = video_tiers metric (collected_text p))).
Proof.
  intros probe started. split; [apply run_single_video_comparison_run|].
  split; [|split; [reflexivity|]].
  - intros q e run [-> | (p & -> & Hp)]; unfold video_pass_score, video_pass_cmds;
      [|rewrite Hp]; split; reflexivity.
  - intros q n Hq. unfold video_pass_score, video_pass_cmds. rewrite Hq.
    split; [reflexivity|]. split; [reflexivity|]. split.
    + intros p Hp. destruct (returncode p =? 0)%Z eqn:H; [|reflexivity].
      apply Z.eqb_eq in H. contradiction.
    + intros p Hp. now rewrite Hp.
Qed.

(** A comparison that prints a score and then fails yields nothing; the same
    output with exit code 0 yields the score. *)
Example pass_scores_examples :
  let printed code :=
    {| stderr_reads := ["size=N/A" +++ newline; "PSNR ch0: 45.25 dB" +++ newline];
       stderr_rest := ""; stdout := ""; returncode := code |} in
  audio_pass_score (Ok (printed 1%Z)) = None
  /\ audio_pass_score (Ok (printed 0%Z)) = Some 45.25%float
  /\ video_pass_score "VMAF" (Ok (probe_process "250"))
       (Ok (report_process ["VMAF score: 91.5"])) = Some 91.5%float
  /\ video_pass_score "SSIM" (Ok (probe_process ""))
       (Ok (report_process ["n:1 Y:0.9 All:0.875 (9.0)"])) = Some 0.875%float
  /\ video_pass_score "VMAF" (Raise OSError)
       (Ok (report_process ["VMAF score: 91.5"])) = None.
Proof. repeat split. Qed.

End Runner.

(** ** The outcome of a row *)

Section RowOutcome.

Local Infix "+++" := String.append (right associativity, at level 60).

Lemma bind_ok {A B} (c : M A) (k : A -> M B) w s a s1 :
  c w s = (Ok a, s1) -> bind c k w s = k a w s1.
Proof. intros H. unfold bind. now rewrite H. Qed.

Lemma determine_video_winner_value l r metric row_idx w s :
  exists s',
    determine_video_winner l r metric row_idx w s
    = (Ok (video_decision metric l r), s')
    /\ spawned s' = spawned s.
Proof.
  unfold determine_video_winner, video_decision, band_winner, try_except, bind,
    log_put, ret.
  destruct l as [a|], r as [b|]; try (eexists; split; reflexivity).
  destruct (String.eqb metric "VMAF"); eexists; split; reflexivity.
Qed.

Section Responding.

Variables (w : env) (respond : list string -> result process).
Hypothesis never : forall n, stop_event w n = false.
Hypothesis responds : forall n cmd, spawn w n cmd = respond cmd.

Lemma run_video_comparison_responding left_file right_file metric row_idx s :
  exists s',
    run_video_comparison left_file right_file metric row_idx w s
    = (Ok (video_decision metric
             (video_pass respond metric left_file right_file)
             (video_pass respond metric right_file left_file)), s')
    /\ spawned s'
       = spawned s
         ++ video_pass_cmds metric left_file right_file (respond (ffprobe_cmd left_file))
         ++ video_pass_cmds metric right_file left_file
              (respond (ffprobe_cmd right_file)).
Proof.
  unfold run_video_comparison, try_except.
  unfold bind at 1. unfold is_set at 1. rewrite never.
  unfold bind at 1. unfold log_put at 1.
  unfold bind at 1. unfold update_progress at 1.
  unfold bind at 1.
  match goal with |- context [run_single_video_comparison ?a ?b ?c ?d ?e w ?s1] =>
    destruct (run_single_video_comparison_run a b c d e w s1)
      as (r1 & s2 & k1 & Hr1 & _ & _ & Hn1)
  end.
  destruct (Hn1 never) as [-> Hs2]. clear Hn1. rewrite Hr1.
  rewrite !responds in Hs2. rewrite !responds. cbn [spawned] in Hs2.
  unfold bind at 1. unfold is_set at 1. rewrite never.
  unfold bind at 1. unfold update_progress at 1.
  unfold bind at 1. unfold log_put at 1.
  unfold bind at 1.
  match goal with |- context [run_single_video_comparison ?a ?b ?c ?d ?e w ?s1] =>
    destruct (run_single_video_comparison_run a b c d e w s1)
      as (r2 & s3 & k2 & Hr2 & _ & _ & Hn2)
  end.
  destruct (Hn2 never) as [-> Hs3]. clear Hn2. rewrite Hr2.
  rewrite !responds in Hs3. rewrite !responds. cbn [spawned] in Hs3.
  unfold bind at 1. unfold is_set at 1. rewrite never.
  unfold bind at 1. unfold update_progress at 1.
  match goal with |- context [determine_video_winner ?a ?b ?c ?d w ?s1] =>
    destruct (determine_video_winner_value a b c d w s1) as (s4 & Hd & Hs4)
  end.
  rewrite Hd. cbn [spawned] in Hs4.
  exists s4. split; [reflexivity|].
  now rewrite Hs4, Hs3, Hs2, <- app_assoc.
Qed.

Lemma determine_audio_winner_responding l r row_idx s :
  exists s',
    determine_audio_winner l r row_idx w s
    = (Ok (audio_decision l r
             (fallback_decision respond (left_files w) (right_files w) row_idx)), s')
    /\ spawned s'
       = spawned s
         ++ match l, r with
            | Some _, Some _ => []
            | _, _ => fallback_cmds (left_files w) (right_files w) row_idx
            end.
Proof.
  assert (Hfb : exists s',
             try_except
               (lefts <- get_left_files ;;
                lf <- index lefts row_idx ;;
                rights <- get_right_files ;;
                rf <- index rights row_idx ;;
                run_audio_analysis_fallback lf rf row_idx)
               (fun e =>
                  log_put "ERROR"
                    [T "Row "; row_number row_idx;
                     T ": Error determining audio winner: "; E e] ;;
                  ret tie_result) w s
             = (Ok (fallback_decision respond (left_files w) (right_files w) row_idx),
                s')
             /\ spawned s'
                = spawned s ++ fallback_cmds (left_files w) (right_files w) row_idx).
  { unfold fallback_decision, fallback_cmds, try_except, bind, get_left_files,
      get_right_files, index.
    destruct (nth_error (left_files w) row_idx) as [lf|].
    2:{ eexists. split; [reflexivity|]. cbn [spawned]. now rewrite app_nil_r. }
    unfold ret at 1. cbv beta iota.
    destruct (nth_error (right_files w) row_idx) as [rf|].
    2:{ eexists. split; [reflexivity|]. cbn [spawned]. now rewrite app_nil_r. }
    unfold ret at 1. cbv beta iota.
    destruct (run_audio_analysis_fallback_never_stopped lf rf row_idx w s never)
      as (s' & H & Hs).
    rewrite H, !responds. exists s'. split; [reflexivity | exact Hs]. }
  destruct l as [a|]; [destruct r as [b|]|]; try exact Hfb.
  unfold determine_audio_winner, audio_decision, band_winner, try_except, bind,
    log_put, ret.
  eexists. split; [reflexivity|]. cbn [spawned]. now rewrite app_nil_r.
Qed.

Lemma run_audio_comparison_responding left_file right_file row_idx s :
  exists s',
    run_audio_comparison left_file right_file row_idx w s
    = (Ok (audio_decision (audio_pass respond left_file right_file)
             (audio_pass respond right_file left_file)
             (fallback_decision respond (left_files w) (right_files w) row_idx)), s')
    /\ spawned s'
       = spawned s
         ++ [apsnr_cmd left_file right_file; apsnr_cmd right_file left_file]
         ++ match audio_pass respond left_file right_file,
                  audio_pass respond right_file left_file with
            | Some _, Some _ => []
            | _, _ => fallback_cmds (left_files w) (right_files w) row_idx
            end.
Proof.
  unfold run_audio_comparison, try_except.
  unfold bind at 1. unfold is_set at 1. rewrite never.
  unfold bind at 1. unfold log_put at 1.
  unfold bind at 1. unfold update_progress at 1.
  unfold bind at 1.
  match goal with |- context [run_single_audio_comparison ?a ?b ?c ?d w ?s1] =>
    destruct (run_single_audio_comparison_run a b c d w s1)
      as (r1 & s2 & Hr1 & _ & _ & Hn1)
  end.
  destruct (Hn1 never) as [-> Hs2]. clear Hn1. rewrite Hr1.
  rewrite ?responds in Hs2. rewrite !responds. cbn [spawned] in Hs2.
  unfold bind at 1. unfold is_set at 1. rewrite never.
  unfold bind at 1. unfold update_progress at 1.
  unfold bind at 1. unfold log_put at 1.
  unfold bind at 1.
  match goal with |- context [run_single_audio_comparison ?a ?b ?c ?d w ?s1] =>
    destruct (run_single_audio_comparison_run a b c d w s1)
      as (r2 & s3 & Hr2 & _ & _ & Hn2)
  end.
  destruct (Hn2 never) as [-> Hs3]. clear Hn2. rewrite Hr2.
  rewrite ?responds in Hs3. rewrite !responds. cbn [spawned] in Hs3.
  unfold bind at 1. unfold is_set at 1. rewrite never.
  unfold bind at 1. unfold update_progress at 1.
  match goal with |- context [determine_audio_winner ?a ?b ?c w ?s1] =>
    destruct (determine_audio_winner_responding a b c s1) as (s4 & Hd & Hs4)
  end.
  fold (audio_pass respond left_file right_file) in *.
  fold (audio_pass respond right_file left_file) in *.
  rewrite Hd. cbn [spawned] in Hs4.
  exists s4. split; [reflexivity|].
  rewrite Hs4, Hs3, Hs2, <- !app_assoc. reflexivity.
Qed.

Lemma compare_row_responding row_idx left_file right_file metric s :
  current_metric w = Ok metric ->
  exists s',
    compare_row row_idx left_file right_file w s
    = (Ok (Some (row_outcome respond (left_files w) (right_files w) metric row_idx
                   left_file right_file)), s')
    /\ spawned s'
       = spawned s
         ++ row_cmds respond (left_files w) (right_files w) metric row_idx
              left_file right_file.
Proof.
  intros Hmetric.
  unfold compare_row, try_except.
  unfold bind at 1. unfold is_set at 1. rewrite never.
  unfold bind at 1. unfold log_put at 1.
  unfold bind at 1. unfold update_progress at 1.
  unfold bind at 1. unfold get_current_metric at 1. rewrite Hmetric.
  unfold bind at 1.
  match goal with |- context [run_video_comparison ?a ?b ?c ?d w ?s1] =>
    destruct (run_video_comparison_responding a b c d s1) as (s2 & Hv & Hs2)
  end.
  rewrite Hv. cbn [spawned] in Hs2.
  unfold bind at 1. unfold is_set at 1. rewrite never.
  unfold bind at 1. unfold update_progress at 1.
  unfold bind at 1. unfold update_progress at 1.
  unfold bind at 1.
  match goal with |- context [run_audio_comparison ?a ?b ?c w ?s1] =>
    destruct (run_audio_comparison_responding a b c s1) as (s3 & Ha & Hs3)
  end.
  rewrite Ha. cbn [spawned] in Hs3.
  unfold bind at 1. unfold is_set at 1. rewrite never.
  unfold bind at 1. unfold update_progress at 1.
  unfold bind at 1. unfold log_put at 1.
  unfold ret at 1.
  eexists. split; [reflexivity|]. cbn [spawned].
  unfold row_cmds. rewrite Hs3, Hs2, <- !app_assoc. reflexivity.
Qed.

End Responding.

(** X3.  With no stop request, when what each process does depends on its
    command only and the metric selector can be read, a row returns a
    complete record and starts, in this order: the frame query and the video
    comparison with the left file as reference, the same with the right file
    as reference, the audio PSNR comparison in the two directions, and, only
    when an audio score is unavailable, the loudness measurement of the two
    files the lists hold at the index of the row.  The record is built from
    the decision on the two directional video scores and from the decision on
    the two directional audio scores or, failing one, on the two loudness
    values.  In particular the left score of the record is the score
    measured with the left file as reference. *)
Theorem compare_row_outcome
    (respond : list string -> result process) (row_idx : nat)
    (left_file right_file metric : string) (w : env) (s : state) :
  (forall n, stop_event w n = false) ->
  (forall n cmd, spawn w n cmd = respond cmd) ->
  current_metric w = Ok metric ->
  let record := row_outcome respond (left_files w) (right_files w) metric row_idx
                  left_file right_file in
  (exists s',
      compare_row row_idx left_file right_file w s = (Ok (Some record), s')
      /\ spawned s'
         = spawned s
           ++ row_cmds respond (left_files w) (right_files w) metric row_idx
                left_file right_file)
  /\ (forall a b,
        video_pass respond metric left_file right_file = Some a ->
        video_pass respond metric right_file left_file = Some b ->
        dict_get record "video_score_left" (Int 0) = Num a
        /\ dict_get record "video_score_right" (Int 0) = Num b
        /\ dict_get record "video_winner" (Str "")
           = Str (band_winner a b (if String.eqb metric "VMAF" then 2.0 else 0.01)))
  /\ (video_pass respond metric left_file right_file = None
      \/ video_pass respond metric right_file left_file = None ->
      dict_get record "video_score_left" (Str "") = Int 0
      /\ dict_get record "video_score_right" (Str "") = Int 0
      /\ dict_get record "video_winner" (Str "") = Str "tie")
  /\ (forall a b,
        audio_pass respond left_file right_file = Some a ->
        audio_pass respond right_file left_file = Some b ->
        dict_get record "audio_score_left" (Int 0) = Num a
        /\ dict_get record "audio_score_right" (Int 0) = Num b
        /\ dict_get record "audio_winner" (Str "") = Str (band_winner a b 1.0)).
Proof.
  intros Hnever Hresp Hmetric record. split.
  { now apply compare_row_responding. }
  subst record. unfold row_outcome, row_result.
  split; [|split].
  - intros a b -> ->. cbn. repeat split.
  - intros [-> | ->]; [|destruct (video_pass respond metric left_file right_file)];
      cbn; repeat split.
  - intros a b -> ->. cbn. repeat split.
Qed.

(** A row of two files under VMAF where every tool answers: six processes,
    and the left file wins both decisions. *)
Lemma compare_row_outcome_witness :
  (forall n, stop_event (responding_env never_stopped sample_tools ["a.mp4"] ["b.mp4"] "VMAF") n
             = false)
  /\ (forall n cmd,
        spawn (responding_env never_stopped sample_tools ["a.mp4"] ["b.mp4"] "VMAF") n cmd
        = sample_tools cmd)
  /\ current_metric (responding_env never_stopped sample_tools ["a.mp4"] ["b.mp4"] "VMAF") = Ok "VMAF"
  /\ exists s',
       compare_row 0 "a.mp4" "b.mp4"
         (responding_env never_stopped sample_tools ["a.mp4"] ["b.mp4"] "VMAF") initial_state
       = (Ok (Some [("video_winner", Str "left"); ("audio_winner", Str "left");
                    ("video_score_left", Num 91.5); ("video_score_right", Num 88.0);
                    ("audio_score_left", Num 40.0); ("audio_score_right", Num 37.5)]),
          s')
       /\ spawned s'
          = [ffprobe_cmd "a.mp4"; vmaf_cmd "a.mp4" "b.mp4";
             ffprobe_cmd "b.mp4"; vmaf_cmd "b.mp4" "a.mp4";
             apsnr_cmd "a.mp4" "b.mp4"; apsnr_cmd "b.mp4" "a.mp4"].
Proof.
  split; [reflexivity|]. split; [reflexivity|]. split; [reflexivity|].
  exact (proj1 (compare_row_outcome sample_tools 0 "a.mp4" "b.mp4" "VMAF"
                  (responding_env never_stopped sample_tools ["a.mp4"] ["b.mp4"] "VMAF")
                  initial_state (fun _ => eq_refl) (fun _ _ => eq_refl) eq_refl)).
Defined.

End RowOutcome.

(** ** Cancellation of a stage *)

Section Cancel.

Lemma flag_reads_determine_video_winner l r metric row_idx :
  keeps flag_reads (determine_video_winner l r metric row_idx).
Proof. unfold determine_video_winner. keeps_auto. Qed.

Lemma ends_unset_same w s s' :
  flag_reads s' = flag_reads s -> ends_unset w s -> ends_unset w s'.
Proof. intros H (before & site & Hb & Hs). exists before, site. now rewrite H. Qed.

(** When the last read found the flag unset and the flag stays set once it
    is set, no read found it set. *)
Lemma ends_unset_all_false P w s s' new site b :
  set_once (stop_event w) ->
  reads_extend P w s s' ->
  ends_unset w s' ->
  flag_reads s' = flag_reads s ++ new ->
  In (site, b) new -> b = false.
Proof.
  intros Hset (new' & Hnew' & K) (before & site0 & Hb & Hlast) Hnew Hin.
  rewrite Hnew' in Hnew. apply app_inv_head in Hnew. subst new'.
  apply In_nth_error in Hin as [i Hi].
  assert (Hlen : i < length new) by (apply nth_error_Some; congruence).
  apply K in Hi as [_ Hi].
  destruct b; [|reflexivity]. exfalso.
  symmetry in Hi. apply (Hset _ (length before)) in Hi; [congruence|].
  assert (Hl : length (flag_reads s') = length before + 1)
    by (rewrite Hb, length_app; reflexivity).
  rewrite Hnew', length_app in Hl. lia.
Qed.

Lemma run_audio_analysis_fallback_clear left_file right_file row_idx w s d s' :
  run_audio_analysis_fallback left_file right_file row_idx w s = (Ok d, s') ->
  d = tie_result \/ ends_unset w s'.
Proof.
  unfold run_audio_analysis_fallback, try_except.
  match goal with |- context [?body w s] =>
    destruct (body w s) as [[d0|e] s1] eqn:Hb
  end.
  2:{ intros H. unfold bind, log_put, ret in H. injection H as <- _. now left. }
  intros H. injection H as -> ->.
  unfold bind at 1 in Hb. unfold is_set at 1 in Hb.
  destruct (stop_event w (length (flag_reads s))); [injection Hb as <- _; now left|].
  unfold bind at 1 in Hb.
  match type of Hb with context [get_audio_loudness ?a ?b w ?sA] =>
    destruct (get_audio_loudness a b w sA) as [[ll|ex] s2]; [|discriminate]
  end.
  unfold bind at 1 in Hb. unfold is_set at 1 in Hb.
  destruct (stop_event w (length (flag_reads s2))); [injection Hb as <- _; now left|].
  unfold bind at 1 in Hb.
  match type of Hb with context [get_audio_loudness ?a ?b w ?sA] =>
    destruct (get_audio_loudness a b w sA) as [[rl|ex] s3]; [|discriminate]
  end.
  unfold bind at 1 in Hb. unfold is_set at 1 in Hb.
  destruct (stop_event w (length (flag_reads s3))) eqn:Hc3;
    [injection Hb as <- _; now left|].
  destruct ll as [x|], rl as [y|];
    try (injection Hb as <- _; now left).
  unfold bind, log_put, ret in Hb. injection Hb as _ <-. cbn [flag_reads].
  right. exists (flag_reads s3), "run_audio_analysis_fallback". split; [reflexivity|assumption].
Qed.

Lemma determine_audio_winner_clear l r row_idx w s d s' :
  determine_audio_winner l r row_idx w s = (Ok d, s') ->
  ends_unset w s ->
  d = tie_result \/ ends_unset w s'.
Proof.
  assert (Hfb :
            try_except
              (lefts <- get_left_files ;;
               lf <- index lefts row_idx ;;
               rights <- get_right_files ;;
               rf <- index rights row_idx ;;
               run_audio_analysis_fallback lf rf row_idx)
              (fun e =>
                 log_put "ERROR"
                   [T "Row "; row_number row_idx;
                    T ": Error determining audio winner: "; E e] ;;
                 ret tie_result) w s = (Ok d, s') ->
            d = tie_result \/ ends_unset w s').
  { unfold try_except.
    match goal with |- context [?body w s] =>
      destruct (body w s) as [[d0|e] s1] eqn:Hb
    end.
    2:{ intros H. unfold bind, log_put, ret in H. injection H as <- _. now left. }
    intros H. injection H as -> ->.
    unfold bind, get_left_files, get_right_files, index in Hb.
    destruct (nth_error (left_files w) row_idx) as [lf|]; [|discriminate].
    unfold ret at 1 in Hb. cbv beta iota in Hb.
    destruct (nth_error (right_files w) row_idx) as [rf|]; [|discriminate].
    unfold ret at 1 in Hb. cbv beta iota in Hb.
    now apply run_audio_analysis_fallback_clear in Hb. }
  destruct l as [a|]; [destruct r as [b|]|]; try (intros H _; now apply Hfb).
  intros H Hs. right.
  unfold determine_audio_winner, try_except, bind, log_put, ret in H.
  injection H as _ <-. now apply (ends_unset_same w s).
Qed.

Lemma run_audio_comparison_clear left_file right_file row_idx w s d s' :
  run_audio_comparison left_file right_file row_idx w s = (Ok d, s') ->
  d = tie_result \/ ends_unset w s'.
Proof.
  unfold run_audio_comparison, try_except.
  match goal with |- context [?body w s] =>
    destruct (body w s) as [[d0|e] s1] eqn:Hb
  end.
  2:{ intros H. unfold bind, log_put, ret in H. injection H as <- _. now left. }
  intros H. injection H as -> ->.
  unfold bind at 1 in Hb. unfold is_set at 1 in Hb.
  destruct (stop_event w (length (flag_reads s))); [injection Hb as <- _; now left|].
  unfold bind at 1 in Hb. unfold log_put at 1 in Hb.
  unfold bind at 1 in Hb. unfold update_progress at 1 in Hb.
  unfold bind at 1 in Hb.
  match type of Hb with context [run_single_audio_comparison ?a ?b ?c ?d w ?sA] =>
    destruct (run_single_audio_comparison a b c d w sA) as [[r1|ex] s2]; [|discriminate]
  end.
  unfold bind at 1 in Hb. unfold is_set at 1 in Hb.
  destruct (stop_event w (length (flag_reads s2))); [injection Hb as <- _; now left|].
  unfold bind at 1 in Hb. unfold update_progress at 1 in Hb.
  unfold bind at 1 in Hb. unfold log_put at 1 in Hb.
  unfold bind at 1 in Hb.
  match type of Hb with context [run_single_audio_comparison ?a ?b ?c ?d w ?sA] =>
    destruct (run_single_audio_comparison a b c d w sA) as [[r2|ex] s3]; [|discriminate]
  end.
  unfold bind at 1 in Hb. unfold is_set at 1 in Hb.
  destruct (stop_event w (length (flag_reads s3))) eqn:Hc3;
    [injection Hb as <- _; now left|].
  unfold bind at 1 in Hb. unfold update_progress at 1 in Hb.
  apply determine_audio_winner_clear in Hb; [exact Hb|].
  exists (flag_reads s3), "run_audio_comparison". split; [reflexivity|assumption].
Qed.

Lemma flag_reads_extract_ffmpeg_progress line row_idx media_type comparison_type total :
  keeps flag_reads (extract_ffmpeg_progress line row_idx media_type comparison_type total).
Proof. unfold extract_ffmpeg_progress. keeps_auto. Qed.

Lemma flag_reads_get_total_frames video_path :
  keeps flag_reads (get_total_frames video_path).
Proof. unfold get_total_frames. keeps_auto. Qed.

Lemma flag_reads_parse_single_video_output output metric comparison_type row_idx :
  keeps flag_reads (parse_single_video_output output metric comparison_type row_idx).
Proof.
  assert (forall lines, keeps flag_reads (ssim_scan_lines lines comparison_type row_idx)).
  { induction lines as [|line lines IH]; cbn [ssim_scan_lines]; keeps_auto. }
  unfold parse_single_video_output, parse_single_vmaf_output, parse_single_ssim_output.
  keeps_auto.
Qed.

(** A reading loop that collects a text has found the flag unset at each of
    its reads. *)
Lemma monitor_video_text reads text row_idx comparison_type total w s text' s' :
  monitor_video reads text row_idx comparison_type total w s = (Ok (Some text'), s') ->
  exists new,
    flag_reads s' = flag_reads s ++ new /\ forall site, ~ In (site, true) new.
Proof.
  revert text s. induction reads as [|output reads IH]; intros text s;
    cbn [monitor_video]; unfold bind at 1; unfold is_set at 1;
    destruct (stop_event w (length (flag_reads s))); try discriminate.
  - intros H. injection H as _ <-. cbn [flag_reads].
    eexists. split; [reflexivity|]. intros site [H|[]]. discriminate.
  - assert (Hstep : forall t s1,
               flag_reads s1 = flag_reads s ++ [("run_single_video_comparison", false)] ->
               monitor_video reads t row_idx comparison_type total w s1
               = (Ok (Some text'), s') ->
               exists new,
                 flag_reads s' = flag_reads s ++ new
                 /\ forall site, ~ In (site, true) new).
    { intros t s1 Hs1 Hrun. apply IH in Hrun as (new & Hnew & Hnone).
      exists (("run_single_video_comparison", false) :: new). split.
      - rewrite Hnew, Hs1, <- app_assoc. reflexivity.
      - intros site [H|H]; [discriminate | now apply (Hnone site)]. }
    destruct output as [|c output].
    + apply Hstep. reflexivity.
    + unfold bind at 1.
      match goal with |- context [extract_ffmpeg_progress ?a ?b ?m ?d ?t w ?s1] =>
        destruct (extract_ffmpeg_progress a b m d t w s1) as [[u|e0] s2] eqn:He;
        apply flag_reads_extract_ffmpeg_progress in He
      end; [|discriminate].
      apply Hstep. exact He.
Qed.

(** A directional video pass that returns a score has found the flag unset
    at each of its reads. *)
Lemma run_single_video_comparison_some reference_file distorted_file metric
    comparison_type row_idx w s x s' :
  run_single_video_comparison reference_file distorted_file metric comparison_type
    row_idx w s = (Ok (Some x), s') ->
  exists new,
    flag_reads s' = flag_reads s ++ new /\ forall site, ~ In (site, true) new.
Proof.
  unfold run_single_video_comparison, try_except.
  match goal with |- context [?body w s] =>
    destruct (body w s) as [[r|e] s1] eqn:Hb
  end.
  2:{ unfold bind, log_put, ret. discriminate. }
  intros H. injection H as -> ->.
  unfold bind at 1 in Hb. unfold is_set at 1 in Hb.
  destruct (stop_event w (length (flag_reads s))); [discriminate|].
  cbv zeta in Hb. unfold bind at 1 in Hb.
  match type of Hb with context [get_total_frames ?a w ?sA] =>
    destruct (get_total_frames a w sA) as [[frames|e] s2] eqn:Hg;
    apply flag_reads_get_total_frames in Hg
  end; [|discriminate].
  cbn [flag_reads] in Hg.
  unfold bind at 1 in Hb. unfold popen at 1 in Hb.
  match type of Hb with context [spawn w ?n ?cmd] =>
    destruct (spawn w n cmd) as [proc|e]
  end; [|discriminate].
  unfold bind at 1 in Hb.
  match type of Hb with context [monitor_video ?a ?b ?c ?d ?t w ?sA] =>
    destruct (monitor_video a b c d t w sA) as [[[text|]|ex] s4] eqn:Hm
  end; try discriminate.
  apply monitor_video_text in Hm as (new & Hnew & Hnone).
  cbn [flag_reads] in Hnew. rewrite Hg in Hnew.
  assert (Hs' : flag_reads s' = flag_reads s4).
  { destruct (negb _) in Hb.
    - unfold bind, log_put, ret in Hb. discriminate.
    - now apply flag_reads_parse_single_video_output in Hb. }
  exists (("run_single_video_comparison", false) :: new). split.
  - rewrite Hs', Hnew, <- app_assoc. reflexivity.
  - intros site [H|H]; [discriminate | now apply (Hnone site)].
Qed.

(** The video stage names a winner only when no read of the flag made during
    the stage found it set. *)
Lemma run_video_comparison_stopped left_file right_file metric row_idx w s d s' new :
  run_video_comparison left_file right_file metric row_idx w s = (Ok d, s') ->
  flag_reads s' = flag_reads s ++ new ->
  (exists site, In (site, true) new) ->
  d = tie_result.
Proof.
  unfold run_video_comparison, try_except.
  match goal with |- context [?body w s] =>
    destruct (body w s) as [[d0|e] s1] eqn:Hb
  end.
  2:{ intros H. unfold bind, log_put, ret in H. now injection H as <- _. }
  intros H. injection H as -> ->. intros Hnew Hfound.
  unfold bind at 1 in Hb. unfold is_set at 1 in Hb.
  destruct (stop_event w (length (flag_reads s))); [now injection Hb as <- _|].
  unfold bind at 1 in Hb. unfold log_put at 1 in Hb.
  unfold bind at 1 in Hb. unfold update_progress at 1 in Hb.
  unfold bind at 1 in Hb.
  match type of Hb with context [run_single_video_comparison ?a ?b ?c ?d ?i w ?sA] =>
    destruct (run_single_video_comparison a b c d i w sA) as [[r1|ex] s2] eqn:H1;
      [|discriminate]
  end.
  unfold bind at 1 in Hb. unfold is_set at 1 in Hb.
  destruct (stop_event w (length (flag_reads s2))); [now injection Hb as <- _|].
  unfold bind at 1 in Hb. unfold update_progress at 1 in Hb.
  unfold bind at 1 in Hb. unfold log_put at 1 in Hb.
  unfold bind at 1 in Hb.
  match type of Hb with context [run_single_video_comparison ?a ?b ?c ?d ?i w ?sA] =>
    destruct (run_single_video_comparison a b c d i w sA) as [[r2|ex] s3] eqn:H2;
      [|discriminate]
  end.
  unfold bind at 1 in Hb. unfold is_set at 1 in Hb.
  destruct (stop_event w (length (flag_reads s3))); [now injection Hb as <- _|].
  unfold bind at 1 in Hb. unfold update_progress at 1 in Hb.
  pose proof (flag_reads_determine_video_winner _ _ _ _ _ _ _ _ Hb) as Hlast.
  cbn [flag_reads] in Hlast.
  destruct r1 as [a|]; [destruct r2 as [b|]|].
  - exfalso.
    apply run_single_video_comparison_some in H1 as (n1 & Hn1 & Hnone1).
    apply run_single_video_comparison_some in H2 as (n2 & Hn2 & Hnone2).
    cbn [flag_reads] in Hn1, Hn2.
    rewrite Hlast, Hn2, Hn1, <- !app_assoc in Hnew. apply app_inv_head in Hnew.
    destruct Hfound as (site & Hin). rewrite <- Hnew in Hin. cbn [app] in Hin.
    destruct Hin as [H|Hin]; [discriminate|].
    apply in_app_or in Hin as [Hin|[H|Hin]];
      [now apply (Hnone1 site) | discriminate |].
    apply in_app_or in Hin as [Hin|[H|[]]];
      [now apply (Hnone2 site) | discriminate].
  - unfold determine_video_winner, try_except, ret in Hb. now injection Hb as <- _.
  - unfold determine_video_winner, try_except, ret in Hb.
    destruct r2; now injection Hb as <- _.
Qed.

(** X4.  The two stages of a row return without raising.  When some
    read of the stop flag made during the video stage, in the stage itself
    or in one of its passes, finds it set, the stage returns the placeholder
    of a tie with both scores 0, whatever the later reads find.  The audio
    stage does so when the flag stays set once it is set: a cancelled stage
    never names a winner on partial measurements. *)
Theorem cancelled_stage_is_tie
    (left_file right_file metric : string) (row_idx : nat) (w : env) (s : state) :
  (exists d s' new,
      run_video_comparison left_file right_file metric row_idx w s = (Ok d, s')
      /\ flag_reads s' = flag_reads s ++ new
      /\ ((exists site, In (site, true) new) -> d = tie_result))
  /\ (exists d s' new,
        run_audio_comparison left_file right_file row_idx w s = (Ok d, s')
        /\ flag_reads s' = flag_reads s ++ new
        /\ (set_once (stop_event w) ->
            (exists site, In (site, true) new) -> d = tie_result)).
Proof.
  split.
  - assert (Hret : exists d s',
               run_video_comparison left_file right_file metric row_idx w s = (Ok d, s')).
    { unfold run_video_comparison. apply try_except_returns.
      intros. apply log_then_ret_returns. }
    destruct Hret as (d & s' & Hrun).
    pose proof (tracks_run_video_comparison _ _ _ _ _ _ _ _ Hrun) as (new & Hnew & _).
    exists d, s', new. split; [exact Hrun|]. split; [exact Hnew|].
    now apply (run_video_comparison_stopped _ _ _ _ _ _ _ _ _ Hrun).
  - assert (Hret : exists d s',
               run_audio_comparison left_file right_file row_idx w s = (Ok d, s')).
    { unfold run_audio_comparison. apply try_except_returns.
      intros. apply log_then_ret_returns. }
    destruct Hret as (d & s' & Hrun).
    pose proof (tracks_run_audio_comparison _ _ _ _ _ _ _ Hrun) as Htr.
    pose proof Htr as (new & Hnew & _).
    exists d, s', new. split; [exact Hrun|]. split; [exact Hnew|].
    intros Hset (site & Hin).
    apply run_audio_comparison_clear in Hrun as [Hd|Hclear]; [exact Hd|].
    pose proof (ends_unset_all_false _ _ _ _ _ _ _ Hset Htr Hclear Hnew Hin).
    discriminate.
Qed.

(** The stop request arrives while the first video pass reads its process:
    the stage returns the placeholder and the second pass is never started,
    although the tools would have named the left file the winner. *)
Example cancelled_stage_example :
  run_video_comparison "a.mp4" "b.mp4" "VMAF" 0
    (responding_env (stopped_from 2) sample_tools ["a.mp4"] ["b.mp4"] "VMAF")
    initial_state
  = (Ok tie_result,
     {| flag_reads := [("run_video_comparison", false);
                       ("run_single_video_comparison", false);
                       ("run_single_video_comparison", true);
                       ("run_video_comparison", true)];
        log_queue := [("INFO", [T "Row "; I 1; T ": Running "; T "VMAF";
                                T " with left as reference..."])];
        progress_queue := [("row_0", "video", 10%Z)];
        spawned := [ffprobe_cmd "a.mp4"; vmaf_cmd "a.mp4" "b.mp4"] |})
  /\ fst (run_video_comparison "a.mp4" "b.mp4" "VMAF" 0
            (responding_env never_stopped sample_tools ["a.mp4"] ["b.mp4"] "VMAF")
            initial_state)
     = Ok (winner_dict "left" 91.5 88.0).
Proof. split; reflexivity. Qed.

(** In the audio stage the condition on the flag matters: when the first
    PSNR pass alone finds the flag set, and the flag is cleared before the
    next read, the stage falls back on the loudness of the two files and
    names a winner. *)
Example uncancelled_audio_stage_example :
  let w := responding_env (stopped_only_at 1) loudness_tools ["a.mp4"] ["b.mp4"] "VMAF" in
  fst (run_audio_comparison "a.mp4" "b.mp4" 0 w initial_state)
  = Ok (winner_dict "left" (-20.0) (-23.5))
  /\ firstn 3 (flag_reads (snd (run_audio_comparison "a.mp4" "b.mp4" 0 w initial_state)))
     = [("run_audio_comparison", false); ("run_single_audio_comparison", true);
        ("run_audio_comparison", false)].
Proof. intros w. split; vm_compute; reflexivity. Qed.

End Cancel.

(** ** Exchanging the two sides *)

Section Mirror.

Local Open Scope float_scope.

Lemma SFabs_binary_round_aux (sx sy : bool) (m : Z) (e : Z) (l : location) :
  SFabs (binary_round_aux prec emax sx m e l)
  = SFabs (binary_round_aux prec emax sy m e l).
Proof.
  unfold binary_round_aux.
  destruct (shr_fexp prec emax m e l) as [mrs e1].
  destruct (shr_fexp prec emax _ e1 loc_Exact) as [mrs2 e2].
  destruct (shr_m mrs2); try reflexivity.
  destruct (e2 <=? emax - prec)%Z; reflexivity.
Qed.

Lemma SFabs_binary_normalize_opp (m e : Z) :
  SFabs (binary_normalize prec emax (- m) e false)
  = SFabs (binary_normalize prec emax m e false).
Proof.
  destruct m as [|p|p]; cbn [Z.opp binary_normalize]; try reflexivity;
    unfold binary_round;
    destruct (shl_align p e _) as [mz ez]; apply SFabs_binary_round_aux.
Qed.

Lemma SFabs_SFsub_sym (x y : spec_float) :
  SFabs (SFsub prec emax x y) = SFabs (SFsub prec emax y x).
Proof.
  destruct x as [sx|sx| |sx mx ex], y as [sy|sy| |sy my ey]; cbn [SFsub SFabs];
    try reflexivity;
    try (destruct sx, sy; reflexivity).
  cbv zeta. rewrite (Z.min_comm ey ex).
  rewrite <- SFabs_binary_normalize_opp. f_equal. f_equal. lia.
Qed.

Lemma absdiff_sym (a b : float) : PyFloat.absdiff a b = PyFloat.absdiff b a.
Proof.
  unfold PyFloat.absdiff. apply Prim2SF_inj.
  rewrite !abs_spec, !sub_spec. apply SFabs_SFsub_sym.
Qed.

Lemma SFeqb_diag (x : spec_float) :
  SFeqb x x = match x with S754_nan => false | _ => true end.
Proof.
  destruct x as [sx|sx| |sx m e]; unfold SFeqb, SFcompare; try reflexivity;
    try (destruct sx; reflexivity).
  rewrite Z.compare_refl.
  assert (Hm : PosDef.Pos.compare_cont Eq m m = Eq) by exact (Pos.compare_refl m).
  rewrite Hm. destruct sx; reflexivity.
Qed.

Lemma is_nan_sub_sym (a b : float) : is_nan (a - b) = is_nan (b - a).
Proof.
  unfold is_nan. rewrite !FloatAxioms.eqb_spec, !sub_spec. unfold SF64sub.
  rewrite !SFeqb_diag.
  pose proof (SFabs_SFsub_sym (Prim2SF a) (Prim2SF b)) as H.
  destruct (SFsub prec emax (Prim2SF a) (Prim2SF b)),
           (SFsub prec emax (Prim2SF b) (Prim2SF a));
    try discriminate; reflexivity.
Qed.

(** Exchanging the two scores exchanges the winner of a band of positive
    width, as long as their difference is a number. *)
Lemma band_winner_mirror (a b t : float) :
  (0 <? t) = true ->
  is_nan (a - b) = false ->
  band_winner b a t = mirror (band_winner a b t).
Proof.
  intros Ht Hnan. unfold band_winner, PyFloat.lt, PyFloat.gt.
  rewrite (absdiff_sym b a). unfold PyFloat.absdiff.
  destruct (abs (a - b) <? t) eqn:Htie; [reflexivity|].
  destruct (b <? a) eqn:Hgt.
  - rewrite (ltb_antisym _ _ Hgt). reflexivity.
  - rewrite (apart_ordered a b t Hnan Ht Htie Hgt). reflexivity.
Qed.

Lemma video_decision_mirror metric (l r : option float) :
  comparable l r ->
  let d := video_decision metric l r in
  video_decision metric r l
  = [("winner", mirror_value (dict_get d "winner" (Str "tie")));
     ("left_score", dict_get d "right_score" (Int 0));
     ("right_score", dict_get d "left_score" (Int 0))].
Proof.
  destruct l as [a|], r as [b|]; try reflexivity.
  cbn [comparable]. intros Hnan. cbv zeta. unfold video_decision, winner_dict.
  cbn [dict_get String.eqb Ascii.eqb Bool.eqb mirror_value].
  rewrite (band_winner_mirror a b); [reflexivity| |exact Hnan].
  destruct (String.eqb metric "VMAF"); reflexivity.
Qed.

Lemma audio_decision_mirror (l r : option float) (fl fr : option float) :
  comparable l r ->
  comparable fl fr ->
  let d := audio_decision l r (fallback_result fl fr) in
  audio_decision r l (fallback_result fr fl)
  = [("winner", mirror_value (dict_get d "winner" (Str "tie")));
     ("left_score", dict_get d "right_score" (Int 0));
     ("right_score", dict_get d "left_score" (Int 0))].
Proof.
  assert (Hfb : comparable fl fr ->
                fallback_result fr fl
                = [("winner",
                    mirror_value (dict_get (fallback_result fl fr) "winner" (Str "tie")));
                   ("left_score", dict_get (fallback_result fl fr) "right_score" (Int 0));
                   ("right_score", dict_get (fallback_result fl fr) "left_score" (Int 0))]).
  { destruct fl as [x|], fr as [y|]; try reflexivity.
    cbn [comparable]. intros Hnan. unfold fallback_result, winner_dict.
    cbn [dict_get String.eqb Ascii.eqb Bool.eqb mirror_value].
    now rewrite (band_winner_mirror x y). }
  destruct l as [a|], r as [b|]; try (intros _ H; exact (Hfb H)).
  cbn [comparable]. intros Hnan _. cbv zeta. unfold audio_decision, winner_dict.
  cbn [dict_get String.eqb Ascii.eqb Bool.eqb mirror_value].
  now rewrite (band_winner_mirror a b).
Qed.

(** X5.  The video and the audio decision treat the two sides alike: when
    the difference of two available scores is a number, exchanging the scores
    exchanges the winner ("left" and "right" change places, "tie" stays) and
    the two scores of the record.  (When both scores are the same infinity
    the difference is not a number and the decision is "right" in both
    orders.) *)
Theorem winner_decisions_mirror
    (a b : float) (metric : string) (row_idx : nat) (w w2 : env) (s s2 : state) :
  is_nan (a - b) = false ->
  (exists winner,
      fst (determine_video_winner (Some a) (Some b) metric row_idx w s)
      = Ok (winner_dict winner a b)
      /\ fst (determine_video_winner (Some b) (Some a) metric row_idx w2 s2)
         = Ok (winner_dict (mirror winner) b a))
  /\ (exists winner,
        fst (determine_audio_winner (Some a) (Some b) row_idx w s)
        = Ok (winner_dict winner a b)
        /\ fst (determine_audio_winner (Some b) (Some a) row_idx w2 s2)
           = Ok (winner_dict (mirror winner) b a))
  /\ mirror "left" = "right"%string /\ mirror "right" = "left"%string
  /\ mirror "tie" = "tie"%string
  /\ fst (determine_video_winner (Some infinity) (Some infinity) metric row_idx w s)
     = Ok (winner_dict "right" infinity infinity).
Proof.
  intros Hnan. split; [|split].
  - destruct (determine_video_winner_value (Some a) (Some b) metric row_idx w s)
      as (t & H & _).
    destruct (determine_video_winner_value (Some b) (Some a) metric row_idx w2 s2)
      as (t2 & H2 & _).
    rewrite H, H2. cbn [fst video_decision].
    eexists. split; [reflexivity|].
    rewrite (band_winner_mirror a b); [reflexivity| |exact Hnan].
    destruct (String.eqb metric "VMAF"); reflexivity.
  - unfold determine_audio_winner, try_except, bind, log_put, ret. cbn [fst].
    fold (band_winner a b 1.0). fold (band_winner b a 1.0).
    eexists. split; [reflexivity|].
    now rewrite (band_winner_mirror a b).
  - repeat split.
    unfold determine_video_winner, try_except, bind, log_put, ret.
    destruct (String.eqb metric "VMAF"); reflexivity.
Qed.

(** 95.0 against 98.0. *)
Lemma winner_decisions_mirror_witness :
  is_nan (95.0 - 98.0) = false
  /\ fst (determine_video_winner (Some 95.0) (Some 98.0) "VMAF" 0
            (bare_env never_stopped [] []) initial_state)
     = Ok (winner_dict "right" 95.0 98.0)
  /\ fst (determine_video_winner (Some 98.0) (Some 95.0) "VMAF" 0
            (bare_env never_stopped [] []) initial_state)
     = Ok (winner_dict "left" 98.0 95.0).
Proof.
  split; [reflexivity|].
  destruct (winner_decisions_mirror 95.0 98.0 "VMAF" 0
              (bare_env never_stopped [] []) (bare_env never_stopped [] [])
              initial_state initial_state eq_refl) as ((winner & H1 & H2) & _).
  split; [reflexivity|]. reflexivity.
Defined.

(** X6.  Exchanging the two files of a row, and the two file lists,
    exchanges the verdict.  With no stop request, when what each process does
    depends on its command only, the metric selector can be read and the
    differences of the scores that are compared are numbers, the row of
    [right_file] against [left_file] returns the record of the row of
    [left_file] against [right_file] with the winners exchanged ("left" and
    "right" change places) and the left and right scores exchanged. *)
Theorem compare_row_mirror
    (respond : list string -> result process) (row_idx : nat)
    (left_file right_file metric : string) (w : env) (s s2 : state) :
  (forall n, stop_event w n = false) ->
  (forall n cmd, spawn w n cmd = respond cmd) ->
  current_metric w = Ok metric ->
  comparable (video_pass respond metric left_file right_file)
    (video_pass respond metric right_file left_file) ->
  comparable (audio_pass respond left_file right_file)
    (audio_pass respond right_file left_file) ->
  (forall lf rf,
      nth_error (left_files w) row_idx = Some lf ->
      nth_error (right_files w) row_idx = Some rf ->
      comparable (loudness_of (respond (ebur128_cmd lf)))
        (loudness_of (respond (ebur128_cmd rf)))) ->
  exists d t t2,
    compare_row row_idx left_file right_file w s = (Ok (Some d), t)
    /\ compare_row row_idx right_file left_file (swap_env w) s2
       = (Ok (Some (mirror_record d)), t2).
Proof.
  intros Hnever Hresp Hmetric Hv Ha Hl.
  destruct (compare_row_responding w respond Hnever Hresp row_idx left_file
              right_file metric s Hmetric) as (t & Hrow & _).
  destruct (compare_row_responding (swap_env w) respond Hnever Hresp row_idx
              right_file left_file metric s2 Hmetric) as (t2 & Hrow2 & _).
  cbn [swap_env left_files right_files] in Hrow2.
  eexists. exists t, t2. split; [exact Hrow|]. rewrite Hrow2.
  do 3 f_equal.
  unfold row_outcome, row_result, mirror_record.
  rewrite (video_decision_mirror metric _ _ Hv).
  assert (Hfb : exists fl fr,
             comparable fl fr
             /\ fallback_decision respond (left_files w) (right_files w) row_idx
                = fallback_result fl fr
             /\ fallback_decision respond (right_files w) (left_files w) row_idx
                = fallback_result fr fl).
  { unfold fallback_decision.
    destruct (nth_error (left_files w) row_idx) as [lf|] eqn:Hlf;
      destruct (nth_error (right_files w) row_idx) as [rf|] eqn:Hrf;
      try (exists None, None; repeat split; fail).
    eexists. eexists. split; [exact (Hl lf rf eq_refl eq_refl)|]. split; reflexivity. }
  destruct Hfb as (fl & fr & Hc & -> & ->).
  rewrite (audio_decision_mirror _ _ fl fr Ha Hc).
  cbv zeta. cbn [dict_get String.eqb Ascii.eqb Bool.eqb]. reflexivity.
Qed.

Lemma compare_row_mirror_witness :
  (forall n, stop_event (responding_env never_stopped sample_tools
                           ["a.mp4"] ["b.mp4"] "VMAF") n = false)
  /\ current_metric (responding_env never_stopped sample_tools
                       ["a.mp4"] ["b.mp4"] "VMAF") = Ok "VMAF"
  /\ comparable (video_pass sample_tools "VMAF" "a.mp4" "b.mp4")
       (video_pass sample_tools "VMAF" "b.mp4" "a.mp4")
  /\ comparable (audio_pass sample_tools "a.mp4" "b.mp4")
       (audio_pass sample_tools "b.mp4" "a.mp4")
  /\ exists d t t2,
       compare_row 0 "a.mp4" "b.mp4"
         (responding_env never_stopped sample_tools ["a.mp4"] ["b.mp4"] "VMAF")
         initial_state = (Ok (Some d), t)
       /\ compare_row 0 "b.mp4" "a.mp4"
            (swap_env (responding_env never_stopped sample_tools
                         ["a.mp4"] ["b.mp4"] "VMAF"))
            initial_state = (Ok (Some (mirror_record d)), t2).
Proof.
  split; [reflexivity|]. split; [reflexivity|].
  split; [reflexivity|]. split; [reflexivity|].
  apply (compare_row_mirror sample_tools 0 "a.mp4" "b.mp4" "VMAF"
           (responding_env never_stopped sample_tools ["a.mp4"] ["b.mp4"] "VMAF")
           initial_state initial_state).
  - reflexivity.
  - reflexivity.
  - reflexivity.
  - reflexivity.
  - reflexivity.
  - intros lf rf _ _. exact Logic.I.
Defined.

End Mirror.

(** ** Progress reports of a row *)

Lemma reports_of_keeps {A} P (c : M A) : keeps progress_queue c -> reports P c.
Proof.
  intros H w s r s' Hc. exists []. rewrite (H _ _ _ _ Hc), app_nil_r.
  split; [reflexivity | constructor].
Qed.

Lemma reports_bind {A B} P (c : M A) (k : A -> M B) :
  reports P c -> (forall a, reports P (k a)) -> reports P (bind c k).
Proof.
  intros Hc Hk w s r s' H. unfold bind in H.
  destruct (c w s) as [[a|e] s1] eqn:Hcs.
  - destruct (Hc _ _ _ _ Hcs) as (n1 & H1 & F1).
    destruct (Hk _ _ _ _ _ H) as (n2 & H2 & F2).
    exists (n1 ++ n2). rewrite H2, H1, app_assoc. split; [reflexivity|].
    now apply Forall_app.
  - injection H as <- <-. eapply Hc, Hcs.
Qed.

Lemma reports_try_except {A} P (body : M A) (handler : exn -> M A) :
  reports P body -> (forall e, reports P (handler e)) ->
  reports P (try_except body handler).
Proof.
  intros Hb Hh w s r s' H. unfold try_except in H.
  destruct (body w s) as [[a|e] s1] eqn:Hbs.
  - injection H as <- <-. eapply Hb, Hbs.
  - destruct (Hb _ _ _ _ Hbs) as (n1 & H1 & F1).
    destruct (Hh _ _ _ _ _ H) as (n2 & H2 & F2).
    exists (n1 ++ n2). rewrite H2, H1, app_assoc. split; [reflexivity|].
    now apply Forall_app.
Qed.

Lemma reports_update_progress (P : string * string * Z -> Prop) row progress_type v :
  P (row, progress_type, v) -> reports P (update_progress row progress_type v).
Proof.
  intros HP w s r s' H. injection H as <- <-.
  exists [(row, progress_type, v)]. split; [reflexivity|]. now constructor.
Qed.

Lemma reports_weaken {A} (P Q : string * string * Z -> Prop) (c : M A) :
  (forall e, P e -> Q e) -> reports P c -> reports Q c.
Proof.
  intros HPQ Hc w s r s' H. destruct (Hc _ _ _ _ H) as (new & Hn & F).
  exists new. split; [exact Hn|]. eapply Forall_impl; [exact HPQ | exact F].
Qed.

Create HintDb reports.

Ltac reports_step :=
  first
    [ solve [auto with reports nocore]
    | apply reports_of_keeps; solve [auto with keeps nocore]
    | apply reports_bind; [|intros ?]
    | apply reports_try_except; [|intros ?]
    | apply reports_update_progress; split; reflexivity
    | match goal with
      | |- reports _ (if ?b then _ else _) => destruct b
      | |- reports _ (match ?x with _ => _ end) => destruct x
      end
    | apply reports_of_keeps; solve [keeps_step] ].

Ltac reports_auto := cbv zeta; repeat reports_step.

Section Progress2.

Lemma progress_monitor site reads text : keeps progress_queue (monitor site reads text).
Proof.
  revert text. induction reads as [|output reads IH]; intros text; cbn [monitor].
  - keeps_auto.
  - apply keeps_bind; [keeps_prim|]. intros [|]; [apply keeps_ret|].
    destruct output; apply IH.
Qed.

#[local] Hint Resolve progress_monitor : keeps.

Lemma progress_parse_single_audio_output output comparison_type row_idx :
  keeps progress_queue (parse_single_audio_output output comparison_type row_idx).
Proof. unfold parse_single_audio_output. keeps_auto. Qed.

Lemma progress_parse_single_video_output output metric comparison_type row_idx :
  keeps progress_queue (parse_single_video_output output metric comparison_type row_idx).
Proof.
  assert (forall lines,
             keeps progress_queue (ssim_scan_lines lines comparison_type row_idx)).
  { induction lines as [|line lines IH]; cbn [ssim_scan_lines]; keeps_auto. }
  unfold parse_single_video_output, parse_single_vmaf_output, parse_single_ssim_output.
  keeps_auto.
Qed.

#[local] Hint Resolve progress_parse_single_audio_output
  progress_parse_single_video_output : keeps.

Lemma progress_run_single_audio_comparison reference_file distorted_file
    comparison_type row_idx :
  keeps progress_queue
    (run_single_audio_comparison reference_file distorted_file comparison_type row_idx).
Proof. unfold run_single_audio_comparison. keeps_auto. Qed.

Lemma progress_get_audio_loudness file_path row_idx :
  keeps progress_queue (get_audio_loudness file_path row_idx).
Proof. unfold get_audio_loudness. keeps_auto. Qed.

#[local] Hint Resolve progress_run_single_audio_comparison
  progress_get_audio_loudness : keeps.

Lemma progress_run_audio_analysis_fallback left_file right_file row_idx :
  keeps progress_queue (run_audio_analysis_fallback left_file right_file row_idx).
Proof. unfold run_audio_analysis_fallback. keeps_auto. Qed.

#[local] Hint Resolve progress_run_audio_analysis_fallback : keeps.

Lemma progress_determine_audio_winner l r row_idx :
  keeps progress_queue (determine_audio_winner l r row_idx).
Proof. unfold determine_audio_winner. keeps_auto. Qed.

Lemma progress_determine_video_winner l r metric row_idx :
  keeps progress_queue (determine_video_winner l r metric row_idx).
Proof. unfold determine_video_winner. keeps_auto. Qed.

Lemma progress_get_total_frames video_path :
  keeps progress_queue (get_total_frames video_path).
Proof. unfold get_total_frames. keeps_auto. Qed.

#[local] Hint Resolve progress_determine_audio_winner progress_determine_video_winner
  progress_get_total_frames : keeps.

(** The video stage reports on the video bar of its row only. *)
Lemma reports_extract_ffmpeg_progress line row_idx comparison_type total :
  reports (on_channel (row_id row_idx) "video")
    (extract_ffmpeg_progress line row_idx "video" comparison_type total).
Proof. unfold extract_ffmpeg_progress. reports_auto. Qed.

#[local] Hint Resolve reports_extract_ffmpeg_progress : reports.

Lemma reports_monitor_video reads text row_idx comparison_type total :
  reports (on_channel (row_id row_idx) "video")
    (monitor_video reads text row_idx comparison_type total).
Proof.
  revert text. induction reads as [|output reads IH]; intros text; cbn [monitor_video].
  - reports_auto.
  - apply reports_bind; [apply reports_of_keeps; keeps_prim|].
    intros [|]; [reports_auto|].
    destruct output; [apply IH|].
    apply reports_bind; [auto with reports nocore|]. intros _. apply IH.
Qed.

#[local] Hint Resolve reports_monitor_video : reports.

Lemma reports_run_single_video_comparison reference_file distorted_file metric
    comparison_type row_idx :
  reports (on_channel (row_id row_idx) "video")
    (run_single_video_comparison reference_file distorted_file metric comparison_type
       row_idx).
Proof. unfold run_single_video_comparison. reports_auto. Qed.

#[local] Hint Resolve reports_run_single_video_comparison : reports.

Lemma reports_run_video_comparison left_file right_file metric row_idx :
  reports (on_channel (row_id row_idx) "video")
    (run_video_comparison left_file right_file metric row_idx).
Proof. unfold run_video_comparison. reports_auto. Qed.

(** *** The values on a bar *)

Lemma channel_values_app row progress_type q1 q2 :
  channel_values row progress_type (q1 ++ q2)
  = channel_values row progress_type q1 ++ channel_values row progress_type q2.
Proof. unfold channel_values. now rewrite filter_app, map_app. Qed.

Lemma channel_values_here row progress_type v q :
  channel_values row progress_type ((row, progress_type, v) :: q)
  = v :: channel_values row progress_type q.
Proof.
  unfold channel_values. cbn [filter fst snd]. now rewrite !String.eqb_refl.
Qed.

Lemma channel_values_other row t1 t2 q :
  String.eqb t1 t2 = false ->
  Forall (on_channel row t1) q -> channel_values row t2 q = [].
Proof.
  intros Ht. induction 1 as [|[[r t] v] q [Hr Hc] _ IH]; [reflexivity|].
  cbn [fst snd] in Hr, Hc. subst r t.
  unfold channel_values in *. cbn [filter fst snd].
  now rewrite Ht, andb_false_r.
Qed.

Lemma channel_values_audio_steps row_idx k :
  channel_values (row_id row_idx) "audio" (firstn k (audio_steps row_idx))
  = firstn k [25; 50; 75]%Z.
Proof.
  unfold audio_steps.
  destruct k as [|[|[|k]]]; cbn [firstn]; rewrite ?channel_values_here;
    try reflexivity.
  now destruct k.
Qed.

Lemma saw_stop_later w s1 s2 n :
  set_once (stop_event w) -> saw_stop w s1 s2 ->
  length (flag_reads s2) <= n -> stop_event w n = true.
Proof.
  intros Hset (i & Hi & Hstop) Hn. apply (Hset i n); [lia | exact Hstop].
Qed.

Lemma tracks_length {A} P (c : M A) w s r s' :
  tracks P c -> c w s = (r, s') -> length (flag_reads s) <= length (flag_reads s').
Proof.
  intros Ht H. destruct (Ht _ _ _ _ H) as (new & Hn & _).
  rewrite Hn, length_app. lia.
Qed.

Lemma determine_audio_winner_returns l r row_idx w s :
  exists d s', determine_audio_winner l r row_idx w s = (Ok d, s').
Proof.
  unfold determine_audio_winner. apply try_except_returns.
  intros. apply log_then_ret_returns.
Qed.

(** The audio stage reports 25, 50 and 75 in turn, and stops short of 75
    only when a read found the stop flag set. *)
Lemma run_audio_comparison_progress left_file right_file row_idx w s d s' :
  run_audio_comparison left_file right_file row_idx w s = (Ok d, s') ->
  exists k,
    progress_queue s' = progress_queue s ++ firstn k (audio_steps row_idx)
    /\ (k = 3 \/ saw_stop w s s').
Proof.
  unfold run_audio_comparison, try_except.
  unfold bind at 1. unfold is_set at 1.
  destruct (stop_event w (length (flag_reads s))) eqn:Hc1.
  { intros H. injection H as _ <-. exists 0. cbn [firstn progress_queue flag_reads].
    rewrite app_nil_r. split; [reflexivity|]. right. unfold saw_stop. cbn [flag_reads].
    exists (length (flag_reads s)). rewrite length_app. cbn [length].
    split; [lia | exact Hc1]. }
  unfold bind at 1. unfold log_put at 1.
  unfold bind at 1. unfold update_progress at 1.
  unfold bind at 1.
  match goal with |- context [run_single_audio_comparison ?a ?b ?c ?d w ?sA] =>
    destruct (run_single_audio_comparison_run a b c d w sA) as (r1 & s2 & Hr1 & _);
    pose proof (progress_run_single_audio_comparison _ _ _ _ _ _ _ _ Hr1) as Hp1;
    pose proof (tracks_length _ _ _ _ _ _
                  (tracks_run_single_audio_comparison a b c d) Hr1) as Hl1
  end.
  rewrite Hr1. cbn [progress_queue flag_reads] in Hp1, Hl1.
  rewrite length_app in Hl1. cbn [length] in Hl1.
  unfold bind at 1. unfold is_set at 1.
  destruct (stop_event w (length (flag_reads s2))) eqn:Hc2.
  { intros H. injection H as _ <-. exists 1. cbn [firstn progress_queue flag_reads].
    split; [exact Hp1|]. right. unfold saw_stop. cbn [flag_reads].
    exists (length (flag_reads s2)). rewrite length_app. cbn [length].
    split; [lia | exact Hc2]. }
  unfold bind at 1. unfold update_progress at 1.
  unfold bind at 1. unfold log_put at 1.
  unfold bind at 1.
  match goal with |- context [run_single_audio_comparison ?a ?b ?c ?d w ?sA] =>
    destruct (run_single_audio_comparison_run a b c d w sA) as (r2 & s3 & Hr2 & _);
    pose proof (progress_run_single_audio_comparison _ _ _ _ _ _ _ _ Hr2) as Hp2;
    pose proof (tracks_length _ _ _ _ _ _
                  (tracks_run_single_audio_comparison a b c d) Hr2) as Hl2
  end.
  rewrite Hr2. cbn [progress_queue flag_reads] in Hp2, Hl2.
  rewrite length_app in Hl2. cbn [length] in Hl2.
  unfold bind at 1. unfold is_set at 1.
  destruct (stop_event w (length (flag_reads s3))) eqn:Hc3.
  { intros H. injection H as _ <-. exists 2. cbn [firstn progress_queue flag_reads].
    split; [rewrite Hp2, Hp1, <- app_assoc; reflexivity|]. right. unfold saw_stop. cbn [flag_reads].
    exists (length (flag_reads s3)). rewrite length_app. cbn [length].
    split; [lia | exact Hc3]. }
  unfold bind at 1. unfold update_progress at 1.
  match goal with |- context [determine_audio_winner ?a ?b ?c w ?sA] =>
    destruct (determine_audio_winner_returns a b c w sA) as (d4 & s4 & Hd);
    pose proof (progress_determine_audio_winner _ _ _ _ _ _ _ Hd) as Hp4
  end.
  rewrite Hd. cbn [progress_queue] in Hp4.
  intros H. injection H as _ <-. exists 3. cbn [firstn].
  split; [|now left].
  rewrite Hp4, Hp2, Hp1, <- !app_assoc. reflexivity.
Qed.

Lemma channel_values_same row progress_type q :
  Forall (on_channel row progress_type) q ->
  channel_values row progress_type q = map snd q.
Proof.
  induction 1 as [|[[r t] v] q [Hr Hc] _ IH]; [reflexivity|].
  cbn [fst snd] in Hr, Hc. subst r t.
  rewrite channel_values_here, IH. reflexivity.
Qed.

(** The three shapes of the reports of a row: video reports only and no
    record; video reports, then 0 and some of the steps on the audio bar, and
    no record; or all the reports and a record. *)
Lemma compare_row_progress_shape row_idx left_file right_file w s res s' :
  compare_row row_idx left_file right_file w s = (Ok res, s') ->
  let rid := row_id row_idx in
  exists new,
    progress_queue s' = progress_queue s ++ new
    /\ ((res = None /\ Forall (on_channel rid "video") new)
        \/ (res = None
            /\ exists V k,
                 Forall (on_channel rid "video") V
                 /\ new = V ++ [(rid, "audio", 0%Z)] ++ firstn k (audio_steps row_idx))
        \/ (exists d V k,
              res = Some d
              /\ Forall (on_channel rid "video") V
              /\ (set_once (stop_event w) -> k = 3)
              /\ new = ((rid, "video", 0%Z) :: V)
                       ++ [(rid, "video", 100%Z); (rid, "audio", 0%Z)]
                       ++ firstn k (audio_steps row_idx)
                       ++ [(rid, "audio", 100%Z)])).
Proof.
  intros Hrun rid. revert Hrun.
  unfold compare_row, try_except.
  unfold bind at 1. unfold is_set at 1.
  destruct (stop_event w (length (flag_reads s))) eqn:Hc1.
  { intros H. injection H as <- <-. exists []. cbn [progress_queue].
    rewrite app_nil_r. split; [reflexivity|]. left. split; [reflexivity|constructor]. }
  unfold bind at 1. unfold log_put at 1.
  unfold bind at 1. unfold update_progress at 1.
  unfold bind at 1. unfold get_current_metric at 1.
  destruct (current_metric w) as [metric|e].
  2:{ intros H. unfold bind, log_put, ret in H. injection H as <- <-.
      exists [(rid, "video", 0%Z)]. cbn [progress_queue]. split; [reflexivity|].
      left. split; [reflexivity|]. repeat constructor. }
  unfold bind at 1.
  match goal with |- context [run_video_comparison ?a ?b ?c ?d w ?sA] =>
    destruct (run_video_comparison_returns a b c d w sA) as (v & s2 & Hv);
    destruct (reports_run_video_comparison _ _ _ _ _ _ _ _ Hv) as (V & HV & FV)
  end.
  rewrite Hv. cbn [progress_queue] in HV.
  unfold bind at 1. unfold is_set at 1.
  destruct (stop_event w (length (flag_reads s2))) eqn:Hc2.
  { intros H. injection H as <- <-. exists ((rid, "video", 0%Z) :: V).
    cbn [progress_queue]. rewrite HV, <- app_assoc. split; [reflexivity|].
    left. split; [reflexivity|]. constructor; [split; reflexivity | exact FV]. }
  unfold bind at 1. unfold update_progress at 1.
  unfold bind at 1. unfold update_progress at 1.
  unfold bind at 1.
  match goal with |- context [run_audio_comparison ?a ?b ?c w ?sA] =>
    destruct (run_audio_comparison_returns a b c w sA) as (au & s3 & Ha);
    destruct (run_audio_comparison_progress _ _ _ _ _ _ _ Ha) as (k & Hk & Hstop)
  end.
  rewrite Ha. cbn [progress_queue] in Hk.
  unfold bind at 1. unfold is_set at 1.
  destruct (stop_event w (length (flag_reads s3))) eqn:Hc3.
  { intros H. injection H as <- <-.
    exists (((rid, "video", 0%Z) :: V ++ [(rid, "video", 100%Z)])
            ++ [(rid, "audio", 0%Z)] ++ firstn k (audio_steps row_idx)).
    cbn [progress_queue]. rewrite Hk, HV, <- !app_assoc. cbn [app].
    rewrite <- ?app_assoc. split; [reflexivity|].
    right. left. split; [reflexivity|].
    exists ((rid, "video", 0%Z) :: V ++ [(rid, "video", 100%Z)]), k.
    split; [|cbn [app]; now rewrite <- !app_assoc].
    constructor; [split; reflexivity|]. apply Forall_app. split; [exact FV|].
    repeat constructor. }
  unfold bind at 1. unfold update_progress at 1.
  unfold bind at 1. unfold log_put at 1. unfold ret at 1.
  intros H. injection H as <- <-.
  exists (((rid, "video", 0%Z) :: V)
          ++ [(rid, "video", 100%Z); (rid, "audio", 0%Z)]
          ++ firstn k (audio_steps row_idx) ++ [(rid, "audio", 100%Z)]).
  cbn [progress_queue]. rewrite Hk, HV, <- !app_assoc. cbn [app].
  rewrite <- ?app_assoc. split; [reflexivity|].
  right. right. eexists. exists V, k. split; [reflexivity|].
  split; [exact FV|]. split; [|reflexivity].
  intros Hset. destruct Hstop as [Hk3|Hsaw]; [exact Hk3|]. exfalso.
  apply (saw_stop_later w _ _ (length (flag_reads s3)) Hset) in Hsaw; [|lia].
  congruence.
Qed.

Lemma compare_row_returns_record row_idx left_file right_file w s :
  exists res s', compare_row row_idx left_file right_file w s = (Ok res, s').
Proof.
  unfold compare_row. apply try_except_returns.
  intros. apply log_then_ret_returns.
Qed.

(** X7.  All the progress reports a row makes are on the video bar
    or the audio bar of that row.  A row that returns a record has reported
    0 first and 100 last on its video bar.  When the stop flag stays set once
    it is set, the values reported on the audio bar are the first values of
    0, 25, 50, 75, 100 in that order, and they are all five exactly when the
    row returns a record: the audio bar never moves back and reaches 100 only
    for a completed row. *)
Theorem compare_row_progress
    (row_idx : nat) (left_file right_file : string) (w : env) (s : state) :
  let rid := row_id row_idx in
  exists res s' new,
    compare_row row_idx left_file right_file w s = (Ok res, s')
    /\ progress_queue s' = progress_queue s ++ new
    /\ Forall (fun entry => on_channel rid "video" entry
                            \/ on_channel rid "audio" entry) new
    /\ (res <> None ->
        exists mid, channel_values rid "video" new = (0 :: mid ++ [100])%Z)
    /\ (set_once (stop_event w) ->
        (exists k, channel_values rid "audio" new = firstn k [0; 25; 50; 75; 100]%Z)
        /\ (res <> None
            <-> channel_values rid "audio" new = [0; 25; 50; 75; 100]%Z)).
Proof.
  intros rid.
  destruct (compare_row_returns_record row_idx left_file right_file w s)
    as (res & s' & Hrun).
  destruct (compare_row_progress_shape _ _ _ _ _ _ _ Hrun) as (new & Hnew & Hshape).
  fold rid in Hshape.
  exists res, s', new. split; [exact Hrun|]. split; [exact Hnew|].
  assert (Hfirst : forall k, Forall (on_channel rid "audio") (firstn k (audio_steps row_idx))).
  { intros k. unfold audio_steps.
    destruct k as [|[|[|[|k]]]]; cbn [firstn]; repeat constructor. }
  assert (Hnil : forall t, channel_values rid t [] = []) by reflexivity.
  assert (Hv : forall t v q, channel_values rid t ((rid, t, v) :: q)
                             = v :: channel_values rid t q)
    by (intros; apply channel_values_here).
  assert (Hva : forall v q, channel_values rid "audio" ((rid, "video", v) :: q)
                            = channel_values rid "audio" q).
  { intros v q. unfold channel_values. cbn [filter fst snd].
    now rewrite String.eqb_refl. }
  assert (Hav : forall v q, channel_values rid "video" ((rid, "audio", v) :: q)
                            = channel_values rid "video" q).
  { intros v q. unfold channel_values. cbn [filter fst snd].
    now rewrite String.eqb_refl. }
  assert (Hsteps : forall k, channel_values rid "audio" (firstn k (audio_steps row_idx))
                             = firstn k [25; 50; 75]%Z)
    by (intros; apply channel_values_audio_steps).
  destruct Hshape as [(-> & FV) | [(-> & V & k & FV & ->) | (d & V & k & -> & FV & Hk & ->)]].
  - split; [eapply Forall_impl; [|exact FV]; intros e He; now left|].
    split; [congruence|]. intros _.
    rewrite (channel_values_other rid "video" "audio" new eq_refl FV).
    split; [now exists 0|]. split; [congruence|discriminate].
  - split.
    { apply Forall_app. split; [eapply Forall_impl; [|exact FV]; intros e He; now left|].
      apply Forall_app. split; [constructor; [right; split; reflexivity | constructor]|].
      eapply Forall_impl; [|apply Hfirst]. intros e He. now right. }
    split; [congruence|]. intros _.
    rewrite channel_values_app, (channel_values_other rid "video" "audio" V eq_refl FV).
    cbn [app]. rewrite Hv, Hsteps.
    split.
    + exists (S (Nat.min k 3)).
      now destruct k as [|[|[|[|k]]]].
    + split; [congruence|]. intros H. exfalso.
      apply (f_equal (@length Z)) in H. cbn [length] in H.
      rewrite length_firstn in H. cbn [length] in H. lia.
  - split.
    { cbn [app]. constructor; [left; split; reflexivity|].
      apply Forall_app. split; [eapply Forall_impl; [|exact FV]; intros e He; now left|].
      constructor; [left; split; reflexivity|].
      constructor; [right; split; reflexivity|].
      apply Forall_app. split.
      + eapply Forall_impl; [|apply Hfirst]. intros e He. now right.
      + constructor; [right; split; reflexivity | constructor]. }
    split.
    { intros _. exists (map snd V). cbn [app].
      rewrite Hv, channel_values_app, (channel_values_same _ _ _ FV).
      rewrite Hv, Hav, channel_values_app.
      rewrite (channel_values_other rid "audio" "video" _ eq_refl (Hfirst k)).
      cbn [app]. rewrite Hav, Hnil. reflexivity. }
    intros Hset. rewrite (Hk Hset). cbn [app].
    rewrite Hva, channel_values_app.
    rewrite (channel_values_other rid "video" "audio" V eq_refl FV).
    cbn [app firstn audio_steps]. fold rid.
    rewrite Hva, !Hv, Hnil.
    split; [now exists 5|]. split; [reflexivity|discriminate].
Qed.

(** A row whose tools answer reports 0, 10, 55, 100, 100 on its video bar
    (the output of the tools has no frame counter) and 0, 25, 50, 75, 100 on
    its audio bar. *)
Example compare_row_progress_example :
  progress_queue
    (snd (compare_row 0 "a.mp4" "b.mp4"
            (responding_env never_stopped sample_tools ["a.mp4"] ["b.mp4"] "VMAF")
            initial_state))
  = [("row_0", "video", 0); ("row_0", "video", 10); ("row_0", "video", 55);
     ("row_0", "video", 100); ("row_0", "video", 100); ("row_0", "audio", 0);
     ("row_0", "audio", 25); ("row_0", "audio", 50); ("row_0", "audio", 75);
     ("row_0", "audio", 100)]%Z.
Proof. reflexivity. Qed.

End Progress2.

(** ** The file lists, the bars and the display *)

Section Lists.

Lemma of_nat_inj (i j : nat) : Str.of_nat i = Str.of_nat j -> i = j.
Proof.
  unfold Str.of_nat. intros H.
  apply (f_equal NilEmpty.uint_of_string) in H.
  rewrite !NilEmpty.usu in H. injection H as H.
  now apply Unsigned.to_uint_inj.
Qed.

Lemma row_id_inj (i j : nat) : row_id i = row_id j -> i = j.
Proof.
  unfold row_id. cbn [append]. intros H. injection H as H. now apply of_nat_inj.
Qed.

Lemma row_id_eqb (i j : nat) : String.eqb (row_id i) (row_id j) = Nat.eqb i j.
Proof.
  destruct (Nat.eqb_spec i j) as [->|Hne].
  - apply String.eqb_refl.
  - apply String.eqb_neq. intros H. now apply row_id_inj in H.
Qed.

(** *** Lists *)

Lemma pop_in_range {A} (l : list A) (i : nat) :
  i < length l ->
  exists x, nth_error l i = Some x /\ Gui.pop l i = Ok (x, Gui.without l i).
Proof.
  intros Hi. unfold Gui.pop.
  destruct (nth_error l i) as [x|] eqn:Hx.
  - now exists x.
  - apply nth_error_None in Hx. lia.
Qed.

Lemma without_length {A} (l : list A) (i : nat) :
  i < length l -> length (Gui.without l i) = length l - 1.
Proof.
  intros Hi. unfold Gui.without.
  rewrite length_app, length_firstn, length_skipn. lia.
Qed.

Lemma without_app {A} (l1 l2 : list A) (x : A) :
  Gui.without (l1 ++ x :: l2) (length l1) = l1 ++ l2.
Proof.
  unfold Gui.without. induction l1 as [|y l1 IH]; [reflexivity|].
  cbn [app length firstn skipn]. cbn [skipn] in IH. now rewrite IH.
Qed.

Lemma insert_app {A} (l1 l2 : list A) (x : A) :
  Gui.insert (l1 ++ l2) (length l1) x = l1 ++ x :: l2.
Proof.
  unfold Gui.insert. induction l1 as [|y l1 IH]; [reflexivity|].
  cbn [app length firstn skipn]. now rewrite IH.
Qed.

Lemma split_at {A} (l : list A) (i : nat) :
  i <= length l -> exists l1 l2, l = l1 ++ l2 /\ length l1 = i.
Proof.
  intros Hi. exists (firstn i l), (skipn i l). split.
  - symmetry. apply firstn_skipn.
  - rewrite length_firstn. lia.
Qed.

Lemma without_perm {A} (l : list A) (i : nat) (x : A) :
  nth_error l i = Some x -> Permutation l (x :: Gui.without l i).
Proof.
  intros Hx. apply nth_error_split in Hx as (l1 & l2 & -> & <-).
  rewrite without_app. symmetry. apply Permutation_middle.
Qed.

Lemma insert_perm {A} (l : list A) (i : nat) (x : A) :
  Permutation (Gui.insert l i x) (x :: l).
Proof.
  unfold Gui.insert. symmetry.
  rewrite <- (firstn_skipn i l) at 1. apply Permutation_middle.
Qed.

Lemma insert_nth {A} (l : list A) (i : nat) (x : A) :
  i <= length l -> nth_error (Gui.insert l i x) i = Some x.
Proof.
  intros Hi. destruct (split_at l i Hi) as (l1 & l2 & -> & <-).
  rewrite insert_app, nth_error_app2, Nat.sub_diag by lia. reflexivity.
Qed.

Lemma without_insert {A} (l : list A) (i : nat) (x : A) :
  i <= length l -> Gui.without (Gui.insert l i x) i = l.
Proof.
  intros Hi. destruct (split_at l i Hi) as (l1 & l2 & -> & <-).
  now rewrite insert_app, without_app.
Qed.

Lemma insert_length {A} (l : list A) (i : nat) (x : A) :
  length (Gui.insert l i x) = S (length l).
Proof.
  unfold Gui.insert. rewrite length_app. cbn [length].
  rewrite length_firstn, length_skipn. lia.
Qed.

(** *** The display of a list without results *)

Lemma display_names_plain panel (i : nat) (files : list string) :
  Gui.display_names [] panel i files = map (fun path => ("", path)) files.
Proof.
  revert i. induction files as [|f files IH]; intros i; [reflexivity|].
  cbn [Gui.display_names map]. now rewrite IH.
Qed.

(** *** What [setup_progress_bars] leaves as it is *)

Lemma add_rows_frame rows a :
  Gui.left_files (Gui.add_rows rows a) = Gui.left_files a
  /\ Gui.right_files (Gui.add_rows rows a) = Gui.right_files a
  /\ Gui.results (Gui.add_rows rows a) = Gui.results a
  /\ Gui.left_listbox (Gui.add_rows rows a) = Gui.left_listbox a
  /\ Gui.right_listbox (Gui.add_rows rows a) = Gui.right_listbox a
  /\ Gui.console (Gui.add_rows rows a) = Gui.console a.
Proof.
  revert a. induction rows as [|i rows IH]; intros a; cbn [Gui.add_rows].
  - repeat split.
  - destruct (IH (Gui.set_progress
                    (Gui.assign (Gui.progress_bars a) (row_id i)
                       {| Gui.video := 0; Gui.audio := 0 |})
                    (Gui.assign (Gui.score_labels a) (row_id i) Gui.initial_labels) a))
      as (H1 & H2 & H3 & H4 & H5 & H6).
    rewrite H1, H2, H3, H4, H5, H6. repeat split.
Qed.

Lemma setup_progress_bars_frame a :
  Gui.left_files (Gui.setup_progress_bars a) = Gui.left_files a
  /\ Gui.right_files (Gui.setup_progress_bars a) = Gui.right_files a
  /\ Gui.results (Gui.setup_progress_bars a) = Gui.results a
  /\ Gui.left_listbox (Gui.setup_progress_bars a) = Gui.left_listbox a
  /\ Gui.right_listbox (Gui.setup_progress_bars a) = Gui.right_listbox a
  /\ Gui.console (Gui.setup_progress_bars a) = Gui.console a.
Proof.
  unfold Gui.setup_progress_bars. cbv zeta.
  destruct (Nat.eqb _ 0).
  - repeat split.
  - destruct (add_rows_frame
                (seq 0 (Nat.min (length (Gui.left_files (Gui.clear_progress_bars a)))
                          (length (Gui.right_files (Gui.clear_progress_bars a)))))
                (Gui.clear_progress_bars a)) as (H1 & H2 & H3 & H4 & H5 & H6).
    rewrite H1, H2, H3, H4, H5, H6. repeat split.
Qed.

(** *** What the steps of the handlers change *)

Lemma set_file_list_spec panel files a :
  Gui.file_list panel (Gui.set_file_list panel files a) = files
  /\ (if String.eqb panel "left"
      then Gui.left_files (Gui.set_file_list panel files a) = files
           /\ Gui.right_files (Gui.set_file_list panel files a) = Gui.right_files a
      else Gui.right_files (Gui.set_file_list panel files a) = files
           /\ Gui.left_files (Gui.set_file_list panel files a) = Gui.left_files a)
  /\ Gui.results (Gui.set_file_list panel files a) = Gui.results a
  /\ Gui.left_listbox (Gui.set_file_list panel files a) = Gui.left_listbox a
  /\ Gui.right_listbox (Gui.set_file_list panel files a) = Gui.right_listbox a
  /\ Gui.console (Gui.set_file_list panel files a) = Gui.console a.
Proof.
  unfold Gui.file_list, Gui.set_file_list.
  destruct (String.eqb panel "left"); repeat split.
Qed.

Lemma refresh_file_display_frame panel a :
  Gui.left_files (Gui.refresh_file_display panel a) = Gui.left_files a
  /\ Gui.right_files (Gui.refresh_file_display panel a) = Gui.right_files a
  /\ Gui.results (Gui.refresh_file_display panel a) = Gui.results a
  /\ Gui.console (Gui.refresh_file_display panel a) = Gui.console a.
Proof.
  unfold Gui.refresh_file_display, Gui.set_listbox.
  destruct (String.eqb panel "left"); repeat split.
Qed.

Lemma refresh_file_display_box panel a :
  Gui.listbox_of panel (Gui.refresh_file_display panel a)
  = {| Gui.items := Gui.display_names (Gui.results a) panel 0 (Gui.file_list panel a);
       Gui.curselection := [] |}
  /\ (if String.eqb panel "left"
      then Gui.right_listbox (Gui.refresh_file_display panel a) = Gui.right_listbox a
      else Gui.left_listbox (Gui.refresh_file_display panel a) = Gui.left_listbox a).
Proof.
  unfold Gui.refresh_file_display, Gui.set_listbox, Gui.listbox_of, Gui.file_list.
  destruct (String.eqb panel "left"); split; reflexivity.
Qed.

Lemma select_spec panel index a :
  Gui.left_files (Gui.select panel index a) = Gui.left_files a
  /\ Gui.right_files (Gui.select panel index a) = Gui.right_files a
  /\ Gui.results (Gui.select panel index a) = Gui.results a
  /\ Gui.items (Gui.left_listbox (Gui.select panel index a))
     = Gui.items (Gui.left_listbox a)
  /\ Gui.items (Gui.right_listbox (Gui.select panel index a))
     = Gui.items (Gui.right_listbox a)
  /\ Gui.curselection (Gui.listbox_of panel (Gui.select panel index a)) = [index].
Proof.
  unfold Gui.select, Gui.set_listbox, Gui.listbox_of.
  destruct (String.eqb panel "left"); repeat split.
Qed.

Lemma file_list_eq panel a b :
  Gui.left_files a = Gui.left_files b -> Gui.right_files a = Gui.right_files b ->
  Gui.file_list panel a = Gui.file_list panel b.
Proof. unfold Gui.file_list. destruct (String.eqb panel "left"); auto. Qed.

Lemma listbox_of_eq panel a b :
  Gui.left_listbox a = Gui.left_listbox b -> Gui.right_listbox a = Gui.right_listbox b ->
  Gui.listbox_of panel a = Gui.listbox_of panel b.
Proof. unfold Gui.listbox_of. destruct (String.eqb panel "left"); auto. Qed.

(** The state after the list of a panel has been replaced, the results
    dropped and both list boxes refreshed. *)
Lemma relisted panel files a :
  let a1 := Gui.clear_progress_bars
              (Gui.set_results [] (Gui.set_file_list panel files a)) in
  let a2 := Gui.refresh_file_display "right" (Gui.refresh_file_display "left" a1) in
  Gui.file_list panel a2 = files
  /\ (if String.eqb panel "left"
      then Gui.right_files a2 = Gui.right_files a
      else Gui.left_files a2 = Gui.left_files a)
  /\ Gui.results a2 = []
  /\ Gui.items (Gui.left_listbox a2) = map (fun path => ("", path)) (Gui.left_files a2)
  /\ Gui.items (Gui.right_listbox a2) = map (fun path => ("", path)) (Gui.right_files a2).
Proof.
  intros a1 a2.
  destruct (set_file_list_spec panel files a) as (S1 & S2 & S3 & _).
  assert (L1 : Gui.left_files a1 = Gui.left_files (Gui.set_file_list panel files a))
    by reflexivity.
  assert (R1 : Gui.right_files a1 = Gui.right_files (Gui.set_file_list panel files a))
    by reflexivity.
  assert (Z1 : Gui.results a1 = []) by reflexivity.
  assert (L2 : Gui.left_files a2 = Gui.left_files a1) by reflexivity.
  assert (R2 : Gui.right_files a2 = Gui.right_files a1) by reflexivity.
  assert (Z2 : Gui.results a2 = Gui.results a1) by reflexivity.
  assert (BL : Gui.items (Gui.left_listbox a2)
               = Gui.display_names (Gui.results a1) "left" 0 (Gui.left_files a1))
    by reflexivity.
  assert (BR : Gui.items (Gui.right_listbox a2)
               = Gui.display_names (Gui.results a1) "right" 0 (Gui.right_files a1))
    by reflexivity.
  rewrite BL, BR, Z2, L2, R2, Z1, !display_names_plain.
  split.
  { rewrite <- S1. apply file_list_eq; congruence. }
  split.
  { destruct (String.eqb panel "left"); destruct S2; congruence. }
  repeat split.
Qed.

(** X8.  [reorder_files] never raises.  When both indices are positions
    of the list of the panel, the file at the old position is taken out and
    put back at the new one: the list holds the same files, the moved file is
    at the new position, the other files keep their order, and the list of
    the other panel is untouched; the results of earlier comparisons are
    dropped, both list boxes show the plain names of the files in their new
    order, and the moved file is the one selected.  With an index that is not
    a position (negative, or beyond the end) nothing changes at all. *)
Theorem reorder_files_moves
    (panel : string) (old_index new_index : Z) (a : Gui.app) :
  let files := Gui.file_list panel a in
  let len := Z.of_nat (length files) in
  exists a',
    Gui.reorder_files panel old_index new_index a = Ok a'
    /\ ((0 <= old_index < len /\ 0 <= new_index < len)%Z ->
        let files' := Gui.file_list panel a' in
        Permutation files files'
        /\ nth_error files' (Z.to_nat new_index)
           = nth_error files (Z.to_nat old_index)
        /\ Gui.without files' (Z.to_nat new_index)
           = Gui.without files (Z.to_nat old_index)
        /\ (if String.eqb panel "left"
            then Gui.right_files a' = Gui.right_files a
            else Gui.left_files a' = Gui.left_files a)
        /\ Gui.results a' = []
        /\ Gui.items (Gui.left_listbox a')
           = map (fun path => ("", path)) (Gui.left_files a')
        /\ Gui.items (Gui.right_listbox a')
           = map (fun path => ("", path)) (Gui.right_files a')
        /\ Gui.curselection (Gui.listbox_of panel a') = [Z.to_nat new_index])
    /\ (~ (0 <= old_index < len /\ 0 <= new_index < len)%Z -> a' = a).
Proof.
  intros files len. unfold Gui.reorder_files. fold files. fold len.
  destruct ((0 <=? old_index) && (old_index <? len)
            && ((0 <=? new_index) && (new_index <? len)))%Z eqn:Hguard.
  2:{ exists a. split; [reflexivity|]. split; [|reflexivity].
      intros [[H1 H2] [H3 H4]]. exfalso.
      apply Z.leb_le in H1, H3. apply Z.ltb_lt in H2, H4.
      rewrite H1, H2, H3, H4 in Hguard. discriminate. }
  apply andb_prop in Hguard as [Ho Hn].
  apply andb_prop in Ho as [Ho1 Ho2]. apply andb_prop in Hn as [Hn1 Hn2].
  apply Z.leb_le in Ho1, Hn1. apply Z.ltb_lt in Ho2, Hn2.
  assert (Hold : Z.to_nat old_index < length files) by (unfold len in Ho2; lia).
  assert (Hnew : Z.to_nat new_index < length files) by (unfold len in Hn2; lia).
  destruct (pop_in_range files _ Hold) as (item & Hitem & Hpop).
  rewrite Hpop. cbv zeta.
  pose proof (without_length files _ Hold) as Hlen.
  set (rest := Gui.without files (Z.to_nat old_index)) in *.
  set (moved := Gui.insert rest (Z.to_nat new_index) item).
  eexists. split; [reflexivity|]. split; [|intros H; exfalso; apply H; lia].
  intros _.
  destruct (relisted panel moved a) as (G1 & G2 & G3 & G4 & G5).
  cbv zeta in G1, G2, G3, G4, G5.
  match goal with |- context [Gui.setup_progress_bars ?x] =>
    destruct (setup_progress_bars_frame x) as (F1 & F2 & F3 & F4 & F5 & _);
    set (a5 := x) in *
  end.
  destruct (select_spec panel (Z.to_nat new_index) (Gui.setup_progress_bars a5))
    as (S2 & S3 & S4 & S5 & S6 & S7).
  cbv zeta.
  rewrite (file_list_eq panel _ _ S2 S3), (file_list_eq panel _ _ F1 F2), G1.
  rewrite S2, S3, S4, S5, S6, S7, F1, F2, F3, F4, F5.
  split.
  { etransitivity; [apply (without_perm files _ item Hitem)|].
    symmetry. apply insert_perm. }
  split; [rewrite Hitem; apply insert_nth; lia|].
  split; [apply without_insert; lia|].
  split; [exact G2|].
  repeat split; assumption.
Qed.

(** Moving the first of four files to the third place. *)
Example reorder_files_example :
  let a := Gui.set_file_list "left" ["a"; "b"; "c"; "d"] Gui.empty in
  option_map Gui.left_files
    (match Gui.reorder_files "left" 0 2 a with Ok a' => Some a' | Raise _ => None end)
  = Some ["b"; "c"; "a"; "d"]
  /\ Gui.reorder_files "left" 0 4 a = Ok a
  /\ Gui.reorder_files "left" (-1) 2 a = Ok a.
Proof. repeat split. Qed.

Lemma without_nth_before {A} (l : list A) (index i : nat) :
  i < index -> nth_error (Gui.without l index) i = nth_error l i.
Proof.
  intros Hi. unfold Gui.without.
  destruct (Nat.le_gt_cases (length l) i) as [Hl|Hl].
  - rewrite (proj2 (nth_error_None l i)) by lia.
    apply nth_error_None. rewrite length_app, length_firstn, length_skipn. lia.
  - rewrite nth_error_app1 by (rewrite length_firstn; lia).
    rewrite nth_error_firstn.
    destruct (Nat.ltb_spec i index); [reflexivity|lia].
Qed.

Lemma without_nth_after {A} (l : list A) (index i : nat) :
  index < length l -> index <= i ->
  nth_error (Gui.without l index) i = nth_error l (S i).
Proof.
  intros Hl Hi. unfold Gui.without.
  rewrite nth_error_app2 by (rewrite length_firstn; lia).
  rewrite length_firstn, Nat.min_l, nth_error_skipn by lia.
  f_equal. lia.
Qed.

(** X9.  [remove_selected_file] never raises.  When the first selected
    index of the list box of the panel is a position of its list, the file
    at that position is removed: the files before it stay where they are,
    the files after it move up by one, the results of earlier comparisons
    are dropped, the list box of the panel shows the plain names of the
    files that are left, with nothing selected, and the removal is written
    to the console.  The list and the list box of the other panel are not
    touched: that list box is not refreshed and keeps the texts it had.
    Without a selection, or with a selected index beyond the list, nothing
    changes. *)
Theorem remove_selected_file_removes (panel : string) (a : Gui.app) :
  let files := Gui.file_list panel a in
  exists a',
    Gui.remove_selected_file panel a = Ok a'
    /\ (forall index others,
          Gui.curselection (Gui.listbox_of panel a) = index :: others ->
          index < length files ->
          let files' := Gui.file_list panel a' in
          files' = Gui.without files index
          /\ length files' = length files - 1
          /\ (forall i, i < index -> nth_error files' i = nth_error files i)
          /\ (forall i, index <= i -> nth_error files' i = nth_error files (S i))
          /\ Gui.results a' = []
          /\ Gui.listbox_of panel a'
             = {| Gui.items := map (fun path => ("", path)) files';
                  Gui.curselection := [] |}
          /\ (if String.eqb panel "left"
              then Gui.right_files a' = Gui.right_files a
                   /\ Gui.right_listbox a' = Gui.right_listbox a
              else Gui.left_files a' = Gui.left_files a
                   /\ Gui.left_listbox a' = Gui.left_listbox a)
          /\ exists removed_file,
               nth_error files index = Some removed_file
               /\ Gui.console a'
                  = Gui.console a
                    ++ [("INFO", [T "Removed file: "; Basename removed_file])])
    /\ (Gui.curselection (Gui.listbox_of panel a) = []
        \/ (exists index others,
              Gui.curselection (Gui.listbox_of panel a) = index :: others
              /\ length files <= index) ->
        a' = a).
Proof.
  intros files. unfold Gui.remove_selected_file. fold files.
  destruct (Gui.curselection (Gui.listbox_of panel a)) as [|index others] eqn:Hsel.
  { exists a. split; [reflexivity|]. split; [discriminate|reflexivity]. }
  destruct (Nat.ltb_spec index (length files)) as [Hi|Hi].
  2:{ exists a. split; [reflexivity|]. split; [|reflexivity].
      intros i o H. injection H as <- <-. lia. }
  destruct (pop_in_range files _ Hi) as (item & Hitem & Hpop).
  rewrite Hpop. cbv zeta.
  eexists. split; [reflexivity|]. split.
  2:{ intros [H | (i & o & H & Hl)]; [discriminate|]. injection H as <- <-. lia. }
  intros i o H. injection H as <- <-. intros _.
  set (a1 := Gui.set_file_list panel (Gui.without files index) a).
  set (a3 := Gui.clear_progress_bars (Gui.set_results [] a1)).
  set (a4 := Gui.refresh_file_display panel a3).
  destruct (set_file_list_spec panel (Gui.without files index) a)
    as (T1 & T2 & T3 & T4 & T5 & T6).
  fold a1 in T1, T2, T3, T4, T5, T6.
  destruct (refresh_file_display_frame panel a3) as (R1 & R2 & R3 & R4).
  destruct (refresh_file_display_box panel a3) as (B1 & B2).
  fold a4 in R1, R2, R3, R4, B1, B2.
  destruct (setup_progress_bars_frame a4) as (F1 & F2 & F3 & F4 & F5 & F6).
  set (a5 := Gui.setup_progress_bars a4) in *.
  set (a6 := Gui.log_message "INFO" [T "Removed file: "; Basename item] a5).
  assert (L1 : Gui.left_files a6 = Gui.left_files a5) by reflexivity.
  assert (L2 : Gui.right_files a6 = Gui.right_files a5) by reflexivity.
  assert (L3 : Gui.results a6 = Gui.results a5) by reflexivity.
  assert (L4 : Gui.left_listbox a6 = Gui.left_listbox a5) by reflexivity.
  assert (L5 : Gui.right_listbox a6 = Gui.right_listbox a5) by reflexivity.
  assert (L6 : Gui.console a6 = Gui.console a5 ++ [("INFO", [T "Removed file: "; Basename item])])
    by reflexivity.
  assert (C1 : Gui.left_files a3 = Gui.left_files a1) by reflexivity.
  assert (C2 : Gui.right_files a3 = Gui.right_files a1) by reflexivity.
  assert (C3 : Gui.results a3 = []) by reflexivity.
  assert (C4 : Gui.left_listbox a3 = Gui.left_listbox a1) by reflexivity.
  assert (C5 : Gui.right_listbox a3 = Gui.right_listbox a1) by reflexivity.
  assert (C6 : Gui.console a3 = Gui.console a1) by reflexivity.
  assert (Hlist : Gui.file_list panel a6 = Gui.without files index).
  { rewrite <- T1. apply file_list_eq; congruence. }
  cbv zeta. rewrite Hlist.
  split; [reflexivity|]. split; [now apply without_length|].
  split; [intros; now apply without_nth_before|].
  split; [intros; now apply without_nth_after|].
  split; [congruence|].
  split.
  { rewrite (listbox_of_eq panel a6 a4) by congruence.
    rewrite B1, C3, display_names_plain. f_equal. f_equal.
    rewrite <- T1. apply file_list_eq; congruence. }
  split.
  { destruct (String.eqb panel "left"); destruct T2; split; congruence. }
  exists item. split; [exact Hitem|]. rewrite L6. congruence.
Qed.

End Lists.

(** ** The progress bars *)

Section Bars.

Lemma lookup_assign_same {V} (d : list (string * V)) key v :
  Gui.lookup (Gui.assign d key v) key = Some v.
Proof.
  induction d as [|[k v'] d IH]; cbn [Gui.assign Gui.lookup].
  - now rewrite String.eqb_refl.
  - destruct (String.eqb k key) eqn:Hk; cbn [Gui.lookup]; rewrite Hk; auto.
Qed.

Lemma lookup_assign_other {V} (d : list (string * V)) key key' v :
  key' <> key -> Gui.lookup (Gui.assign d key v) key' = Gui.lookup d key'.
Proof.
  intros Hne. induction d as [|[k v'] d IH]; cbn [Gui.assign Gui.lookup].
  - destruct (String.eqb_spec key key'); [congruence|reflexivity].
  - destruct (String.eqb_spec k key) as [->|Hk]; cbn [Gui.lookup].
    + destruct (String.eqb_spec key key'); [congruence|reflexivity].
    + now rewrite IH.
Qed.

Lemma assign_fresh {V} (d : list (string * V)) key v :
  Gui.lookup d key = None -> Gui.assign d key v = d ++ [(key, v)].
Proof.
  induction d as [|[k v'] d IH]; cbn [Gui.assign Gui.lookup app]; [reflexivity|].
  destruct (String.eqb k key); [discriminate|]. intros H. now rewrite IH.
Qed.

Lemma lookup_app_none {V} (d1 d2 : list (string * V)) key :
  Gui.lookup d1 key = None -> Gui.lookup (d1 ++ d2) key = Gui.lookup d2 key.
Proof.
  induction d1 as [|[k v] d1 IH]; cbn [Gui.lookup app]; [reflexivity|].
  destruct (String.eqb k key); [discriminate|exact IH].
Qed.

Lemma lookup_rows_none {V} (f : nat -> V) (rows : list nat) (i : nat) :
  ~ In i rows -> Gui.lookup (map (fun j => (row_id j, f j)) rows) (row_id i) = None.
Proof.
  induction rows as [|j rows IH]; cbn [map Gui.lookup In]; [reflexivity|].
  intros H. rewrite row_id_eqb.
  destruct (Nat.eqb_spec j i) as [->|Hne]; [tauto|]. apply IH. tauto.
Qed.

Lemma lookup_rows_some {V} (f : nat -> V) (rows : list nat) (i : nat) :
  In i rows -> Gui.lookup (map (fun j => (row_id j, f j)) rows) (row_id i) = Some (f i).
Proof.
  induction rows as [|j rows IH]; cbn [map Gui.lookup In]; [tauto|].
  rewrite row_id_eqb. destruct (Nat.eqb_spec j i) as [->|Hne]; [reflexivity|].
  intros [H|H]; [congruence|now apply IH].
Qed.

Lemma lookup_rows_key {V} (f : nat -> V) (rows : list nat) key v :
  Gui.lookup (map (fun j => (row_id j, f j)) rows) key = Some v ->
  exists i, In i rows /\ key = row_id i.
Proof.
  induction rows as [|j rows IH]; cbn [map Gui.lookup In]; [discriminate|].
  destruct (String.eqb_spec (row_id j) key) as [<-|Hne].
  - intros _. exists j. auto.
  - intros H. destruct (IH H) as (i & Hi & ->). exists i. auto.
Qed.

(** The loop of [setup_progress_bars] adds one entry for each row, in order,
    when it starts without bars and labels: two rows never share a key. *)
Lemma add_rows_fresh (rows done : list nat) (a : Gui.app) :
  NoDup (done ++ rows) ->
  Gui.progress_bars a
  = map (fun i => (row_id i, {| Gui.video := 0; Gui.audio := 0 |})) done ->
  Gui.score_labels a = map (fun i => (row_id i, Gui.initial_labels)) done ->
  Gui.progress_bars (Gui.add_rows rows a)
  = map (fun i => (row_id i, {| Gui.video := 0; Gui.audio := 0 |})) (done ++ rows)
  /\ Gui.score_labels (Gui.add_rows rows a)
     = map (fun i => (row_id i, Gui.initial_labels)) (done ++ rows).
Proof.
  revert done a. induction rows as [|i rows IH]; intros done a Hnd Hb Hl;
    cbn [Gui.add_rows].
  - now rewrite app_nil_r.
  - assert (Hi : ~ In i done).
    { apply NoDup_remove_2 in Hnd. intros H. apply Hnd. apply in_or_app. now left. }
    replace (done ++ i :: rows) with ((done ++ [i]) ++ rows) in *
      by now rewrite <- app_assoc.
    apply IH; [exact Hnd| |]; cbn [Gui.set_progress Gui.progress_bars Gui.score_labels].
    + rewrite Hb, assign_fresh by now apply lookup_rows_none.
      now rewrite map_app.
    + rewrite Hl, assign_fresh by now apply lookup_rows_none.
      now rewrite map_app.
Qed.

Lemma setup_progress_bars_rows (a : Gui.app) :
  let rows := seq 0 (Nat.min (length (Gui.left_files a)) (length (Gui.right_files a))) in
  Gui.progress_bars (Gui.setup_progress_bars a)
  = map (fun i => (row_id i, {| Gui.video := 0; Gui.audio := 0 |})) rows
  /\ Gui.score_labels (Gui.setup_progress_bars a)
     = map (fun i => (row_id i, Gui.initial_labels)) rows.
Proof.
  intros rows. unfold Gui.setup_progress_bars. cbv zeta.
  cbn [Gui.clear_progress_bars Gui.set_progress Gui.left_files Gui.right_files].
  fold rows.
  destruct (Nat.eqb_spec (Nat.min (length (Gui.left_files a))
                            (length (Gui.right_files a))) 0) as [H0|H0].
  - unfold rows. rewrite H0. split; reflexivity.
  - apply (add_rows_fresh rows []); [apply seq_NoDup|reflexivity|reflexivity].
Qed.

(** X10.  [setup_progress_bars] makes bars and score labels for exactly
    the rows of a run: one entry for each index below the length of the
    shorter list, keyed by the identifier of the row, in order and without
    repetition (two rows never share an identifier), with both bars at 0 and
    the labels without scores.  Every row a run can submit has its bars; the
    files beyond the shorter list have none. *)
Theorem setup_progress_bars_rows_of_run (a : Gui.app) :
  let a' := Gui.setup_progress_bars a in
  let count := Nat.min (length (Gui.left_files a)) (length (Gui.right_files a)) in
  map fst (Gui.progress_bars a') = map row_id (seq 0 count)
  /\ map fst (Gui.score_labels a') = map row_id (seq 0 count)
  /\ NoDup (map fst (Gui.progress_bars a'))
  /\ (forall i j, row_id i = row_id j -> i = j)
  /\ (forall i, i < count ->
        Gui.lookup (Gui.progress_bars a') (row_id i)
        = Some {| Gui.video := 0; Gui.audio := 0 |}
        /\ Gui.lookup (Gui.score_labels a') (row_id i) = Some Gui.initial_labels)
  /\ (forall key, Gui.lookup (Gui.progress_bars a') key <> None ->
                  exists i, i < count /\ key = row_id i)
  /\ (forall i l r,
        In (i, l, r) (paired_rows (Gui.left_files a) (Gui.right_files a)) ->
        Gui.lookup (Gui.progress_bars a') (row_id i)
        = Some {| Gui.video := 0; Gui.audio := 0 |}).
Proof.
  intros a' count.
  destruct (setup_progress_bars_rows a) as [Hb Hl]. fold a' count in Hb, Hl.
  assert (Hrow : forall i, i < count ->
                   Gui.lookup (Gui.progress_bars a') (row_id i)
                   = Some {| Gui.video := 0; Gui.audio := 0 |}
                   /\ Gui.lookup (Gui.score_labels a') (row_id i)
                      = Some Gui.initial_labels).
  { intros i Hi. rewrite Hb, Hl.
    split; apply (lookup_rows_some (fun _ => _)); apply in_seq; lia. }
  split; [rewrite Hb, map_map; reflexivity|].
  split; [rewrite Hl, map_map; reflexivity|].
  split.
  { rewrite Hb, map_map. cbn [fst].
    generalize (seq_NoDup count 0). generalize (seq 0 count) as rows.
    induction rows as [|i rows IH]; cbn [map]; intros Hnd; [constructor|].
    inversion Hnd as [|? ? Hi Hrest]; subst. constructor; [|now apply IH].
    intros Hin. apply in_map_iff in Hin as (j & Hj & Hjin).
    apply row_id_inj in Hj. now subst j. }
  split; [exact row_id_inj|].
  split; [exact Hrow|].
  split.
  - intros key Hkey. rewrite Hb in Hkey.
    destruct (Gui.lookup _ key) as [v|] eqn:Hv; [|congruence].
    apply lookup_rows_key in Hv as (i & Hi & ->). exists i.
    apply in_seq in Hi. split; [lia|reflexivity].
  - intros i l r Hin.
    apply (paired_rows_in_from [] []) in Hin; [|reflexivity].
    cbn [length] in Hin. apply Hrow. unfold count. lia.
Qed.

(** Five files on the left and three on the right: bars for three rows. *)
Example setup_progress_bars_example :
  map fst
    (Gui.progress_bars
       (Gui.setup_progress_bars
          (Gui.set_file_list "right" ["r0"; "r1"; "r2"]
             (Gui.set_file_list "left" ["l0"; "l1"; "l2"; "l3"; "l4"] Gui.empty))))
  = ["row_0"; "row_1"; "row_2"].
Proof. reflexivity. Qed.

Lemma channel_values_cons row progress_type r t v q :
  channel_values row progress_type ((r, t, v) :: q)
  = if String.eqb r row && String.eqb t progress_type
    then v :: channel_values row progress_type q
    else channel_values row progress_type q.
Proof.
  unfold channel_values. cbn [filter fst snd].
  now destruct (String.eqb r row && String.eqb t progress_type).
Qed.

Lemma last_default {A} (x d d' : A) (l : list A) :
  last (x :: l) d = last (x :: l) d'.
Proof.
  revert x. induction l as [|y l IH]; intros x; [reflexivity|].
  change (last (y :: l) d = last (y :: l) d'). apply IH.
Qed.

Lemma last_cons {A} (x d : A) (l : list A) : last (x :: l) d = last l x.
Proof.
  destruct l as [|y l]; [reflexivity|].
  change (last (y :: l) d = last (y :: l) x). apply last_default.
Qed.

Lemma process_progress_queue_run queue (a : Gui.app) :
  Forall (fun entry => snd (fst entry) <> "frame") queue ->
  exists shown_bars,
    Gui.process_progress_queue queue a
    = ([], Gui.set_progress shown_bars (Gui.score_labels a) a)
    /\ forall row,
         Gui.lookup shown_bars row
         = option_map (Gui.shown queue row) (Gui.lookup (Gui.progress_bars a) row).
Proof.
  intros Hq. revert a. induction Hq as [|[[r t] v] q Ht _ IH]; intros a.
  - exists (Gui.progress_bars a). split; [now destruct a|].
    intros row. destruct (Gui.lookup (Gui.progress_bars a) row) as [[bv ba]|];
      reflexivity.
  - cbn [fst snd] in Ht. cbn [Gui.process_progress_queue].
    assert (Hskip : (forall row, Gui.shown ((r, t, v) :: q) row = Gui.shown q row)
                    \/ (Gui.lookup (Gui.progress_bars a) r = None) ->
                    exists shown_bars,
                      Gui.process_progress_queue q a
                      = ([], Gui.set_progress shown_bars (Gui.score_labels a) a)
                      /\ forall row,
                           Gui.lookup shown_bars row
                           = option_map (Gui.shown ((r, t, v) :: q) row)
                               (Gui.lookup (Gui.progress_bars a) row)).
    { intros Hcase. destruct (IH a) as (sb & Hrun & Hsb). exists sb.
      split; [exact Hrun|]. intros row. rewrite Hsb.
      destruct Hcase as [Hsame|Hnone]; [now rewrite Hsame|].
      destruct (String.eqb_spec r row) as [->|Hne].
      - now rewrite Hnone.
      - destruct (Gui.lookup (Gui.progress_bars a) row) as [b|]; [|reflexivity].
        cbn [option_map]. unfold Gui.shown. rewrite !channel_values_cons.
        apply String.eqb_neq in Hne. now rewrite Hne. }
    destruct (Gui.lookup (Gui.progress_bars a) r) as [b|] eqn:Hb;
      [|apply Hskip; now right].
    destruct (String.eqb_spec t "video") as [->|Hv].
    { match goal with |- context [Gui.process_progress_queue q ?a1] =>
        destruct (IH a1) as (sb & Hrun & Hsb)
      end.
      exists sb. split; [rewrite Hrun; reflexivity|].
      intros row. rewrite Hsb. cbn [Gui.set_progress Gui.progress_bars].
      unfold Gui.shown. rewrite !channel_values_cons. cbn [String.eqb Ascii.eqb Bool.eqb].
      rewrite ?String.eqb_refl, ?andb_true_r, ?andb_false_r.
      destruct (String.eqb_spec r row) as [->|Hne].
      - rewrite lookup_assign_same, Hb. cbn [option_map Gui.video Gui.audio].
        now rewrite last_cons.
      - now rewrite lookup_assign_other by congruence. }
    destruct (String.eqb_spec t "audio") as [->|Ha].
    { match goal with |- context [Gui.process_progress_queue q ?a1] =>
        destruct (IH a1) as (sb & Hrun & Hsb)
      end.
      exists sb. split; [rewrite Hrun; reflexivity|].
      intros row. rewrite Hsb. cbn [Gui.set_progress Gui.progress_bars].
      unfold Gui.shown. rewrite !channel_values_cons. cbn [String.eqb Ascii.eqb Bool.eqb].
      rewrite ?String.eqb_refl, ?andb_true_r, ?andb_false_r.
      destruct (String.eqb_spec r row) as [->|Hne].
      - rewrite lookup_assign_same, Hb. cbn [option_map Gui.video Gui.audio].
        now rewrite last_cons.
      - now rewrite lookup_assign_other by congruence. }
    destruct (String.eqb_spec t "frame") as [->|Hf]; [congruence|].
    apply Hskip. left. intros row. unfold Gui.shown. rewrite !channel_values_cons.
    apply String.eqb_neq in Hv, Ha. now rewrite Hv, Ha, !andb_false_r.
Qed.

(** X11.  One run of [process_progress_queue] over entries none of which
    is for the key ["frame"] empties the queue and changes nothing but the
    bars: each bar of a row that has bars shows the last value the queue held
    for it, or the value it had when the queue held none, and the entries of
    rows without bars are dropped.  An entry for the key ["frame"] of a row
    that has bars ends the run, leaving the entries behind it in the queue
    for the next run. *)
Theorem process_progress_queue_shows
    (queue : list (string * string * Z)) (a : Gui.app) :
  (Forall (fun entry => snd (fst entry) <> "frame") queue ->
   exists shown_bars,
     Gui.process_progress_queue queue a
     = ([], Gui.set_progress shown_bars (Gui.score_labels a) a)
     /\ forall row,
          Gui.lookup shown_bars row
          = option_map (Gui.shown queue row) (Gui.lookup (Gui.progress_bars a) row))
  /\ (forall row v rest b,
        Gui.lookup (Gui.progress_bars a) row = Some b ->
        Gui.process_progress_queue ((row, "frame", v) :: rest) a = (rest, a))
  /\ (forall row progress_type v rest,
        Gui.lookup (Gui.progress_bars a) row = None ->
        Gui.process_progress_queue ((row, progress_type, v) :: rest) a
        = Gui.process_progress_queue rest a).
Proof.
  split; [apply process_progress_queue_run|]. split.
  - intros row v rest b Hb. cbn [Gui.process_progress_queue]. now rewrite Hb.
  - intros row t v rest Hb. cbn [Gui.process_progress_queue]. now rewrite Hb.
Qed.

Example process_progress_queue_example :
  let a := Gui.setup_progress_bars
             (Gui.set_file_list "right" ["r0"]
                (Gui.set_file_list "left" ["l0"] Gui.empty)) in
  Gui.progress_bars
    (snd (Gui.process_progress_queue
            [("row_0", "video", 10); ("row_7", "video", 50); ("row_0", "audio", 25);
             ("row_0", "video", 32)]%Z a))
  = [("row_0", {| Gui.video := 32; Gui.audio := 25 |})]
  /\ fst (Gui.process_progress_queue
            [("row_0", "video", 10); ("row_0", "frame", 1); ("row_0", "video", 32)]%Z a)
     = [("row_0", "video", 32%Z)].
Proof. split; reflexivity. Qed.

Lemma channel_values_foreign row key progress_type q :
  key <> row ->
  Forall (fun entry => fst (fst entry) = row) q ->
  channel_values key progress_type q = [].
Proof.
  intros Hne. induction 1 as [|[[r t] v] q Hr _ IH]; [reflexivity|].
  cbn [fst] in Hr. subst r. rewrite channel_values_cons.
  destruct (String.eqb_spec row key); [congruence|]. exact IH.
Qed.

(** What a completed row has reported: on each of its two bars a list of
    values that ends with 100, and nothing for another row or another key. *)
Lemma completed_row_values row_idx left_file right_file w s record s' :
  compare_row row_idx left_file right_file w s = (Ok (Some record), s') ->
  exists new vs us,
    progress_queue s' = progress_queue s ++ new
    /\ channel_values (row_id row_idx) "video" new = vs ++ [100%Z]
    /\ channel_values (row_id row_idx) "audio" new = us ++ [100%Z]
    /\ Forall (fun entry => fst (fst entry) = row_id row_idx) new
    /\ Forall (fun entry => snd (fst entry) <> "frame") new.
Proof.
  intros Hrun.
  destruct (compare_row_progress_shape _ _ _ _ _ _ _ Hrun) as (new & Hnew & Hshape).
  cbv zeta in Hshape.
  destruct Hshape as [(H & _) | [(H & _) | (d & V & k & _ & FV & _ & ->)]];
    try discriminate.
  set (rid := row_id row_idx) in *.
  assert (Hfirst : Forall (on_channel rid "audio") (firstn k (audio_steps row_idx))).
  { unfold audio_steps. destruct k as [|[|[|[|k]]]]; cbn [firstn]; repeat constructor. }
  assert (Hva : forall v q, channel_values rid "audio" ((rid, "video", v) :: q)
                            = channel_values rid "audio" q).
  { intros v q. rewrite channel_values_cons, String.eqb_refl. reflexivity. }
  assert (Hav : forall v q, channel_values rid "video" ((rid, "audio", v) :: q)
                            = channel_values rid "video" q).
  { intros v q. rewrite channel_values_cons, String.eqb_refl. reflexivity. }
  exists (((rid, "video", 0%Z) :: V)
          ++ [(rid, "video", 100%Z); (rid, "audio", 0%Z)]
          ++ firstn k (audio_steps row_idx) ++ [(rid, "audio", 100%Z)]).
  exists (0%Z :: map snd V), (0%Z :: firstn k [25; 50; 75]%Z).
  split; [exact Hnew|]. cbn [app].
  split; [|split; [|split]].
  - rewrite channel_values_here, channel_values_app, (channel_values_same _ _ _ FV).
    rewrite channel_values_here, Hav, channel_values_app.
    rewrite (channel_values_other rid "audio" "video" _ eq_refl Hfirst).
    cbn [app]. rewrite Hav. reflexivity.
  - rewrite Hva, channel_values_app.
    rewrite (channel_values_other rid "video" "audio" V eq_refl FV).
    cbn [app]. rewrite Hva, channel_values_here, channel_values_app.
    unfold rid at 1 2. rewrite channel_values_audio_steps. fold rid.
    rewrite channel_values_here. reflexivity.
  - constructor; [reflexivity|]. apply Forall_app. split.
    + eapply Forall_impl; [|exact FV]. now intros e [He _].
    + constructor; [reflexivity|]. constructor; [reflexivity|].
      apply Forall_app. split.
      * eapply Forall_impl; [|exact Hfirst]. now intros e [He _].
      * repeat constructor.
  - constructor; [discriminate|]. apply Forall_app. split.
    + eapply Forall_impl; [|exact FV]. intros e [_ He]. rewrite He. discriminate.
    + constructor; [discriminate|]. constructor; [discriminate|].
      apply Forall_app. split.
      * eapply Forall_impl; [|exact Hfirst]. intros e [_ He]. rewrite He. discriminate.
      * repeat constructor. discriminate.
Qed.

(** X12.  When a row returns a record and the application has bars for
    it, one run of [process_progress_queue] over what the row reported
    empties the queue, leaves both bars of the row at 100 and leaves the bars
    of every other row as they were. *)
Theorem completed_row_fills_bars
    (row_idx : nat) (left_file right_file : string) (w : env) (s s' : state)
    (record : dict) (a : Gui.app) (b : Gui.bars) :
  compare_row row_idx left_file right_file w s = (Ok (Some record), s') ->
  Gui.lookup (Gui.progress_bars a) (row_id row_idx) = Some b ->
  exists new shown_bars,
    progress_queue s' = progress_queue s ++ new
    /\ Gui.process_progress_queue new a
       = ([], Gui.set_progress shown_bars (Gui.score_labels a) a)
    /\ Gui.lookup shown_bars (row_id row_idx)
       = Some {| Gui.video := 100; Gui.audio := 100 |}
    /\ (forall key, key <> row_id row_idx ->
                    Gui.lookup shown_bars key = Gui.lookup (Gui.progress_bars a) key).
Proof.
  intros Hrun Hb.
  destruct (completed_row_values _ _ _ _ _ _ _ Hrun)
    as (new & vs & us & Hnew & Hv & Hu & Hrow & Hframe).
  destruct (process_progress_queue_run new a Hframe) as (sb & Hp & Hsb).
  exists new, sb. split; [exact Hnew|]. split; [exact Hp|]. split.
  - rewrite Hsb, Hb. cbn [option_map]. unfold Gui.shown.
    now rewrite Hv, Hu, !last_last.
  - intros key Hkey. rewrite Hsb.
    destruct (Gui.lookup (Gui.progress_bars a) key) as [[bv ba]|]; [|reflexivity].
    cbn [option_map]. unfold Gui.shown.
    now rewrite !(channel_values_foreign _ _ _ _ Hkey Hrow).
Qed.

(** A row of two files whose tools answer, and the bars set up for it. *)
Lemma completed_row_fills_bars_witness :
  let w := responding_env never_stopped sample_tools ["a.mp4"] ["b.mp4"] "VMAF" in
  let a := Gui.setup_progress_bars
             (Gui.set_file_list "right" ["b.mp4"]
                (Gui.set_file_list "left" ["a.mp4"] Gui.empty)) in
  fst (compare_row 0 "a.mp4" "b.mp4" w initial_state)
  = Ok (Some [("video_winner", Str "left"); ("audio_winner", Str "left");
              ("video_score_left", Num 91.5); ("video_score_right", Num 88.0);
              ("audio_score_left", Num 40.0); ("audio_score_right", Num 37.5)])
  /\ Gui.lookup (Gui.progress_bars a) (row_id 0)
     = Some {| Gui.video := 0; Gui.audio := 0 |}
  /\ exists new shown_bars,
       progress_queue (snd (compare_row 0 "a.mp4" "b.mp4" w initial_state))
       = progress_queue initial_state ++ new
       /\ Gui.process_progress_queue new a
          = ([], Gui.set_progress shown_bars (Gui.score_labels a) a)
       /\ Gui.lookup shown_bars (row_id 0)
          = Some {| Gui.video := 100; Gui.audio := 100 |}
       /\ (forall key, key <> row_id 0 ->
                       Gui.lookup shown_bars key = Gui.lookup (Gui.progress_bars a) key).
Proof.
  intros w a.
  split; [vm_compute; reflexivity|]. split; [vm_compute; reflexivity|].
  apply (completed_row_fills_bars 0 "a.mp4" "b.mp4" w initial_state
           (snd (compare_row 0 "a.mp4" "b.mp4" w initial_state))
           [("video_winner", Str "left"); ("audio_winner", Str "left");
            ("video_score_left", Num 91.5); ("video_score_right", Num 88.0);
            ("audio_score_left", Num 40.0); ("audio_score_right", Num 37.5)]
           a {| Gui.video := 0; Gui.audio := 0 |}).
  - vm_compute. reflexivity.
  - vm_compute. reflexivity.
Defined.

End Bars.

(** ** The collection of the results *)

Section Collect.













(** Four rows complete, the second one first: one raised, one was cancelled
    and one returned an empty record; only the record of the second row is
    stored, and the display is scheduled for it alone.  When the stop flag is
    found set by the second read, the rows after the first are left. *)
Example collect_completed_example :
  let record := row_result (winner_dict "left" 91.5 88.0) tie_result in
  let completed := [(1, Ok (Some record)); (0, Raise RuntimeError);
                    (2, Ok None); (3, Ok (Some []))] in
  let a := Gui.setup_progress_bars
             (Gui.set_file_list "right" ["b0"; "b1"; "b2"; "b3"]
                (Gui.set_file_list "left" ["a0"; "a1"; "a2"; "a3"] Gui.empty)) in
  let w := bare_env never_stopped [] [] in
  fst (Gui.collect_completed completed a [] w initial_state)
  = Ok (Gui.set_results [("row_1", record)] a,
        [Gui.RefreshFileDisplay "left"; Gui.RefreshFileDisplay "right";
         Gui.UpdateLabels "row_1" (Num 91.5) (Num 88.0) (Int 0) (Int 0) "VMAF"])
  /\ log_queue (snd (Gui.collect_completed completed a [] w initial_state))
     = [("ERROR", [T "Row "; I 1; T " comparison failed: "; E RuntimeError])]
  /\ fst (Gui.collect_completed ((0, Ok (Some record)) :: completed) a []
            (bare_env (stopped_from 1) [] []) initial_state)
     = Ok (Gui.set_results [("row_0", record)] a,
           [Gui.RefreshFileDisplay "left"; Gui.RefreshFileDisplay "right";
            Gui.UpdateLabels "row_0" (Num 91.5) (Num 88.0) (Int 0) (Int 0) "VMAF"]).
Proof. intros record completed a w. split; [|split]; vm_compute; reflexivity. Qed.

End Collect.

(** ** The score labels *)

Section Display.

Local Open Scope float_scope.

Lemma SFcompare_none (x y : spec_float) :
  SFcompare x y = None -> SFeqb x x = false \/ SFeqb y y = false.
Proof.
  destruct x as [sx|sx| |sx mx ex], y as [sy|sy| |sy my ey]; cbn;
    auto; try discriminate;
    try (destruct sx; discriminate); try (destruct sy; discriminate);
    try (destruct sx, sy; discriminate).
Qed.

Lemma SFeqb_abs (x : spec_float) : SFeqb (SFabs x) (SFabs x) = SFeqb x x.
Proof. rewrite !SFeqb_diag. now destruct x. Qed.

(** [d >= t] is the negation of [d < t] for two numbers. *)
Lemma leb_not_ltb (d t : float) :
  is_nan d = false -> (0 <? t) = true -> (t <=? d) = negb (d <? t).
Proof.
  unfold is_nan. rewrite leb_spec, !ltb_spec, FloatAxioms.eqb_spec.
  intros Hd Ht. apply negb_false_iff in Hd.
  unfold SFleb, SFltb in *.
  rewrite (SFcompare_antisym (Prim2SF t) (Prim2SF d)).
  destruct (SFcompare (Prim2SF t) (Prim2SF d)) as [[]|] eqn:Hc; cbn; try reflexivity.
  exfalso. apply SFcompare_none in Hc as [Hc|Hc]; [|congruence].
  rewrite SFeqb_diag in Hc. change (Prim2SF 0) with (S754_zero false) in Ht.
  destruct (Prim2SF t); discriminate.
Qed.

Lemma is_nan_abs (x : float) : is_nan (abs x) = is_nan x.
Proof.
  unfold is_nan. rewrite !FloatAxioms.eqb_spec, abs_spec. now rewrite SFeqb_abs.
Qed.

(** What one half of the update shows for two scores that are floats. *)
Lemma show_scores_floats (t a b : float) (l r d : Gui.label) :
  let diff := PyFloat.absdiff a b in
  Gui.show_scores t (Num a) (Num b) (l, r, d)
  = ({| Gui.text := [T "Left: "; F 2 a];
        Gui.foreground := if PyFloat.gt a b && (t <=? diff) then "green" else "gray" |},
     {| Gui.text := [T "Right: "; F 2 b];
        Gui.foreground := if PyFloat.gt a b && (t <=? diff) then "gray"
                          else if PyFloat.gt b a && (t <=? diff) then "red"
                               else "gray" |},
     {| Gui.text := if PyFloat.lt diff t then [T "≈ Tie"]
                    else [T (if PyFloat.gt a b then "Left"
                             else if PyFloat.gt b a then "Right" else "Tie");
                          T " +"; F 2 diff];
        Gui.foreground := if PyFloat.lt diff t then "gray"
                          else if PyFloat.gt a b then "green" else "red" |},
     true).
Proof.
  intros diff. unfold Gui.show_scores.
  cbn [PyNum.of_value PyNum.fixed2 PyNum.abs_diff PyNum.greater PyNum.less PyNum.greater_eq
       Gui.text Gui.foreground].
  fold (PyFloat.gt a b). fold (PyFloat.gt b a). fold diff.
  fold (PyFloat.lt diff t).
  destruct (PyFloat.lt diff t), (PyFloat.gt a b), (PyFloat.gt b a), (t <=? diff);
    reflexivity.
Qed.

(** The colours and the tie text of such a half against the decision of the
    tie band of the same width. *)
Lemma show_scores_decision (t a b : float) (l r d l' r' d' : Gui.label) (ok : bool) :
  (0 <? t) = true ->
  Gui.show_scores t (Num a) (Num b) (l, r, d) = (l', r', d', ok) ->
  ok = true
  /\ Gui.text l' = [T "Left: "; F 2 a]
  /\ Gui.text r' = [T "Right: "; F 2 b]
  /\ (Gui.text d' = [T "≈ Tie"] <-> band_winner a b t = "tie")
  /\ (is_nan (a - b) = false ->
      (Gui.foreground l' = "green" <-> band_winner a b t = "left")
      /\ (Gui.foreground r' = "red" <-> band_winner a b t = "right")).
Proof.
  intros Ht. rewrite show_scores_floats. cbv zeta. intros H.
  injection H as <- <- <- <-. cbn [Gui.text Gui.foreground].
  split; [reflexivity|]. split; [reflexivity|]. split; [reflexivity|].
  unfold band_winner. split.
  - destruct (PyFloat.lt (PyFloat.absdiff a b) t); split; try reflexivity;
      try discriminate.
    destruct (PyFloat.gt a b); discriminate.
  - intros Hnan.
    assert (Hd : is_nan (PyFloat.absdiff a b) = false)
      by (unfold PyFloat.absdiff; now rewrite is_nan_abs).
    rewrite (leb_not_ltb _ _ Hd Ht).
    fold (PyFloat.lt (PyFloat.absdiff a b) t).
    destruct (PyFloat.lt (PyFloat.absdiff a b) t) eqn:Htie; cbn [negb].
    + rewrite !andb_false_r. split; split; discriminate.
    + rewrite !andb_true_r.
      destruct (PyFloat.gt a b) eqn:Hgt.
      * split; split; try reflexivity; discriminate.
      * assert (Hlt : PyFloat.gt b a = true)
          by (apply (apart_ordered a b t); assumption).
        rewrite Hlt. split; split; try reflexivity; discriminate.
Qed.

(** X14.  The update of the score labels of a row that has labels
    changes the six labels of that row and nothing else.  It shows the four
    scores with two decimals.  The video labels follow the video decision:
    the difference reads as a tie exactly when the decision of the tie band
    of the metric is a tie, and, for scores whose difference is a number, the
    left score is green exactly when the decision is left and the right score
    red exactly when it is right.  The audio labels follow the band of width
    2.0, not the band of 1.0 of the audio decision: when the decision names a
    winner by a difference below 2.0, the labels show a tie and both scores
    in gray. *)
Theorem update_labels_shows
    (row metric : string) (vl vr al ar : float) (a : Gui.app) (ls : Gui.labels) :
  Gui.lookup (Gui.score_labels a) row = Some ls ->
  let t := if String.eqb metric "VMAF" then vmaf_win_threshold
           else ssim_win_threshold in
  exists ls',
    Gui.update_labels row (Num vl) (Num vr) (Num al) (Num ar) metric a
    = Gui.set_progress (Gui.progress_bars a)
        (Gui.assign (Gui.score_labels a) row ls') a
    /\ Gui.text (Gui.vidleft ls') = [T "Left: "; F 2 vl]
    /\ Gui.text (Gui.vidright ls') = [T "Right: "; F 2 vr]
    /\ Gui.text (Gui.audioleft ls') = [T "Left: "; F 2 al]
    /\ Gui.text (Gui.audioright ls') = [T "Right: "; F 2 ar]
    /\ (Gui.text (Gui.viddiff ls') = [T "≈ Tie"] <-> band_winner vl vr t = "tie")
    /\ (is_nan (vl - vr) = false ->
        (Gui.foreground (Gui.vidleft ls') = "green" <-> band_winner vl vr t = "left")
        /\ (Gui.foreground (Gui.vidright ls') = "red"
            <-> band_winner vl vr t = "right"))
    /\ (Gui.text (Gui.audiodiff ls') = [T "≈ Tie"]
        <-> band_winner al ar psnr_win_threshold = "tie")
    /\ (is_nan (al - ar) = false ->
        (Gui.foreground (Gui.audioleft ls') = "green"
         <-> band_winner al ar psnr_win_threshold = "left")
        /\ (Gui.foreground (Gui.audioright ls') = "red"
            <-> band_winner al ar psnr_win_threshold = "right"))
    /\ (band_winner al ar 1.0 <> "tie" ->
        PyFloat.lt (PyFloat.absdiff al ar) 2.0 = true ->
        Gui.text (Gui.audiodiff ls') = [T "≈ Tie"]
        /\ Gui.foreground (Gui.audioleft ls') = "gray"
        /\ Gui.foreground (Gui.audioright ls') = "gray").
Proof.
  intros Hls t. unfold Gui.update_labels. rewrite Hls. fold t.
  assert (Ht : (0 <? t) = true) by (unfold t; destruct (String.eqb metric "VMAF"); reflexivity).
  destruct (Gui.show_scores t (Num vl) (Num vr)
              (Gui.vidleft ls, Gui.vidright ls, Gui.viddiff ls))
    as [[[l' r'] d'] ok] eqn:Hv.
  destruct (show_scores_decision _ _ _ _ _ _ _ _ _ _ Ht Hv)
    as (-> & Hl & Hr & Htie & Hcol).
  destruct (Gui.show_scores psnr_win_threshold (Num al) (Num ar)
              (Gui.audioleft ls, Gui.audioright ls, Gui.audiodiff ls))
    as [[[la' ra'] da'] oka] eqn:Ha.
  pose proof Ha as Ha'. rewrite show_scores_floats in Ha'. cbv zeta in Ha'.
  assert (Hp : (0 <? psnr_win_threshold) = true) by reflexivity.
  destruct (show_scores_decision psnr_win_threshold al ar _ _ _ _ _ _ _ Hp Ha)
    as (-> & Hla & Hra & Hatie & Hacol).
  eexists. split; [reflexivity|]. cbn [Gui.vidleft Gui.vidright Gui.viddiff
                                       Gui.audioleft Gui.audioright Gui.audiodiff].
  repeat (split; [assumption|]).
  intros _ Hclose. injection Ha' as <- <- <-. cbn [Gui.text Gui.foreground].
  change psnr_win_threshold with 2.0.
  assert (Hd : is_nan (PyFloat.absdiff al ar) = false).
  { unfold PyFloat.lt in Hclose. unfold is_nan.
    destruct (PyFloat.absdiff al ar =? PyFloat.absdiff al ar) eqn:He; [reflexivity|].
    exfalso. revert Hclose He. rewrite ltb_spec, FloatAxioms.eqb_spec, SFeqb_diag.
    unfold SFltb. destruct (Prim2SF (PyFloat.absdiff al ar)); intros H1 H2;
      first [discriminate H2 | discriminate H1]. }
  rewrite (leb_not_ltb _ 2.0 Hd Hp).
  fold (PyFloat.lt (PyFloat.absdiff al ar) 2.0). rewrite Hclose. cbn [negb].
  rewrite !andb_false_r. repeat split.
Qed.

(** A row of the VMAF scores 91.5 and 88.0 and the audio scores 40.0 and
    38.5: the video labels name the left file, which the decision chose; the
    audio decision is left too, by 1.5 dB, and the audio labels show a tie. *)
Lemma update_labels_shows_witness :
  let a := Gui.setup_progress_bars
             (Gui.set_file_list "right" ["b.mp4"]
                (Gui.set_file_list "left" ["a.mp4"] Gui.empty)) in
  Gui.lookup (Gui.score_labels a) "row_0" = Some Gui.initial_labels
  /\ band_winner 91.5 88.0 vmaf_win_threshold = "left"
  /\ band_winner 40.0 38.5 1.0 = "left"
  /\ Gui.lookup
       (Gui.score_labels
          (Gui.update_labels "row_0" (Num 91.5) (Num 88.0) (Num 40.0) (Num 38.5)
             "VMAF" a)) "row_0"
     = Some {| Gui.vidleft := {| Gui.text := [T "Left: "; F 2 91.5];
                                 Gui.foreground := "green" |};
               Gui.vidright := {| Gui.text := [T "Right: "; F 2 88.0];
                                  Gui.foreground := "gray" |};
               Gui.viddiff := {| Gui.text := [T "Left"; T " +"; F 2 3.5];
                                 Gui.foreground := "green" |};
               Gui.audioleft := {| Gui.text := [T "Left: "; F 2 40.0];
                                   Gui.foreground := "gray" |};
               Gui.audioright := {| Gui.text := [T "Right: "; F 2 38.5];
                                    Gui.foreground := "gray" |};
               Gui.audiodiff := {| Gui.text := [T "≈ Tie"];
                                   Gui.foreground := "gray" |} |}
  /\ exists ls',
       Gui.update_labels "row_0" (Num 91.5) (Num 88.0) (Num 40.0) (Num 38.5) "VMAF" a
       = Gui.set_progress (Gui.progress_bars a)
           (Gui.assign (Gui.score_labels a) "row_0" ls') a
       /\ (Gui.foreground (Gui.vidleft ls') = "green"
           <-> band_winner 91.5 88.0 vmaf_win_threshold = "left")
       /\ Gui.text (Gui.audiodiff ls') = [T "≈ Tie"].
Proof.
  intros a.
  split; [vm_compute; reflexivity|]. split; [vm_compute; reflexivity|].
  split; [vm_compute; reflexivity|]. split; [vm_compute; reflexivity|].
  destruct (update_labels_shows "row_0" "VMAF" 91.5 88.0 40.0 38.5 a Gui.initial_labels)
    as (ls' & Heq & _ & _ & _ & _ & _ & Hcol & _ & _ & Hgap).
  - vm_compute. reflexivity.
  - exists ls'. split; [exact Heq|]. split.
    + apply Hcol. vm_compute. reflexivity.
    + apply Hgap; [vm_compute; discriminate | vm_compute; reflexivity].
Defined.

(** A row whose two stages gave no score: the placeholders 0 are shown as
    0.00, and both differences as ties. *)
Example update_labels_placeholders :
  let a := Gui.setup_progress_bars
             (Gui.set_file_list "right" ["b.mp4"]
                (Gui.set_file_list "left" ["a.mp4"] Gui.empty)) in
  Gui.lookup
    (Gui.score_labels
       (Gui.update_labels "row_0" (Int 0) (Int 0) (Int 0) (Int 0) "SSIM" a)) "row_0"
  = Some {| Gui.vidleft := {| Gui.text := [T "Left: "; F 2 0];
                              Gui.foreground := "gray" |};
            Gui.vidright := {| Gui.text := [T "Right: "; F 2 0];
                               Gui.foreground := "gray" |};
            Gui.viddiff := {| Gui.text := [T "≈ Tie"]; Gui.foreground := "gray" |};
            Gui.audioleft := {| Gui.text := [T "Left: "; F 2 0];
                                Gui.foreground := "gray" |};
            Gui.audioright := {| Gui.text := [T "Right: "; F 2 0];
                                 Gui.foreground := "gray" |};
            Gui.audiodiff := {| Gui.text := [T "≈ Tie"]; Gui.foreground := "gray" |} |}.
Proof. intros a. vm_compute. reflexivity. Qed.

End Display.

(** ** The marks of the winners and the addition of files *)

Section Marks.

Lemma display_names_nth res panel (k : nat) (files : list string) (i : nat) :
  nth_error (Gui.display_names res panel k files) i
  = option_map (Gui.display_name res panel (k + i)) (nth_error files i).
Proof.
  revert k i. induction files as [|f files IH]; intros k [|i];
    cbn [Gui.display_names nth_error option_map]; try reflexivity.
  - now rewrite Nat.add_0_r.
  - rewrite IH. now replace (S k + i) with (k + S i) by lia.
Qed.

Lemma display_names_length res panel (k : nat) (files : list string) :
  length (Gui.display_names res panel k files) = length files.
Proof.
  revert k. induction files as [|f files IH]; intros k; cbn [Gui.display_names length];
    [reflexivity | now rewrite IH].
Qed.

(** X15.  A refresh of a list box changes that box alone, drops its
    selection and lists the files of its panel in their order, each under its
    own name.  The item of the file at position [i] carries the marks of the
    record stored for row [i]: none when there is no record, else [[V]] when
    the video winner of the record is this panel and [[A]] when its audio
    winner is, in this order.  So a row marks its video winner on one side at
    most, and a tie on neither. *)
Theorem refresh_file_display_marks (panel : string) (a : Gui.app) :
  let a' := Gui.refresh_file_display panel a in
  let box := Gui.listbox_of panel a' in
  length (Gui.items box) = length (Gui.file_list panel a)
  /\ Gui.curselection box = []
  /\ Gui.left_files a' = Gui.left_files a
  /\ Gui.right_files a' = Gui.right_files a
  /\ Gui.results a' = Gui.results a
  /\ (if String.eqb panel "left"
      then Gui.right_listbox a' = Gui.right_listbox a
      else Gui.left_listbox a' = Gui.left_listbox a)
  /\ (forall i file,
        nth_error (Gui.file_list panel a) i = Some file ->
        exists marks,
          nth_error (Gui.items box) i = Some (marks, file)
          /\ (Gui.lookup (Gui.results a) (row_id i) = None -> marks = "")
          /\ (forall record video_winner audio_winner,
                Gui.lookup (Gui.results a) (row_id i) = Some record ->
                Gui.lookup record "video_winner" = Some (Str video_winner) ->
                Gui.lookup record "audio_winner" = Some (Str audio_winner) ->
                marks
                = ((if String.eqb video_winner panel then "[V] " else "")
                   ++ (if String.eqb audio_winner panel then "[A] " else ""))%string))
  /\ (forall i, length (Gui.file_list panel a) <= i -> nth_error (Gui.items box) i = None).
Proof.
  intros a' box.
  destruct (refresh_file_display_frame panel a) as (HL & HR & HZ & _).
  destruct (refresh_file_display_box panel a) as (Hbox & Hother).
  fold a' in HL, HR, HZ, Hbox, Hother. fold box in Hbox.
  rewrite Hbox. cbn [Gui.items Gui.curselection].
  split; [apply display_names_length|]. split; [reflexivity|].
  split; [exact HL|]. split; [exact HR|]. split; [exact HZ|]. split; [exact Hother|].
  split.
  - intros i file Hfile. rewrite display_names_nth, Hfile. cbn [option_map Nat.add].
    unfold Gui.display_name.
    destruct (Gui.lookup (Gui.results a) (row_id i)) as [record|].
    + eexists. split; [reflexivity|]. split; [discriminate|].
      intros record' vw aw Hr Hv Ha. injection Hr as <-.
      unfold Gui.indicator. now rewrite Hv, Ha.
    + exists "". split; [reflexivity|]. split; [reflexivity|]. discriminate.
  - intros i Hi. apply nth_error_None. now rewrite display_names_length.
Qed.

(** Two rows with results, a third file on the left without a pair: the video
    of the first row was won by the left file and its audio by the right
    one, the second row is a tie for both. *)
Example refresh_file_display_example :
  let a := Gui.set_results
             [("row_0", row_result (winner_dict "left" 91.5 88.0)
                          (winner_dict "right" 37.5 40.0));
              ("row_1", row_result tie_result tie_result)]
             (Gui.set_file_list "right" ["/r/x.mp4"; "/r/y.mp4"]
                (Gui.set_file_list "left" ["/l/x.mp4"; "/l/y.mp4"; "/l/z.mp4"]
                   Gui.empty)) in
  Gui.items (Gui.left_listbox (Gui.refresh_file_display "left" a))
  = [("[V] ", "/l/x.mp4"); ("", "/l/y.mp4"); ("", "/l/z.mp4")]
  /\ Gui.items (Gui.right_listbox (Gui.refresh_file_display "right" a))
     = [("[A] ", "/r/x.mp4"); ("", "/r/y.mp4")].
Proof. intros a. split; vm_compute; reflexivity. Qed.

(** X16.  [add_files] with no file chosen changes nothing.  Otherwise it
    puts the chosen files, in their order, after the files of the panel and
    leaves the other panel as it is.  It keeps the results of earlier
    comparisons, so the files that were there keep their marks in the list
    box of the panel, which lists all the files; the other list box is not
    refreshed.  The bars and the score labels are made anew for the rows of
    the two lists as they are now, at 0 and without scores, and one line of
    the console says how many files were added. *)
Theorem add_files_appends (panel : string) (files : list string) (a : Gui.app) :
  let a' := Gui.add_files panel files a in
  let count := Nat.min (length (Gui.left_files a')) (length (Gui.right_files a')) in
  Gui.file_list panel a' = Gui.file_list panel a ++ files
  /\ (if String.eqb panel "left"
      then Gui.right_files a' = Gui.right_files a
      else Gui.left_files a' = Gui.left_files a)
  /\ Gui.results a' = Gui.results a
  /\ (files = [] -> a' = a)
  /\ (files <> [] ->
      Gui.items (Gui.listbox_of panel a')
      = Gui.display_names (Gui.results a) panel 0 (Gui.file_list panel a ++ files)
      /\ (if String.eqb panel "left"
          then Gui.right_listbox a' = Gui.right_listbox a
          else Gui.left_listbox a' = Gui.left_listbox a)
      /\ Gui.progress_bars a'
         = map (fun i => (row_id i, {| Gui.video := 0; Gui.audio := 0 |})) (seq 0 count)
      /\ Gui.score_labels a'
         = map (fun i => (row_id i, Gui.initial_labels)) (seq 0 count)
      /\ Gui.console a'
         = Gui.console a
           ++ [("INFO", [T "Added "; I (Z.of_nat (length files)); T " files to ";
                         T panel; T " panel"])]).
Proof.
  intros a' count.
  destruct files as [|f files].
  { cbn [Gui.add_files] in a'. subst a'. rewrite app_nil_r.
    split; [reflexivity|]. split; [now destruct (String.eqb panel "left")|].
    split; [reflexivity|]. split; [reflexivity|]. congruence. }
  set (fs := f :: files) in *.
  set (a1 := Gui.set_file_list panel (Gui.file_list panel a ++ fs) a).
  set (a2 := Gui.refresh_file_display panel a1).
  set (a3 := Gui.setup_progress_bars a2).
  assert (Ha' : a' = Gui.log_message "INFO"
                       [T "Added "; I (Z.of_nat (length fs)); T " files to ";
                        T panel; T " panel"] a3) by reflexivity.
  destruct (set_file_list_spec panel (Gui.file_list panel a ++ fs) a)
    as (S1 & S2 & S3 & S4 & S5 & S6). fold a1 in S1, S2, S3, S4, S5, S6.
  destruct (refresh_file_display_frame panel a1) as (F1 & F2 & F3 & F4).
  destruct (refresh_file_display_box panel a1) as (B1 & B2).
  fold a2 in F1, F2, F3, F4, B1, B2.
  destruct (setup_progress_bars_frame a2) as (P1 & P2 & P3 & P4 & P5 & P6).
  destruct (setup_progress_bars_rows a2) as (R1 & R2).
  fold a3 in P1, P2, P3, P4, P5, P6, R1, R2.
  assert (L' : Gui.left_files a' = Gui.left_files a3) by (rewrite Ha'; reflexivity).
  assert (R' : Gui.right_files a' = Gui.right_files a3) by (rewrite Ha'; reflexivity).
  assert (Hcount : count = Nat.min (length (Gui.left_files a2))
                             (length (Gui.right_files a2))).
  { unfold count. now rewrite L', R', P1, P2. }
  split.
  { rewrite <- S1. apply file_list_eq; congruence. }
  split.
  { destruct (String.eqb panel "left"); destruct S2; congruence. }
  split; [rewrite Ha'; cbn [Gui.log_message Gui.results]; congruence|].
  split; [discriminate|]. intros _.
  split.
  { transitivity (Gui.items (Gui.listbox_of panel a2)).
    - f_equal. rewrite Ha'. apply listbox_of_eq; cbn [Gui.log_message
        Gui.left_listbox Gui.right_listbox]; assumption.
    - rewrite B1. cbn [Gui.items]. now rewrite S3, S1. }
  split.
  { rewrite Ha'. cbn [Gui.log_message Gui.left_listbox Gui.right_listbox].
    destruct (String.eqb panel "left"); congruence. }
  split; [rewrite Ha', Hcount; exact R1|].
  split; [rewrite Ha', Hcount; exact R2|].
  rewrite Ha'. cbn [Gui.log_message Gui.console]. now rewrite P6, F4, S6.
Qed.

(** A file added on the right of a comparison that has results: the marks of
    the first row stay, and a second row gets its bars. *)
Example add_files_example :
  let a := Gui.set_results
             [("row_0", row_result (winner_dict "right" 80.0 91.5) tie_result)]
             (Gui.setup_progress_bars
                (Gui.set_file_list "right" ["/r/x.mp4"]
                   (Gui.set_file_list "left" ["/l/x.mp4"; "/l/y.mp4"] Gui.empty))) in
  let a' := Gui.add_files "right" ["/r/y.mp4"] a in
  Gui.right_files a' = ["/r/x.mp4"; "/r/y.mp4"]
  /\ Gui.items (Gui.right_listbox a') = [("[V] ", "/r/x.mp4"); ("", "/r/y.mp4")]
  /\ map fst (Gui.progress_bars a) = ["row_0"]
  /\ map fst (Gui.progress_bars a') = ["row_0"; "row_1"].
Proof. intros a a'. repeat split; vm_compute; reflexivity. Qed.

End Marks.
